(** * Voice Vault: speaker verification core

    A shallow embedding of the server side of the voice-unlock project
    ([voice_vault_server/ml_utils.py], [voice_vault_server/storage.py],
    [voice_vault_server/config.py]) together with the properties its design
    document states about it, followed by the request handlers of
    [voice_vault_server/app.py], the rest of the storage, and [build_url] of
    [raspi_client/pi_client.py], with properties read off the code.

    Modelling conventions.
    - A Python/NumPy [float] is a real number of [R]: arithmetic is exact,
      rounding, overflow and NaN are not represented.  Where rounding
      decides a property, the module [binary64] has the distance and the
      matcher over IEEE 754 double precision numbers.
    - A one-dimensional [np.ndarray] is a [list R]; its [shape] is its length.
    - A two-dimensional array is the list of its rows.
    - A Python [dict] is an association list in insertion order.
    - A Python [int] is a [Z].
    - Code that may raise returns a [result]. *)

From Stdlib Require Import Ascii String.
From Stdlib Require Import Reals Lra Lia List ZArith Bool Permutation Psatz.
From Stdlib Require PrimFloat.
Import ListNotations.
Open Scope R_scope.

(** ** Exceptions *)

Inductive exn : Type :=
| FileNotFoundError (msg : string)
| ValueError (msg : string)
| LoadError.

Inductive result (A : Type) : Type :=
| Ok (a : A)
| Raise (e : exn).
Arguments Ok {A} a.
Arguments Raise {A} e.

Definition bind {A B : Type} (m : result A) (k : A -> result B) : result B :=
  match m with
  | Ok a => k a
  | Raise e => Raise e
  end.

Notation "x <- m ;; k" := (bind m (fun x => k))
  (at level 61, m at next level, right associativity).

(** ** Comparisons of floats as booleans *)

Definition Rltb (x y : R) : bool := if Rlt_dec x y then true else false.
Definition Rgtb (x y : R) : bool := if Rgt_dec x y then true else false.
Definition Reqb (x y : R) : bool := if Req_dec_T x y then true else false.

(** ** [config.py] *)

Module config.
Definition DISTANCE_THRESHOLD : R := 0.01.
Definition SAMPLE_RATE : Z := 16000.
Definition N_MFCC : Z := 13.
Definition N_FFT : Z := 512.
Definition HOP_LENGTH : Z := 160.
Definition N_MELS : Z := 40.
End config.

(** ** NumPy on one-dimensional arrays *)

Definition ndarray : Type := list R.

Definition shape (v : ndarray) : nat := length v.

(** [np.sum] of a one-dimensional array. *)
Definition np_sum (v : ndarray) : R := fold_right Rplus 0 v.

(** [np.dot(a, b)] for one-dimensional arrays of one shape. *)
Definition np_dot (a b : ndarray) : R :=
  np_sum (map (fun p => fst p * snd p) (combine a b)).

(** [np.linalg.norm(v)]: the Euclidean norm. *)
Definition np_linalg_norm (v : ndarray) : R := sqrt (np_dot v v).

(** [v / s] for an array [v] and a scalar [s]. *)
Definition np_div (v : ndarray) (s : R) : ndarray := map (fun x => x / s) v.

(** [a + b], element by element. *)
Definition np_add (a b : ndarray) : ndarray :=
  map (fun p => fst p + snd p) (combine a b).

(** [np.mean] of a one-dimensional array. *)
Definition np_mean (v : ndarray) : R := np_sum v / IZR (Z.of_nat (length v)).

(** [np.std] of a one-dimensional array (population standard deviation). *)
Definition np_std (v : ndarray) : R :=
  let m := np_mean v in
  sqrt (np_mean (map (fun x => (x - m) * (x - m)) v)).

(** The threshold under which a norm is treated as zero. *)
Definition epsilon : R := 1e-10.

(** ** Python dictionaries *)

Definition dict (V : Type) : Type := list (string * V).

Fixpoint dict_get {V : Type} (d : dict V) (k : string) : option V :=
  match d with
  | [] => None
  | (k', v) :: d' => if String.eqb k' k then Some v else dict_get d' k
  end.

(** [d[k] = v]: an existing key keeps its place, a new key goes last. *)
Fixpoint dict_set {V : Type} (d : dict V) (k : string) (v : V) : dict V :=
  match d with
  | [] => [(k, v)]
  | (k', v') :: d' =>
      if String.eqb k' k then (k', v) :: d' else (k', v') :: dict_set d' k v
  end.

Definition keys {V : Type} (d : dict V) : list string := map fst d.

(** ** [ml_utils.py]: distance and prediction *)

Definition _cosine_distance (a b : ndarray) : R :=
  let dot := np_dot a b in
  let norm_a := np_linalg_norm a in
  let norm_b := np_linalg_norm b in
  if Reqb norm_a 0 || Reqb norm_b 0 then 2
  else
    let cosine_sim := dot / (norm_a * norm_b) in
    1 - cosine_sim.

(** The stored voiceprint as it enters [_cosine_distance]. *)
Definition vp_normed (vp : ndarray) : ndarray :=
  let vp_norm := np_linalg_norm vp in
  if Rgtb vp_norm epsilon then np_div vp vp_norm else vp.

(** One iteration of the loop of [predict_speaker]; the loop state is the
    pair [(best_user, best_distance)]. *)
Definition predict_step (sample_feature : ndarray)
    (st : option string * option R) (item : string * ndarray)
    : option string * option R :=
  let '(username, vp) := item in
  if negb (Nat.eqb (shape vp) (shape sample_feature)) then st
  else
    let dist := _cosine_distance sample_feature (vp_normed vp) in
    match snd st with
    | None => (Some username, Some dist)
    | Some best_distance =>
        if Rltb dist best_distance then (Some username, Some dist) else st
    end.

(** The query as normalised at the head of [predict_speaker]. *)
Definition sample_normed (sample_feature : ndarray) : ndarray :=
  let sample_norm := np_linalg_norm sample_feature in
  if Rgtb sample_norm epsilon then np_div sample_feature sample_norm
  else sample_feature.

Definition predict_speaker (voiceprints : dict ndarray) (sample_feature : ndarray)
    : option string * option R :=
  match voiceprints with
  | [] => (None, None)
  | _ =>
      let sample_feature := sample_normed sample_feature in
      let '(best_user, best_distance) :=
        fold_left (predict_step sample_feature) voiceprints (None, None) in
      match best_user with
      | None => (None, None)
      | Some _ => (best_user, best_distance)
      end
  end.

(** ** The audio library

    [librosa] is an external collaborator.  Its functions are taken as the
    fields of an interface; nothing is assumed about what they compute. *)

Definition file : Type := list Byte.byte.

(** The files on disk: [None] when [os.path.exists] is false. *)
Definition filesystem : Type := string -> option file.

Class Librosa : Type := {
  (** [librosa.load(filepath, sr=..., mono=True)]: the samples and the
      rate, or [None] when the file cannot be decoded. *)
  librosa_load : file -> Z -> option (ndarray * Z);
  (** [librosa.effects.trim(y, top_db=...)], first component. *)
  librosa_effects_trim : ndarray -> R -> ndarray;
  (** [librosa.effects.split(y, top_db=...)]: the [(start, end)] intervals. *)
  librosa_effects_split : ndarray -> R -> list (Z * Z);
  (** [librosa.feature.mfcc(y, sr, n_mfcc, n_fft, hop_length, n_mels)]:
      the rows of the coefficient matrix. *)
  librosa_feature_mfcc : ndarray -> Z -> Z -> Z -> Z -> Z -> list ndarray
}.

(** [y.size] *)
Definition size {A : Type} (y : list A) : Z := Z.of_nat (length y).

(** One bound of a Python slice over a sequence of length [n]. *)
Definition slice_bound (n i : Z) : Z :=
  if (i <? 0)%Z then Z.max (i + n) 0 else Z.min i n.

(** [y[start:end]] *)
Definition py_slice {A : Type} (y : list A) (start stop : Z) : list A :=
  let n := size y in
  let s := slice_bound n start in
  let e := slice_bound n stop in
  firstn (Z.to_nat (e - s)) (skipn (Z.to_nat s) y).

(** [np.concatenate] raises on an empty sequence of arrays. *)
Definition np_concatenate (arrays : list ndarray) : result ndarray :=
  match arrays with
  | [] => Raise (ValueError "need at least one array to concatenate")
  | _ => Ok (concat arrays)
  end.

(** ** [ml_utils.py]: feature extraction *)

Definition _apply_vad {L : Librosa} (y : ndarray) (top_db_trim top_db_split : R)
    : result ndarray :=
  let y_trimmed := librosa_effects_trim y top_db_trim in
  let y_trimmed := if (size y_trimmed =? 0)%Z then y else y_trimmed in
  let intervals := librosa_effects_split y_trimmed top_db_split in
  if (size intervals =? 0)%Z then Ok y_trimmed
  else
    let voiced := map (fun '(start, stop) => py_slice y_trimmed start stop) intervals in
    y_voiced <- np_concatenate voiced ;;
    if (size y_voiced =? 0)%Z then Ok y_trimmed
    else Ok y_voiced.

(** The statistics vector of [extract_features] before normalisation. *)
Definition raw_feature_vector (mfcc : list ndarray) : ndarray :=
  let mfcc_no_c0 := skipn 1 mfcc in
  let mfcc_mean := map np_mean mfcc_no_c0 in
  let mfcc_std := map np_std mfcc_no_c0 in
  mfcc_mean ++ mfcc_std.

(** The last step of [extract_features]. *)
Definition l2_normalize (feature_vector : ndarray) : ndarray :=
  let norm := np_linalg_norm feature_vector in
  if Rgtb norm epsilon then np_div feature_vector norm else feature_vector.

Definition extract_features {L : Librosa} (fs : filesystem) (filepath : string)
    : result ndarray :=
  match fs filepath with
  | None => Raise (FileNotFoundError ("Audio file not found: " ++ filepath))
  | Some f =>
      match librosa_load f config.SAMPLE_RATE with
      | None => Raise LoadError
      | Some (y, sr) =>
          if (size y =? 0)%Z then Raise (ValueError "Empty audio signal.")
          else
            y_voiced <- _apply_vad y 25 30 ;;
            if Rltb (IZR (size y_voiced)) (0.5 * IZR config.SAMPLE_RATE)
            then Raise (ValueError "Less than 0.5s of voiced speech.")
            else
              let mfcc :=
                librosa_feature_mfcc y_voiced sr config.N_MFCC config.N_FFT
                  config.HOP_LENGTH config.N_MELS in
              if (size mfcc <? 2)%Z
              then Raise (ValueError "Not enough MFCC coefficients computed.")
              else Ok (l2_normalize (raw_feature_vector mfcc))
      end
  end.

(** ** [storage.py] *)

(** A JSON value where the code expects a list of numbers: [JArray l] is
    a flat list of numbers, [JOther] a value on which
    [np.array(., dtype=float)] raises, such as a string that is no number
    or an object.  Values that convert without being a flat list of
    numbers (null, a bare number, a list of lists) give arrays with NaN or
    of another rank, which the arrays of this file do not represent; they
    are outside this type. *)
Inductive json_value : Type :=
| JArray (l : list R)
| JOther.

(** [np.array(vec, dtype=float)] *)
Definition np_array (vec : json_value) : result ndarray :=
  match vec with
  | JArray l => Ok l
  | JOther => Raise (ValueError "could not convert to float")
  end.

(** [v.tolist()] *)
Definition tolist (v : ndarray) : json_value := JArray v.

(** An entry of ["audio_samples"]; [features] is [None] when the key is
    missing or null. *)
Record sample : Type := {
  path : string;
  features : option json_value
}.

(** A user's entry; [audio_samples] is [None] when the key is missing. *)
Record user_entry : Type := {
  audio_samples : option (list sample)
}.

(** The two JSON files the aggregator touches; [None] is a file that is
    missing or unreadable, for which [_read_json] returns its default. *)
Record store : Type := {
  users_json : option (dict user_entry);
  voiceprints_json : option (dict json_value)
}.

Definition _read_json {A : Type} (f : option A) (default : A) : A :=
  match f with
  | Some a => a
  | None => default
  end.

(** [entry.get("audio_samples", [])] *)
Definition get_audio_samples (entry : user_entry) : list sample :=
  match audio_samples entry with
  | Some l => l
  | None => []
  end.

Definition load_users (st : store) : dict user_entry :=
  _read_json (users_json st) [].

(** One iteration of the loop of [load_voiceprints]: an entry that does not
    convert is passed over. *)
Definition load_step (vp : dict ndarray) (item : string * json_value)
    : dict ndarray :=
  let '(username, vec) := item in
  match np_array vec with
  | Ok a => dict_set vp username a
  | Raise _ => vp
  end.

Definition load_voiceprints (st : store) : dict ndarray :=
  let raw := _read_json (voiceprints_json st) [] in
  fold_left load_step raw [].

Definition save_voiceprints (voiceprints : dict ndarray) (st : store) : store :=
  let raw := map (fun '(u, v) => (u, tolist v)) voiceprints in
  {| users_json := users_json st; voiceprints_json := Some raw |}.

(** [np.stack(arrays, axis=0)] *)
Definition np_stack (arrays : list ndarray) : result (list ndarray) :=
  match arrays with
  | [] => Raise (ValueError "need at least one array to stack")
  | a :: rest =>
      if forallb (fun b => Nat.eqb (shape b) (shape a)) rest then Ok arrays
      else Raise (ValueError "all input arrays must have the same shape")
  end.

(** [np.mean(stacked, axis=0)] *)
Definition np_mean_axis0 (stacked : list ndarray) : ndarray :=
  match stacked with
  | [] => []
  | r :: rest => np_div (fold_left np_add rest r) (IZR (size stacked))
  end.

(** The loop of [recompute_voiceprint] that collects the usable features. *)
Fixpoint collect_features (samples : list sample) : list ndarray :=
  match samples with
  | [] => []
  | s :: rest =>
      match features s with
      | Some feats =>
          match np_array feats with
          | Ok a => a :: collect_features rest
          | Raise _ => collect_features rest
          end
      | None => collect_features rest
      end
  end.

Definition recompute_voiceprint (username : string) (st : store) : result store :=
  let users := load_users st in
  match dict_get users username with
  | None => Ok st
  | Some entry =>
      let samples := get_audio_samples entry in
      match samples with
      | [] => Ok st
      | _ =>
          let feature_list := collect_features samples in
          match feature_list with
          | [] => Ok st
          | _ =>
              stacked <- np_stack feature_list ;;
              let centroid := np_mean_axis0 stacked in
              let voiceprints := load_voiceprints st in
              let voiceprints := dict_set voiceprints username centroid in
              Ok (save_voiceprints voiceprints st)
          end
      end
  end.

(** ** Vocabulary of the statements *)

(** The distance the matcher assigns to a stored voiceprint [vp] for a query
    [q]: both are re-normalised before [_cosine_distance]. *)
Definition matcher_distance (q vp : ndarray) : R :=
  _cosine_distance (sample_normed q) (vp_normed vp).

(** An entry of the voiceprint mapping that the matcher does not skip. *)
Definition same_shape (q : ndarray) (it : string * ndarray) : Prop :=
  shape (snd it) = shape q.

(** A non-zero array whose norm is under [epsilon]. *)
Definition tiny : ndarray := [1e-11].

(** A small enrolment: two current voiceprints and one of an older
    extractor configuration. *)
Definition example_voiceprints : dict ndarray :=
  [("alice", [1; 0]); ("old", [1; 0; 0]); ("bob", [0; 1])]%string.

Definition example_query : ndarray := [0; 2].

(** *** Recordings of half a second

    An instance of the audio library for a recording of 8000 samples of
    silence, given the coefficient matrix the library computes for it:
    trimming removes everything and no interval is found. *)

Definition silence : ndarray := repeat 0 (Z.to_nat 8000).

Definition recording_librosa (mfcc : list ndarray) : Librosa := {|
  librosa_load := fun _ sr => Some (silence, sr);
  librosa_effects_trim := fun _ _ => [];
  librosa_effects_split := fun _ _ => [];
  librosa_feature_mfcc := fun _ _ _ _ _ _ => mfcc
|}.

(** One frame: the energy term, a residue of 1e-11 in the second row and
    zero in the other rows. *)
Definition silent_mfcc : list ndarray :=
  [-100] :: [1e-11] :: repeat [0] 11.

Definition silent_librosa : Librosa := recording_librosa silent_mfcc.

(** The statistics vector of [silent_mfcc]. *)
Definition silent_raw : ndarray := 1e-11 :: repeat 0 23.

(** One frame with two coefficients that are not small. *)
Definition loud_mfcc : list ndarray :=
  [-100] :: [3] :: [4] :: repeat [0] 10.

Definition loud_librosa : Librosa := recording_librosa loud_mfcc.

(** The statistics vector of [loud_mfcc]; its norm is 5. *)
Definition loud_raw : ndarray := 3 :: 4 :: repeat 0 22.

(** The disk holds one recording. *)
Definition one_file : filesystem :=
  fun p => if String.eqb p "auth.wav" then Some [] else None.

(** *** A short clip

    An instance in which trimming drops the first and the last sample and
    the splitter keeps two intervals of what is left. *)

Definition clip_librosa : Librosa := {|
  librosa_load := fun _ sr => Some ([0; 3; 0; 4; 0], sr);
  librosa_effects_trim := fun y _ => py_slice y 1 (-1);
  librosa_effects_split := fun _ _ => [(0, 1); (2, 3)]%Z;
  librosa_feature_mfcc := fun _ _ _ _ _ _ => []
|}.

(** *** The centroid in the words of the design

    The unweighted arithmetic mean, component by component, of the arrays
    [vs], each of [d] components. *)
Definition arithmetic_mean (vs : list ndarray) (d : nat) : ndarray :=
  map (fun j => np_sum (map (fun v => nth j v 0) vs) / IZR (size vs)) (seq 0 d).

(** The enrolment samples of a list of feature vectors. *)
Definition samples_of (vs : list ndarray) : list sample :=
  map (fun v => {| path := "sample.wav"; features := Some (tolist v) |}) vs.

(** A store in which [username] has the samples [vs] and the voiceprints
    file is [voiceprints]. *)
Definition enrolled_store (username : string) (vs : list ndarray)
    (voiceprints : option (dict json_value)) : store :=
  {| users_json := Some [(username, {| audio_samples := Some (samples_of vs) |})];
     voiceprints_json := voiceprints |}.

(** The toy enrolment of the design: three samples of two components. *)
Definition toy_samples : list ndarray := [[1; 0]; [0; 1]; [1; 1]].

(** ** Vocabulary of the further properties *)

(** [c * v] for a scalar [c] and an array [v]. *)
Definition np_scale (c : R) (v : ndarray) : ndarray := map (fun x => c * x) v.

(** ** [storage.py]: users and samples *)

Definition save_users (users : dict user_entry) (st : store) : store :=
  {| users_json := Some users; voiceprints_json := voiceprints_json st |}.

Definition create_user (username : string) (st : store) : store :=
  let users := load_users st in
  match dict_get users username with
  | None =>
      save_users (dict_set users username {| audio_samples := Some [] |}) st
  | Some _ => st
  end.

(** [register_sample] for features given as an array; [None] is the
    [KeyError] of [users[username]["audio_samples"]] on an entry without
    that key, raised before anything is written. *)
Definition register_sample (username audio_path : string) (feats : ndarray)
    (st : store) : option store :=
  let users := load_users st in
  let users :=
    match dict_get users username with
    | None => dict_set users username {| audio_samples := Some [] |}
    | Some _ => users
    end in
  let feat_list := tolist feats in
  let sample_entry := {| path := audio_path; features := Some feat_list |} in
  match dict_get users username with
  | Some entry =>
      match audio_samples entry with
      | Some l =>
          Some (save_users
                  (dict_set users username
                     {| audio_samples := Some (l ++ [sample_entry]) |})
                  st)
      | None => None
      end
  | None => None
  end.

(** ** [storage.py]: the last result and the log of attempts *)

(** The dictionary [api_audio_authenticate] saves as the last result. *)
Record auth_result : Type := {
  result_timestamp : string;
  result_success : bool;
  result_user : option string;
  result_distance : option R;
  result_raw_best_user : option string
}.

(** An entry of the log of attempts. *)
Record attempt : Type := {
  attempt_timestamp : string;
  attempt_recognized_user : option string;
  attempt_distance : option R;
  attempt_success : bool;
  attempt_audio_path : string
}.

(** The secrets file. *)
Record secrets : Type := {
  global_message : option string;
  user_notes : option (dict string)
}.

(** All the JSON files of the server; [None] is a file that is missing or
    unreadable. *)
Record server : Type := {
  files : store;
  last_auth_json : option auth_result;
  attempts_json : option (list attempt);
  secrets_json : option secrets
}.

Definition with_files (st : store) (sv : server) : server :=
  {| files := st;
     last_auth_json := last_auth_json sv;
     attempts_json := attempts_json sv;
     secrets_json := secrets_json sv |}.

Definition load_last_auth_result (sv : server) : option auth_result :=
  last_auth_json sv.

Definition save_last_auth_result (result : auth_result) (sv : server) : server :=
  {| files := files sv;
     last_auth_json := Some result;
     attempts_json := attempts_json sv;
     secrets_json := secrets_json sv |}.

Definition load_attempts (sv : server) : list attempt :=
  _read_json (attempts_json sv) [].

Definition save_attempts (attempts : list attempt) (sv : server) : server :=
  {| files := files sv;
     last_auth_json := last_auth_json sv;
     attempts_json := Some attempts;
     secrets_json := secrets_json sv |}.

Definition log_attempt (timestamp : string) (recognized_user : option string)
    (distance : option R) (success : bool) (audio_path : string)
    (sv : server) : server :=
  let attempts := load_attempts sv in
  let attempts :=
    attempts ++
    [{| attempt_timestamp := timestamp;
        attempt_recognized_user := recognized_user;
        attempt_distance := distance;
        attempt_success := success;
        attempt_audio_path := audio_path |}] in
  save_attempts attempts sv.

Definition load_secrets (sv : server) : secrets :=
  let default :=
    {| global_message :=
         Some "This is the default global secret. Edit secrets/secrets.json to customize."%string;
       user_notes := Some [] |} in
  _read_json (secrets_json sv) default.

(** ** Strings and paths *)

(** The ASCII characters for which [str.isspace] holds. *)
Definition isspace (c : Ascii.ascii) : bool :=
  let n := Ascii.nat_of_ascii c in
  ((9 <=? n)%nat && (n <=? 13)%nat) || ((28 <=? n)%nat && (n <=? 32)%nat).

Fixpoint rstrip_with (drop : Ascii.ascii -> bool) (s : string) : string :=
  match s with
  | EmptyString => EmptyString
  | String c s' =>
      match rstrip_with drop s' with
      | EmptyString => if drop c then EmptyString else String c EmptyString
      | r => String c r
      end
  end.

(** The white space of [str.isspace] outside ASCII, by the bytes of its
    UTF-8 encoding: U+0085 and U+00A0 take two bytes; U+1680, U+2000 to
    U+200A, U+2028, U+2029, U+202F, U+205F and U+3000 take three. *)
Definition isspace2 (c1 c2 : Ascii.ascii) : bool :=
  let a := Ascii.nat_of_ascii c1 in
  let b := Ascii.nat_of_ascii c2 in
  ((a =? 194) && ((b =? 133) || (b =? 160)))%nat.

Definition isspace3 (c1 c2 c3 : Ascii.ascii) : bool :=
  let a := Ascii.nat_of_ascii c1 in
  let b := Ascii.nat_of_ascii c2 in
  let c := Ascii.nat_of_ascii c3 in
  (((a =? 225) && (b =? 154) && (c =? 128))
   || ((a =? 226) && (b =? 128)
       && (((128 <=? c) && (c <=? 138)) || (c =? 168) || (c =? 169)
           || (c =? 175)))
   || ((a =? 226) && (b =? 129) && (c =? 159))
   || ((a =? 227) && (b =? 128) && (c =? 128)))%nat.

(** Dropping the leading characters that are white space, a character
    being one, two or three bytes recognised by [sp1], [sp2], [sp3]. *)
Fixpoint lstrip_chars (sp1 : Ascii.ascii -> bool)
    (sp2 : Ascii.ascii -> Ascii.ascii -> bool)
    (sp3 : Ascii.ascii -> Ascii.ascii -> Ascii.ascii -> bool)
    (s : string) : string :=
  match s with
  | EmptyString => s
  | String c1 s1 =>
      if sp1 c1 then lstrip_chars sp1 sp2 sp3 s1
      else
        match s1 with
        | EmptyString => s
        | String c2 s2 =>
            if sp2 c1 c2 then lstrip_chars sp1 sp2 sp3 s2
            else
              match s2 with
              | EmptyString => s
              | String c3 s3 =>
                  if sp3 c1 c2 c3 then lstrip_chars sp1 sp2 sp3 s3 else s
              end
        end
  end.

Fixpoint string_rev (s : string) : string :=
  match s with
  | EmptyString => EmptyString
  | String c s' => (string_rev s' ++ String c EmptyString)%string
  end.

(** [s.lstrip()] *)
Definition lstrip (s : string) : string :=
  lstrip_chars isspace isspace2 isspace3 s.

(** [s.rstrip()]: the same from the end, on the reversed bytes. *)
Definition rstrip (s : string) : string :=
  string_rev
    (lstrip_chars isspace (fun c2 c1 => isspace2 c1 c2)
       (fun c3 c2 c1 => isspace3 c1 c2 c3) (string_rev s)).

(** [s.strip()], on a string held as the bytes of its UTF-8 encoding. *)
Definition strip (s : string) : string := rstrip (lstrip s).

(** [s.rstrip("/")] *)
Definition rstrip_slash (s : string) : string :=
  rstrip_with (Ascii.eqb "/"%char) s.

Fixpoint endswith_slash (s : string) : bool :=
  match s with
  | EmptyString => false
  | String c EmptyString => Ascii.eqb c "/"%char
  | String _ s' => endswith_slash s'
  end.

Definition startswith_slash (s : string) : bool :=
  match s with
  | String c _ => Ascii.eqb c "/"%char
  | EmptyString => false
  end.

(** [os.path.join(a, b)] on a POSIX system. *)
Definition os_path_join (a b : string) : string :=
  if startswith_slash b then b
  else if (String.eqb a "" || endswith_slash a)%bool then (a ++ b)%string
  else (a ++ "/" ++ b)%string.

(** ** [pi_client.py] *)

Definition build_url (server_url endpoint : string) : string :=
  (rstrip_slash server_url ++ endpoint)%string.

(** ** [app.py]

    What the handlers take from Flask is explicit: the uploaded file, the
    form fields, the session flag and the readings of the clock are
    arguments, the disk and the JSON files are state passed through, and
    the JSON body of a response is a constructor that carries its fields.
    Printing is left out. *)

(** An uploaded file; it counts as false when its name is empty. *)
Record upload : Type := {
  filename : string;
  stream : file
}.

(** [not audio_file] *)
Definition no_upload (audio_file : option upload) : bool :=
  match audio_file with
  | None => true
  | Some u => String.eqb (filename u) ""
  end.

(** The installation: where recordings go and what writing a file to the
    disk does ([None] when [audio_file.save] raises). *)
Class Deployment : Type := {
  AUDIO_DIR : string;
  file_save : filesystem -> string -> file -> option filesystem
}.

Definition ADMIN_PASSWORD : string := "admin123".

(** The responses of [api_audio_authenticate], with their status codes. *)
Inductive auth_response : Type :=
| AuthMissingAudio
| AuthUnhandled
| AuthExtractionFailed (e : exn)
| AuthNoEnrolledUsers
| AuthDone (success : bool) (recognized_user : option string)
    (distance : option R).

Definition auth_status (r : auth_response) : Z :=
  match r with
  | AuthMissingAudio => 400
  | AuthUnhandled => 500
  | AuthExtractionFailed _ => 500
  | AuthNoEnrolledUsers => 400
  | AuthDone _ _ _ => 200
  end.

Definition api_audio_authenticate {L : Librosa} {D : Deployment}
    (audio_file : option upload) (stamp timestamp_str : string)
    (fs : filesystem) (sv : server) : auth_response * filesystem * server :=
  match audio_file with
  | Some u =>
      if no_upload audio_file then (AuthMissingAudio, fs, sv)
      else
        let filename := ("auth_" ++ stamp ++ ".wav")%string in
        let filepath := os_path_join AUDIO_DIR filename in
        match file_save fs filepath (stream u) with
        | None => (AuthUnhandled, fs, sv)
        | Some fs =>
            match extract_features fs filepath with
            | Raise e => (AuthExtractionFailed e, fs, sv)
            | Ok feats =>
                let voiceprints := load_voiceprints (files sv) in
                match voiceprints with
                | [] => (AuthNoEnrolledUsers, fs, sv)
                | _ =>
                    let '(best_user, distance) :=
                      predict_speaker voiceprints feats in
                    let success :=
                      match distance with
                      | Some d => Rltb d config.DISTANCE_THRESHOLD
                      | None => false
                      end in
                    let result :=
                      {| result_timestamp := timestamp_str;
                         result_success := success;
                         result_user := if success then best_user else None;
                         result_distance := distance;
                         result_raw_best_user := best_user |} in
                    let sv := save_last_auth_result result sv in
                    let sv :=
                      log_attempt (result_timestamp result) best_user
                        (result_distance result) success filepath sv in
                    (AuthDone success best_user (result_distance result), fs, sv)
                end
            end
        end
  | None => (AuthMissingAudio, fs, sv)
  end.

(** The responses of [api_audio_enroll], with their status codes. *)
Inductive enroll_response : Type :=
| EnrollMissing
| EnrollUnknownUser (username : string)
| EnrollSaveFailed
| EnrollExtractionFailed (e : exn)
| EnrollRegisterFailed
| EnrollRecomputeFailed (e : exn)
| EnrollOk.

Definition enroll_status (r : enroll_response) : Z :=
  match r with
  | EnrollMissing => 400
  | EnrollUnknownUser _ => 400
  | EnrollSaveFailed => 500
  | EnrollExtractionFailed _ => 500
  | EnrollRegisterFailed => 500
  | EnrollRecomputeFailed _ => 500
  | EnrollOk => 200
  end.

(** [d.get(k, default)] on the fields of a form. *)
Definition get_or (field : option string) (default : string) : string :=
  match field with
  | Some v => v
  | None => default
  end.

(** [sample_idx or 'x'] *)
Definition sample_idx_or_x (sample_idx : option string) : string :=
  match sample_idx with
  | None => "x"
  | Some i => if String.eqb i "" then "x" else i
  end.

Definition api_audio_enroll {L : Librosa} {D : Deployment}
    (audio_file : option upload) (form_username form_sample_idx : option string)
    (stamp : string) (fs : filesystem) (st : store)
    : enroll_response * filesystem * store :=
  let username := strip (get_or form_username "") in
  let sample_idx := form_sample_idx in
  match audio_file with
  | Some u =>
      if (no_upload audio_file || String.eqb username "")%bool
      then (EnrollMissing, fs, st)
      else
        let users := load_users st in
        match dict_get users username with
        | None => (EnrollUnknownUser username, fs, st)
        | Some _ =>
            let filename :=
              (username ++ "_enroll_" ++ sample_idx_or_x sample_idx ++ "_"
                 ++ stamp ++ ".wav")%string in
            let filepath := os_path_join AUDIO_DIR filename in
            match file_save fs filepath (stream u) with
            | None => (EnrollSaveFailed, fs, st)
            | Some fs =>
                match extract_features fs filepath with
                | Raise e => (EnrollExtractionFailed e, fs, st)
                | Ok feats =>
                    match register_sample username filepath feats st with
                    | None => (EnrollRegisterFailed, fs, st)
                    | Some st =>
                        match recompute_voiceprint username st with
                        | Raise e => (EnrollRecomputeFailed e, fs, st)
                        | Ok st => (EnrollOk, fs, st)
                        end
                    end
                end
            end
        end
  | None => (EnrollMissing, fs, st)
  end.

(** The form of a request to the dashboard; [post] is false for a GET. *)
Record dashboard_request : Type := {
  post : bool;
  form_action : option string;
  form_password : option string;
  form_user : option string;
  host_url : string
}.

(** The arguments [dashboard] hands to the template. *)
Record dashboard_page : Type := {
  page_is_admin : bool;
  page_enroll_username : option string;
  page_enrollment_script : string;
  page_server_url : string;
  page_users : list string;
  page_is_unlocked : bool;
  page_recognized_user : option string;
  page_distance : option R;
  page_global_secret : string;
  page_user_secret : string
}.

(** The first half of [dashboard]: the action of a POST.  The state is the
    session flag, the name to enrol, the flashed messages with their
    categories, and the JSON files. *)
Definition dashboard_action (session_is_admin : bool) (req : dashboard_request)
    (sv : server) : bool * bool * option string * list (string * string) * server :=
  let is_admin := session_is_admin in
  if post req then
    match form_action req with
    | Some action =>
        if String.eqb action "admin_login" then
          let password := get_or (form_password req) "" in
          if String.eqb password ADMIN_PASSWORD
          then (true, true, None,
                [("Admin login successful."%string, "success"%string)], sv)
          else (session_is_admin, is_admin, None,
                [("Incorrect password."%string, "danger"%string)], sv)
        else if String.eqb action "admin_logout" then
          (false, false, None,
           [("Logged out of admin."%string, "info"%string)], sv)
        else if String.eqb action "enroll_user" then
          if negb is_admin
          then (session_is_admin, is_admin, None,
                [("Admin login required to enroll users."%string,
                  "warning"%string)], sv)
          else
            let username := strip (get_or (form_user req) "") in
            if String.eqb username ""
            then (session_is_admin, is_admin, None,
                  [("Username is required."%string, "warning"%string)], sv)
            else
              (session_is_admin, is_admin, Some username,
               [(("User '" ++ username
                    ++ "' ready for enrollment. Use the Pi to record samples.")%string,
                 "success"%string)],
               with_files (create_user username (files sv)) sv)
        else (session_is_admin, is_admin, None, [], sv)
    | None => (session_is_admin, is_admin, None, [], sv)
    end
  else (session_is_admin, is_admin, None, [], sv).

(** [dashboard]: the new session flag, the flashed messages, the files and
    the arguments of the template. *)
Definition dashboard (session_is_admin : bool) (req : dashboard_request)
    (sv : server) : bool * list (string * string) * server * dashboard_page :=
  let '(session_is_admin, is_admin, enroll_username, flashes, sv) :=
    dashboard_action session_is_admin req sv in
  let last_auth := load_last_auth_result sv in
  let is_unlocked :=
    match last_auth with
    | Some r => result_success r
    | None => false
    end in
  let recognized_user :=
    match last_auth with
    | Some r => result_user r
    | None => None
    end in
  let distance :=
    match last_auth with
    | Some r => result_distance r
    | None => None
    end in
  let users_dict := load_users (files sv) in
  let users := keys users_dict in
  let secrets := load_secrets sv in
  let global_secret := get_or (global_message secrets) "No global secret set." in
  let user_secret :=
    match recognized_user with
    | Some u =>
        if String.eqb u "" then ""%string
        else
          let notes :=
            match user_notes secrets with
            | Some notes => notes
            | None => []
            end in
          get_or (dict_get notes u) "No user-specific secret."
    | None => ""%string
    end in
  let enrollment_script :=
    "This is a test enrollment. Please read the following script: 'My voice is my key, verify me securely.'"%string in
  let server_url := rstrip_slash (host_url req) in
  (session_is_admin, flashes, sv,
   {| page_is_admin := is_admin;
      page_enroll_username := enroll_username;
      page_enrollment_script := enrollment_script;
      page_server_url := server_url;
      page_users := users;
      page_is_unlocked := is_unlocked;
      page_recognized_user := recognized_user;
      page_distance := distance;
      page_global_secret := global_secret;
      page_user_secret := user_secret |}).

(** A voiceprints file in which the entry of one user is not a list of
    numbers. *)
Definition drifted_store : store :=
  {| users_json := None;
     voiceprints_json :=
       Some [("old"%string, JOther); ("bob"%string, JArray [0; 1])] |}.

(** Where [api_audio_authenticate] stores the recording. *)
Definition auth_filepath {D : Deployment} (stamp : string) : string :=
  os_path_join AUDIO_DIR ("auth_" ++ stamp ++ ".wav")%string.

(** The server files after a completed authentication. *)
Definition auth_recorded {D : Deployment} (stamp timestamp_str : string)
    (success : bool) (best_user : option string) (distance : option R)
    (sv : server) : server :=
  log_attempt timestamp_str best_user distance success (auth_filepath stamp)
    (save_last_auth_result
       {| result_timestamp := timestamp_str;
          result_success := success;
          result_user := if success then best_user else None;
          result_distance := distance;
          result_raw_best_user := best_user |} sv).

(** Where [api_audio_enroll] stores the recording. *)
Definition enroll_filepath {D : Deployment} (username : string)
    (sample_idx : option string) (stamp : string) : string :=
  os_path_join AUDIO_DIR
    (username ++ "_enroll_" ++ sample_idx_or_x sample_idx ++ "_" ++ stamp
       ++ ".wav")%string.

(** The sample [api_audio_enroll] registers for a recording. *)
Definition enrolled_sample (filepath : string) (feats : ndarray) : sample :=
  {| path := filepath; features := Some (tolist feats) |}.

(** A disk on which every write succeeds and is read back. *)
Definition plain_deployment : Deployment := {|
  AUDIO_DIR := "/srv/vault/data/audio_samples";
  file_save := fun fs p c => Some (fun q => if String.eqb q p then Some c else fs q)
|}.

Definition recording : upload := {| filename := "sample.wav"; stream := [] |}.

Definition empty_server (st : store) : server :=
  {| files := st; last_auth_json := None; attempts_json := None;
     secrets_json := None |}.

(** *** A first enrolment

    A store in which alice was created and nobody is enrolled, an empty
    disk, and the requests of her first recording. *)

Definition fresh_store : store :=
  {| users_json := Some [("alice"%string, {| audio_samples := Some [] |})];
     voiceprints_json := None |}.

Definition no_files : filesystem := fun _ => None.

(** The disk [fs] with an empty file written at [p]. *)
Definition disk_with (p : string) (fs : filesystem) : filesystem :=
  fun q => if String.eqb q p then Some [] else fs q.

Definition enroll_path : string :=
  "/srv/vault/data/audio_samples/alice_enroll_1_20250101_120000.wav".

Definition auth_path : string :=
  "/srv/vault/data/audio_samples/auth_20250101_120500.wav".

(** The feature vector of [loud_mfcc]. *)
Definition loud_features : ndarray := np_div loud_raw 5.

(** The server once alice is enrolled with [loud_features]. *)
Definition enrolled_server : server :=
  empty_server (save_voiceprints [("alice"%string, loud_features)] fresh_store).

(** A store in which alice has one sample of two components. *)
Definition short_sample_store : store :=
  enrolled_store "alice" [[1; 0]] None.

Definition login_request (password : string) : dashboard_request :=
  {| post := true; form_action := Some "admin_login"%string;
     form_password := Some password; form_user := None;
     host_url := "http://vault.local:5001/" |}.

Definition enroll_user_request (username : string) : dashboard_request :=
  {| post := true; form_action := Some "enroll_user"%string;
     form_password := None; form_user := Some username;
     host_url := "http://vault.local:5001/" |}.

(** ** The matcher in double precision

    [_cosine_distance] and [predict_speaker] once more, over the binary64
    numbers of IEEE 754, each operation rounded as the hardware rounds it.
    [np.dot] adds the products in the order of the index; on arrays of two
    components, as used below, the order of the additions is immaterial. *)

Module binary64.
Import PrimFloat.

Definition ndarray : Type := list float.

Definition np_dot (a b : ndarray) : float :=
  fold_left (fun acc p => (acc + fst p * snd p)%float) (combine a b) 0%float.

Definition np_linalg_norm (v : ndarray) : float := sqrt (np_dot v v).

Definition np_div (v : ndarray) (s : float) : ndarray :=
  map (fun x => (x / s)%float) v.

(** The double nearest to 1e-10. *)
Definition epsilon : float := 0x1.b7cdfd9d7bdbbp-34%float.

Definition _cosine_distance (a b : ndarray) : float :=
  let dot := np_dot a b in
  let norm_a := np_linalg_norm a in
  let norm_b := np_linalg_norm b in
  if ((norm_a =? 0) || (norm_b =? 0))%float then 2%float
  else
    let cosine_sim := (dot / (norm_a * norm_b))%float in
    (1 - cosine_sim)%float.

(** The re-normalisation of the query and of a stored voiceprint. *)
Definition normed (v : ndarray) : ndarray :=
  let norm := np_linalg_norm v in
  if (epsilon <? norm)%float then np_div v norm else v.

Definition predict_step (sample_feature : ndarray)
    (st : option string * option float) (item : string * ndarray)
    : option string * option float :=
  let '(username, vp) := item in
  if negb (Nat.eqb (length vp) (length sample_feature)) then st
  else
    let dist := _cosine_distance sample_feature (normed vp) in
    match snd st with
    | None => (Some username, Some dist)
    | Some best_distance =>
        if (dist <? best_distance)%float then (Some username, Some dist)
        else st
    end.

Definition predict_speaker (voiceprints : list (string * ndarray))
    (sample_feature : ndarray) : option string * option float :=
  match voiceprints with
  | [] => (None, None)
  | _ =>
      let sample_feature := normed sample_feature in
      let '(best_user, best_distance) :=
        fold_left (predict_step sample_feature) voiceprints (None, None) in
      match best_user with
      | None => (None, None)
      | Some _ => (best_user, best_distance)
      end
  end.

(** Arrays of small whole numbers, and the distance of one ulp under 0. *)
Definition one_five : ndarray := [1; 5]%float.
Definition one_one : ndarray := [1; 1]%float.
Definition three_three : ndarray := [3; 3]%float.
Definition zero : float := 0%float.
Definition minus_ulp : float := (-0x1p-52)%float.

Definition two_users : list (string * ndarray) :=
  [("alice"%string, one_one); ("bob"%string, three_three)].

End binary64.

(** A store in which alice has the toy samples and the voiceprints file
    holds, for another user, an entry that is not a list of numbers. *)
Definition drifted_enrolled_store : store :=
  enrolled_store "alice" toy_samples (voiceprints_json drifted_store).

(** [register_sample], once for each recording of a list. *)
Fixpoint register_samples (username : string)
    (recordings : list (string * ndarray)) (st : store) : option store :=
  match recordings with
  | [] => Some st
  | (audio_path, feats) :: rest =>
      match register_sample username audio_path feats st with
      | Some st1 => register_samples username rest st1
      | None => None
      end
  end.

(** * Properties *)

(** ** Booleans against propositions *)

Lemma Rltb_true (x y : R) : Rltb x y = true <-> x < y.
Proof. unfold Rltb. destruct (Rlt_dec x y); split; intros; auto; discriminate. Qed.

Lemma Rltb_false (x y : R) : Rltb x y = false <-> y <= x.
Proof.
  unfold Rltb. destruct (Rlt_dec x y); split; intros; auto; try discriminate; lra.
Qed.

Lemma Rgtb_true (x y : R) : Rgtb x y = true <-> x > y.
Proof. unfold Rgtb. destruct (Rgt_dec x y); split; intros; auto; discriminate. Qed.

Lemma Rgtb_false (x y : R) : Rgtb x y = false <-> x <= y.
Proof.
  unfold Rgtb. destruct (Rgt_dec x y); split; intros; auto; try discriminate; lra.
Qed.

Lemma Reqb_true (x y : R) : Reqb x y = true <-> x = y.
Proof. unfold Reqb. destruct (Req_dec_T x y); split; intros; auto; discriminate. Qed.

Lemma Reqb_false (x y : R) : Reqb x y = false <-> x <> y.
Proof.
  unfold Reqb. destruct (Req_dec_T x y); split; intros; auto; try discriminate.
  contradiction.
Qed.

(** ** Arrays *)

Lemma shape_np_div (v : ndarray) (s : R) : shape (np_div v s) = shape v.
Proof. unfold shape, np_div. apply length_map. Qed.

Lemma shape_sample_normed (q : ndarray) : shape (sample_normed q) = shape q.
Proof.
  unfold sample_normed. destruct (Rgtb _ _); auto using shape_np_div.
Qed.

Lemma shape_vp_normed (vp : ndarray) : shape (vp_normed vp) = shape vp.
Proof.
  unfold vp_normed. destruct (Rgtb _ _); auto using shape_np_div.
Qed.

Lemma np_dot_cons (x y : R) (a b : ndarray) :
  np_dot (x :: a) (y :: b) = x * y + np_dot a b.
Proof. reflexivity. Qed.

Lemma np_dot_self_nonneg (v : ndarray) : 0 <= np_dot v v.
Proof.
  induction v as [|x v IH]; [unfold np_dot; simpl; lra|].
  rewrite np_dot_cons. nra.
Qed.

Lemma np_linalg_norm_nonneg (v : ndarray) : 0 <= np_linalg_norm v.
Proof. apply sqrt_pos. Qed.

Lemma np_linalg_norm_sqr (v : ndarray) :
  np_linalg_norm v * np_linalg_norm v = np_dot v v.
Proof. apply sqrt_sqrt, np_dot_self_nonneg. Qed.

(** Cauchy-Schwarz for arrays of one shape. *)
Lemma np_dot_cauchy_schwarz (a : ndarray) :
  forall b, length a = length b ->
  np_dot a b * np_dot a b <= np_dot a a * np_dot b b.
Proof.
  induction a as [|x a IH]; intros [|y b] Hlen; try discriminate.
  - unfold np_dot; simpl; lra.
  - injection Hlen as Hlen. specialize (IH b Hlen).
    rewrite !np_dot_cons.
    pose proof (np_dot_self_nonneg a) as Ha.
    pose proof (np_dot_self_nonneg b) as Hb.
    set (d := np_dot a b) in *. set (p := np_dot a a) in *.
    set (q := np_dot b b) in *.
    assert (Hm : 2 * (x * y * d) <= x * x * q + y * y * p).
    { pose proof (sqrt_sqrt p Ha) as Hp. pose proof (sqrt_sqrt q Hb) as Hq.
      pose proof (sqrt_pos p) as Hp0. pose proof (sqrt_pos q) as Hq0.
      set (P := sqrt p) in *. set (Q := sqrt q) in *.
      assert (Hd : - (P * Q) <= d <= P * Q).
      { assert (H2 : d * d <= (P * Q) * (P * Q)) by nra.
        assert (0 <= P * Q) by nra.
        split; nra. }
      assert (Hxy : Rabs (x * y) * (P * Q) <= (x * x * q + y * y * p) / 2).
      { rewrite Rabs_mult.
        pose proof (Rabs_pos x). pose proof (Rabs_pos y).
        assert (HX : Rabs x * Rabs x = x * x)
          by (unfold Rabs; destruct (Rcase_abs x); lra).
        assert (HY : Rabs y * Rabs y = y * y)
          by (unfold Rabs; destruct (Rcase_abs y); lra).
        set (X := Rabs x) in *. set (Y := Rabs y) in *.
        pose proof (Rle_0_sqr (X * Q - Y * P)) as Hsq. unfold Rsqr in Hsq.
        rewrite <- HX, <- HY, <- Hp, <- Hq. lra. }
      pose proof (Rabs_pos (x * y)) as Hxy0.
      assert (Hxyd : x * y * d <= Rabs (x * y) * (P * Q)).
      { unfold Rabs in *. destruct (Rcase_abs (x * y)); nra. }
      lra. }
    nra.
Qed.

Lemma np_dot_abs_le (a b : ndarray) :
  length a = length b ->
  - (np_linalg_norm a * np_linalg_norm b) <= np_dot a b
  <= np_linalg_norm a * np_linalg_norm b.
Proof.
  intros Hlen. pose proof (np_dot_cauchy_schwarz a b Hlen) as Hcs.
  rewrite <- (np_linalg_norm_sqr a), <- (np_linalg_norm_sqr b) in Hcs.
  pose proof (np_linalg_norm_nonneg a). pose proof (np_linalg_norm_nonneg b).
  set (A := np_linalg_norm a) in *. set (B := np_linalg_norm b) in *.
  assert (0 <= A * B) by nra.
  split; nra.
Qed.

Lemma cosine_distance_zero_norm (a b : ndarray) :
  np_linalg_norm a = 0 \/ np_linalg_norm b = 0 -> _cosine_distance a b = 2.
Proof.
  intros H. unfold _cosine_distance.
  destruct H as [H|H]; rewrite H.
  - replace (Reqb 0 0) with true by (symmetry; now apply Reqb_true). reflexivity.
  - replace (Reqb 0 0) with true by (symmetry; now apply Reqb_true).
    now rewrite orb_true_r.
Qed.

Lemma cosine_distance_nonzero_norm (a b : ndarray) :
  np_linalg_norm a <> 0 -> np_linalg_norm b <> 0 ->
  _cosine_distance a b =
  1 - np_dot a b / (np_linalg_norm a * np_linalg_norm b).
Proof.
  intros Ha Hb. unfold _cosine_distance.
  apply Reqb_false in Ha, Hb. now rewrite Ha, Hb.
Qed.

Lemma cosine_distance_bounds (a b : ndarray) :
  shape a = shape b -> 0 <= _cosine_distance a b <= 2.
Proof.
  intros Hs.
  destruct (Req_dec_T (np_linalg_norm a) 0) as [Ha|Ha].
  { rewrite cosine_distance_zero_norm by auto. lra. }
  destruct (Req_dec_T (np_linalg_norm b) 0) as [Hb|Hb].
  { rewrite cosine_distance_zero_norm by auto. lra. }
  rewrite cosine_distance_nonzero_norm by assumption.
  pose proof (np_dot_abs_le a b Hs) as [Hlo Hhi].
  pose proof (np_linalg_norm_nonneg a). pose proof (np_linalg_norm_nonneg b).
  set (A := np_linalg_norm a) in *. set (B := np_linalg_norm b) in *.
  assert (HAB : 0 < A * B) by nra.
  assert (H1 : np_dot a b / (A * B) <= 1).
  { apply (Rmult_le_reg_r (A * B)); [assumption|]. field_simplify; nra. }
  assert (H2 : -1 <= np_dot a b / (A * B)).
  { apply (Rmult_le_reg_r (A * B)); [assumption|]. field_simplify; nra. }
  lra.
Qed.

(** ** The loop of [predict_speaker] *)

Section Loop.
Variable s : ndarray.

(** The distance the loop computes for a stored voiceprint. *)
Let dist (vp : ndarray) : R := _cosine_distance s (vp_normed vp).
Let fits (it : string * ndarray) : Prop := shape (snd it) = shape s.

Lemma predict_step_skip (st : option string * option R) (it : string * ndarray) :
  ~ fits it -> predict_step s st it = st.
Proof.
  intros H. destruct it as [u vp]. unfold predict_step, fits in *. simpl in H.
  apply Nat.eqb_neq in H. now rewrite H.
Qed.

Lemma predict_step_first (it : string * ndarray) :
  fits it ->
  predict_step s (None, None) it = (Some (fst it), Some (dist (snd it))).
Proof.
  intros H. destruct it as [u vp]. unfold predict_step, fits in *. simpl in *.
  apply Nat.eqb_eq in H. now rewrite H.
Qed.

Lemma predict_step_next (u0 : string) (d0 : R) (it : string * ndarray) :
  fits it ->
  predict_step s (Some u0, Some d0) it =
  if Rltb (dist (snd it)) d0 then (Some (fst it), Some (dist (snd it)))
  else (Some u0, Some d0).
Proof.
  intros H. destruct it as [u vp]. unfold predict_step, fits in *. simpl in *.
  apply Nat.eqb_eq in H. now rewrite H.
Qed.

Lemma fits_dec (it : string * ndarray) : {fits it} + {~ fits it}.
Proof. unfold fits. apply Nat.eq_dec. Qed.

Lemma fits_all_or_some (l : dict ndarray) :
  Forall (fun it => ~ fits it) l \/ Exists fits l.
Proof.
  induction l as [|it l [IH|IH]]; auto.
  destruct (fits_dec it); auto.
Qed.

Lemma loop_all_skipped (l : dict ndarray) :
  Forall (fun it => ~ fits it) l ->
  fold_left (predict_step s) l (None, None) = (None, None).
Proof.
  induction 1 as [|it l H _ IH]; simpl; auto.
  now rewrite predict_step_skip.
Qed.

(** After the loop the state holds the first entry of least distance among
    the entries of the query's shape. *)
Lemma loop_best (l : dict ndarray) :
  Exists fits l ->
  exists pre u vp post,
    l = pre ++ (u, vp) :: post /\ fits (u, vp) /\
    fold_left (predict_step s) l (None, None) = (Some u, Some (dist vp)) /\
    Forall (fun it => fits it -> dist vp < dist (snd it)) pre /\
    Forall (fun it => fits it -> dist vp <= dist (snd it)) post.
Proof.
  induction l as [|x l IH] using rev_ind; intros Hex.
  { inversion Hex. }
  rewrite fold_left_app. simpl.
  destruct (fits_dec x) as [Hx|Hx].
  - destruct (fits_all_or_some l) as [Hall|Hsome].
    + rewrite (loop_all_skipped l Hall), predict_step_first by assumption.
      exists l, (fst x), (snd x), []. destruct x as [u vp]; simpl.
      repeat split; auto.
      eapply Forall_impl; [|exact Hall]. simpl. intros it Hn Hf. contradiction.
    + destruct (IH Hsome) as (pre & u & vp & post & Hl & Hf & Hr & Hpre & Hpost).
      rewrite Hr, predict_step_next by assumption.
      destruct (Rltb (dist (snd x)) (dist vp)) eqn:Hlt.
      * apply Rltb_true in Hlt.
        exists l, (fst x), (snd x), []. destruct x as [u' vp']; simpl in *.
        repeat split; auto.
        subst l. apply Forall_app; split.
        { eapply Forall_impl; [|exact Hpre]. simpl. intros it H1 H2.
          specialize (H1 H2). lra. }
        constructor; [simpl; intros _; lra|].
        eapply Forall_impl; [|exact Hpost]. simpl. intros it H1 H2.
        specialize (H1 H2). lra.
      * apply Rltb_false in Hlt.
        exists pre, u, vp, (post ++ [x]). subst l.
        repeat split; auto.
        { now rewrite <- app_assoc. }
        apply Forall_app; split; auto.
  - rewrite predict_step_skip by assumption.
    apply Exists_app in Hex. destruct Hex as [Hex|Hex].
    2:{ inversion Hex as [? ? H|? ? H]; subst; [contradiction|inversion H]. }
    destruct (IH Hex) as (pre & u & vp & post & Hl & Hf & Hr & Hpre & Hpost).
    exists pre, u, vp, (post ++ [x]). subst l.
    repeat split; auto.
    { now rewrite <- app_assoc. }
    apply Forall_app; split; auto.
    constructor; [intros Hfx; contradiction|constructor].
Qed.
End Loop.

(** ** The matcher *)

(** C7. [predict_speaker] returns [(None, None)] exactly when the mapping is
    empty or every voiceprint in it has a shape other than the query's. *)
Theorem predict_speaker_none_iff (voiceprints : dict ndarray) (q : ndarray) :
  predict_speaker voiceprints q = (None, None) <->
  voiceprints = [] \/ Forall (fun it => ~ same_shape q it) voiceprints.
Proof.
  unfold same_shape. split.
  - intros H. right.
    destruct (fits_all_or_some (sample_normed q) voiceprints) as [Hall|Hsome].
    + eapply Forall_impl; [|exact Hall]. simpl. intros it Hn.
      now rewrite shape_sample_normed in Hn.
    + exfalso.
      destruct (loop_best _ _ Hsome) as (pre & u & vp & post & Hl & _ & Hr & _).
      unfold predict_speaker in H. rewrite Hr in H.
      destruct voiceprints; [destruct pre; discriminate|discriminate].
  - intros [H|H]; [now subst|].
    unfold predict_speaker. destruct voiceprints as [|it l]; [reflexivity|].
    rewrite loop_all_skipped; [reflexivity|].
    eapply Forall_impl; [|exact H]. simpl. intros it' Hn.
    now rewrite shape_sample_normed.
Qed.

(** C1. When some voiceprint has the query's shape, [predict_speaker] returns
    a user and a distance; the distance is the least matcher distance over
    the entries of the query's shape, and the user is the first entry, in
    the order of the mapping, that attains it. *)
Theorem predict_speaker_nearest (voiceprints : dict ndarray) (q : ndarray) :
  Exists (same_shape q) voiceprints ->
  exists best_user best_distance,
    predict_speaker voiceprints q = (Some best_user, Some best_distance) /\
    (forall u vp, In (u, vp) voiceprints -> shape vp = shape q ->
                  best_distance <= matcher_distance q vp) /\
    exists pre vp post,
      voiceprints = pre ++ (best_user, vp) :: post /\
      shape vp = shape q /\
      matcher_distance q vp = best_distance /\
      Forall (fun it => same_shape q it ->
                        matcher_distance q (snd it) <> best_distance) pre.
Proof.
  intros Hex. unfold same_shape, matcher_distance in *.
  assert (Hex' : Exists (fun it => shape (snd it) = shape (sample_normed q))
                   voiceprints).
  { eapply Exists_impl; [|exact Hex]. simpl. intros it Hs.
    now rewrite shape_sample_normed. }
  destruct (loop_best _ _ Hex') as (pre & u & vp & post & Hl & Hf & Hr & Hpre & Hpost).
  simpl in Hf. rewrite shape_sample_normed in Hf.
  exists u, (_cosine_distance (sample_normed q) (vp_normed vp)).
  split; [|split].
  - unfold predict_speaker. rewrite Hr.
    destruct voiceprints; [destruct pre; discriminate|reflexivity].
  - intros u' vp' Hin Hs. subst voiceprints.
    apply in_app_or in Hin. destruct Hin as [Hin|[Hin|Hin]].
    + rewrite Forall_forall in Hpre. specialize (Hpre _ Hin). simpl in Hpre.
      rewrite shape_sample_normed in Hpre. specialize (Hpre Hs). lra.
    + injection Hin as <- <-. lra.
    + rewrite Forall_forall in Hpost. specialize (Hpost _ Hin). simpl in Hpost.
      rewrite shape_sample_normed in Hpost. now apply Hpost.
  - exists pre, vp, post. repeat split; auto.
    eapply Forall_impl; [|exact Hpre]. simpl. intros it H1 H2.
    rewrite shape_sample_normed in H1. specialize (H1 H2). lra.
Qed.

Lemma predict_speaker_nearest_witness :
  Exists (same_shape example_query) example_voiceprints /\
  exists best_user best_distance,
    predict_speaker example_voiceprints example_query =
    (Some best_user, Some best_distance).
Proof.
  split.
  - apply Exists_cons_hd. reflexivity.
  - destruct (predict_speaker_nearest example_voiceprints example_query)
      as (u & d & H & _).
    + apply Exists_cons_hd. reflexivity.
    + exists u, d. exact H.
Defined.

(** C9, in exact arithmetic. The cosine distance of two arrays of one
    shape lies between 0 and 2, and so does every distance
    [predict_speaker] returns. *)
Theorem cosine_distance_range :
  (forall a b : ndarray, shape a = shape b -> 0 <= _cosine_distance a b <= 2) /\
  (forall (voiceprints : dict ndarray) (q : ndarray) best_user d,
      predict_speaker voiceprints q = (best_user, Some d) -> 0 <= d <= 2).
Proof.
  split; [exact cosine_distance_bounds|].
  intros voiceprints q best_user d H.
  destruct (fits_all_or_some (sample_normed q) voiceprints) as [Hall|Hsome].
  - unfold predict_speaker in H. rewrite (loop_all_skipped _ _ Hall) in H.
    destruct voiceprints; discriminate.
  - destruct (loop_best _ _ Hsome) as (pre & u & vp & post & Hl & Hf & Hr & _).
    unfold predict_speaker in H. rewrite Hr in H.
    assert (Hd : d = _cosine_distance (sample_normed q) (vp_normed vp)).
    { destruct voiceprints; [destruct pre; discriminate|]. now injection H. }
    subst d. apply cosine_distance_bounds.
    simpl in Hf. rewrite (shape_vp_normed vp). symmetry. exact Hf.
Qed.

Lemma cosine_distance_range_witness :
  shape [1; 0] = shape [0; 1] /\ 0 <= _cosine_distance [1; 0] [0; 1] <= 2.
Proof.
  split; [reflexivity|].
  apply (proj1 cosine_distance_range). reflexivity.
Defined.

(** C9 as the design states it does not hold of the numbers the code
    computes: in double precision the array [1, 5] is at a distance of one
    ulp under 0 from itself, and for the voiceprints [1, 1] of alice and
    [3, 3] of bob the query [1, 1] gets bob at that negative distance. *)
Lemma cosine_distance_negative_in_binary64 :
  binary64._cosine_distance binary64.one_five binary64.one_five =
    binary64.minus_ulp /\
  PrimFloat.ltb binary64.minus_ulp binary64.zero = true /\
  binary64.predict_speaker binary64.two_users binary64.one_one =
    (Some "bob"%string, Some binary64.minus_ulp).
Proof. repeat split; vm_compute; reflexivity. Qed.

(** ** Evaluating norms and distances *)

Lemma np_linalg_norm_eq (v : ndarray) (n : R) :
  0 <= n -> np_dot v v = n * n -> np_linalg_norm v = n.
Proof.
  intros Hn Hd. unfold np_linalg_norm. rewrite Hd. now apply sqrt_square.
Qed.

Lemma np_linalg_norm_zeros (v : ndarray) :
  Forall (fun x => x = 0) v -> np_linalg_norm v = 0.
Proof.
  intros H. apply np_linalg_norm_eq; [lra|].
  induction H as [|x v Hx _ IH]; [unfold np_dot; simpl; lra|].
  rewrite np_dot_cons, IH, Hx. lra.
Qed.

Lemma l2_normalize_above (v : ndarray) :
  np_linalg_norm v > epsilon -> l2_normalize v = np_div v (np_linalg_norm v).
Proof. intros H. unfold l2_normalize. apply Rgtb_true in H. now rewrite H. Qed.

Lemma l2_normalize_below (v : ndarray) :
  np_linalg_norm v <= epsilon -> l2_normalize v = v.
Proof. intros H. unfold l2_normalize. apply Rgtb_false in H. now rewrite H. Qed.

Lemma np_dot_np_div (a b : ndarray) (s t : R) :
  np_dot (np_div a s) (np_div b t) = np_dot a b / (s * t).
Proof.
  revert b. induction a as [|x a IH]; intros [|y b];
    try (unfold np_dot; simpl; unfold Rdiv; now rewrite Rmult_0_l).
  unfold np_div in *. simpl. rewrite !np_dot_cons, IH.
  unfold Rdiv. rewrite Rinv_mult. ring.
Qed.

(** Dividing an array by its non-zero norm gives a unit array. *)
Lemma np_linalg_norm_np_div (v : ndarray) :
  np_linalg_norm v <> 0 -> np_linalg_norm (np_div v (np_linalg_norm v)) = 1.
Proof.
  intros Hn. apply np_linalg_norm_eq; [lra|].
  rewrite np_dot_np_div, <- (np_linalg_norm_sqr v). field. exact Hn.
Qed.

Lemma epsilon_pos : 0 < epsilon.
Proof. unfold epsilon. lra. Qed.

Lemma tiny_norm : np_linalg_norm tiny = 1e-11.
Proof. apply np_linalg_norm_eq; [lra|]. unfold tiny, np_dot. simpl. lra. Qed.

Lemma tiny_normed : l2_normalize tiny = tiny.
Proof. apply l2_normalize_below. rewrite tiny_norm. unfold epsilon. lra. Qed.

(** Settles [np_linalg_norm v = n] for an explicit array [v]. *)
Ltac norm_is :=
  apply np_linalg_norm_eq; [lra | unfold np_dot, np_div; simpl; lra].

Lemma unit_normed (v : ndarray) :
  np_linalg_norm v = 1 -> l2_normalize v = np_div v 1.
Proof.
  intros H. rewrite l2_normalize_above; rewrite H; [reflexivity|].
  unfold epsilon. lra.
Qed.

(** The scenario of the design: the voiceprint [1,0] of bob and the query
    [0,1] are orthogonal, and the matcher answers bob at distance 1. *)
Example predict_speaker_orthogonal :
  predict_speaker [("bob"%string, [1; 0])] [0; 1] = (Some "bob"%string, Some 1).
Proof.
  assert (Hd : matcher_distance [0; 1] [1; 0] = 1).
  { unfold matcher_distance.
    change (sample_normed [0; 1]) with (l2_normalize [0; 1]).
    change (vp_normed [1; 0]) with (l2_normalize [1; 0]).
    rewrite !unit_normed by norm_is.
    rewrite cosine_distance_nonzero_norm.
    - replace (np_linalg_norm (np_div [0; 1] 1)) with 1 by (symmetry; norm_is).
      replace (np_linalg_norm (np_div [1; 0] 1)) with 1 by (symmetry; norm_is).
      unfold np_dot, np_div. simpl. lra.
    - replace (np_linalg_norm (np_div [0; 1] 1)) with 1 by (symmetry; norm_is).
      lra.
    - replace (np_linalg_norm (np_div [1; 0] 1)) with 1 by (symmetry; norm_is).
      lra. }
  unfold predict_speaker. simpl. unfold predict_step. simpl.
  rewrite shape_sample_normed. simpl.
  fold (matcher_distance [0; 1] [1; 0]). now rewrite Hd.
Qed.

(** ** The zero-norm rule *)

(** C2, as the code has it. When the norm of either array is exactly zero,
    [_cosine_distance] is 2; so the matcher assigns the distance 2 to a
    stored voiceprint that is the zero array, whatever the query. *)
Theorem cosine_distance_zero_norm_is_two :
  (forall a b : ndarray,
      np_linalg_norm a = 0 \/ np_linalg_norm b = 0 -> _cosine_distance a b = 2) /\
  (forall q vp : ndarray,
      Forall (fun x => x = 0) vp -> matcher_distance q vp = 2).
Proof.
  split; [exact cosine_distance_zero_norm|].
  intros q vp Hz. unfold matcher_distance.
  apply cosine_distance_zero_norm. right.
  pose proof (np_linalg_norm_zeros vp Hz) as Hn.
  change (vp_normed vp) with (l2_normalize vp).
  rewrite l2_normalize_below; [exact Hn|].
  rewrite Hn. pose proof epsilon_pos. lra.
Qed.

Lemma cosine_distance_zero_norm_is_two_witness :
  Forall (fun x => x = 0) [0; 0] /\ matcher_distance example_query [0; 0] = 2.
Proof.
  split.
  - repeat constructor.
  - apply (proj2 cosine_distance_zero_norm_is_two). repeat constructor.
Defined.

(** C2 as the design states it does not hold: an array whose norm is under [epsilon]
    but not zero is compared like any other. *)
Lemma cosine_distance_below_epsilon_not_two :
  np_linalg_norm tiny < epsilon /\
  _cosine_distance tiny tiny = 0 /\
  matcher_distance tiny tiny = 0 /\
  predict_speaker [("u"%string, tiny)] tiny = (Some "u"%string, Some 0).
Proof.
  assert (Hcd : _cosine_distance tiny tiny = 0).
  { rewrite cosine_distance_nonzero_norm; rewrite ?tiny_norm; try lra.
    unfold tiny, np_dot. simpl. field. }
  assert (Hmd : matcher_distance tiny tiny = 0).
  { unfold matcher_distance.
    change (sample_normed tiny) with (l2_normalize tiny).
    change (vp_normed tiny) with (l2_normalize tiny).
    now rewrite tiny_normed. }
  repeat split; auto.
  - rewrite tiny_norm. unfold epsilon. lra.
  - unfold predict_speaker. simpl. unfold predict_step. simpl.
    rewrite shape_sample_normed. simpl.
    fold (matcher_distance tiny tiny). now rewrite Hmd.
Qed.

(** ** Voice activity detection *)

Lemma size_zero_iff {A : Type} (l : list A) : (size l =? 0)%Z = true <-> l = [].
Proof.
  unfold size. split.
  - intros H. apply Z.eqb_eq in H. destruct l; [reflexivity|simpl in H; lia].
  - intros ->. reflexivity.
Qed.

Lemma size_nonzero_iff {A : Type} (l : list A) :
  (size l =? 0)%Z = false <-> l <> [].
Proof.
  rewrite <- size_zero_iff. destruct (size l =? 0)%Z; split; congruence.
Qed.

(** What [_apply_vad] returns on a short clip: the two voiced samples. *)
Example apply_vad_clip :
  @_apply_vad clip_librosa [0; 3; 0; 4; 0] 25 30 = Ok [3; 4].
Proof. reflexivity. Qed.

(** On silence both fallbacks are taken and the input comes back. *)
Example apply_vad_silence (y : ndarray) :
  @_apply_vad silent_librosa y 25 30 = Ok y.
Proof. reflexivity. Qed.

(** [_apply_vad] raises nothing: the empty list of intervals never reaches
    [np.concatenate]. *)
Lemma apply_vad_returns {L : Librosa} (y : ndarray) (top_db_trim top_db_split : R) :
  exists y_voiced, _apply_vad y top_db_trim top_db_split = Ok y_voiced.
Proof.
  unfold _apply_vad.
  destruct (size (librosa_effects_split _ top_db_split) =? 0)%Z eqn:Ei;
    [eexists; reflexivity|].
  apply size_nonzero_iff in Ei.
  destruct (librosa_effects_split _ top_db_split) as [|i intervals];
    [contradiction|].
  simpl. destruct (size _ =? 0)%Z; eexists; reflexivity.
Qed.

(** C5. On a non-empty waveform [_apply_vad] raises nothing and returns a
    non-empty waveform: the trimmed signal stands in for the voiced one when
    there is no interval or the intervals are empty, and the input stands in
    for the trimmed signal when trimming leaves nothing. *)
Theorem apply_vad_nonempty {L : Librosa} (y : ndarray) (top_db_trim top_db_split : R) :
  y <> [] ->
  exists y_voiced y_trimmed,
    _apply_vad y top_db_trim top_db_split = Ok y_voiced /\
    y_voiced <> [] /\
    (librosa_effects_trim y top_db_trim = [] /\ y_trimmed = y \/
     librosa_effects_trim y top_db_trim <> [] /\
     y_trimmed = librosa_effects_trim y top_db_trim) /\
    let intervals := librosa_effects_split y_trimmed top_db_split in
    let voiced := map (fun '(start, stop) => py_slice y_trimmed start stop) intervals in
    ((intervals = [] \/ concat voiced = []) /\ y_voiced = y_trimmed \/
     intervals <> [] /\ concat voiced <> [] /\ y_voiced = concat voiced).
Proof.
  intros Hy. unfold _apply_vad.
  set (t := librosa_effects_trim y top_db_trim).
  set (y_trimmed := if (size t =? 0)%Z then y else t).
  assert (Ht : t = [] /\ y_trimmed = y \/ t <> [] /\ y_trimmed = t).
  { subst y_trimmed. destruct (size t =? 0)%Z eqn:E.
    - left. split; [now apply size_zero_iff|reflexivity].
    - right. split; [now apply size_nonzero_iff|reflexivity]. }
  assert (Hne : y_trimmed <> []).
  { destruct Ht as [[_ ->]|[Hn ->]]; assumption. }
  set (intervals := librosa_effects_split y_trimmed top_db_split).
  destruct (size intervals =? 0)%Z eqn:Ei.
  { apply size_zero_iff in Ei. exists y_trimmed, y_trimmed.
    repeat split; auto. }
  apply size_nonzero_iff in Ei.
  set (voiced := map (fun '(start, stop) => py_slice y_trimmed start stop) intervals).
  assert (Hv : np_concatenate voiced = Ok (concat voiced)).
  { subst voiced. destruct intervals; [contradiction|reflexivity]. }
  rewrite Hv. simpl.
  destruct (size (concat voiced) =? 0)%Z eqn:Ec.
  - apply size_zero_iff in Ec. exists y_trimmed, y_trimmed. repeat split; auto.
  - apply size_nonzero_iff in Ec. exists (concat voiced), y_trimmed.
    repeat split; auto.
Qed.

Lemma apply_vad_nonempty_witness :
  [0; 3; 0; 4; 0] <> [] /\
  exists y_voiced,
    @_apply_vad clip_librosa [0; 3; 0; 4; 0] 25 30 = Ok y_voiced /\
    y_voiced <> [].
Proof.
  split; [discriminate|].
  destruct (@apply_vad_nonempty clip_librosa [0; 3; 0; 4; 0] 25 30)
    as (v & t & Hv & Hne & _).
  - discriminate.
  - exists v. split; assumption.
Defined.

(** ** Feature extraction *)

Lemma half_second_floor (n : Z) :
  Rltb (IZR n) (0.5 * IZR config.SAMPLE_RATE) = true <-> (n < 8000)%Z.
Proof.
  rewrite Rltb_true. unfold config.SAMPLE_RATE.
  replace (0.5 * 16000) with (IZR 8000) by lra.
  split; [apply lt_IZR|apply IZR_lt].
Qed.

Lemma half_second_floor_not (n : Z) :
  Rltb (IZR n) (0.5 * IZR config.SAMPLE_RATE) = false <-> (8000 <= n)%Z.
Proof.
  pose proof (half_second_floor n) as H.
  destruct (Rltb _ _); split; intros Hn; try discriminate; auto.
  - destruct H as [H _]. specialize (H eq_refl). lia.
  - destruct (Z_lt_le_dec n 8000) as [Hlt|Hle]; [|assumption].
    apply H in Hlt. discriminate.
Qed.

(** The successful path of [extract_features]. *)
Lemma extract_features_ok {L : Librosa} (fs : filesystem) (filepath : string)
    (f : file) (y y_voiced : ndarray) (sr : Z) :
  fs filepath = Some f ->
  librosa_load f config.SAMPLE_RATE = Some (y, sr) ->
  y <> [] ->
  _apply_vad y 25 30 = Ok y_voiced ->
  (8000 <= size y_voiced)%Z ->
  (2 <= size (librosa_feature_mfcc y_voiced sr config.N_MFCC config.N_FFT
                config.HOP_LENGTH config.N_MELS))%Z ->
  extract_features fs filepath =
  Ok (l2_normalize
        (raw_feature_vector
           (librosa_feature_mfcc y_voiced sr config.N_MFCC config.N_FFT
              config.HOP_LENGTH config.N_MELS))).
Proof.
  intros Hfs Hload Hy Hvad Hlen Hrows. unfold extract_features.
  rewrite Hfs, Hload.
  apply size_nonzero_iff in Hy. rewrite Hy, Hvad. simpl.
  apply half_second_floor_not in Hlen. rewrite Hlen.
  apply Z.ltb_ge in Hrows. now rewrite Hrows.
Qed.

Lemma extract_features_ok_inv {L : Librosa} (fs : filesystem) (filepath : string)
    (v : ndarray) :
  extract_features fs filepath = Ok v ->
  exists f y sr y_voiced,
    fs filepath = Some f /\
    librosa_load f config.SAMPLE_RATE = Some (y, sr) /\
    y <> [] /\
    _apply_vad y 25 30 = Ok y_voiced /\
    (8000 <= size y_voiced)%Z /\
    let mfcc :=
      librosa_feature_mfcc y_voiced sr config.N_MFCC config.N_FFT
        config.HOP_LENGTH config.N_MELS in
    (2 <= size mfcc)%Z /\ v = l2_normalize (raw_feature_vector mfcc).
Proof.
  unfold extract_features. intros H.
  destruct (fs filepath) as [f|] eqn:Hfs; [|discriminate].
  destruct (librosa_load f config.SAMPLE_RATE) as [[y sr]|] eqn:Hload;
    [|discriminate].
  destruct (size y =? 0)%Z eqn:Ey; [discriminate|].
  destruct (_apply_vad y 25 30) as [y_voiced|e] eqn:Ev; [|discriminate].
  simpl in H.
  destruct (Rltb _ _) eqn:Efloor; [discriminate|].
  destruct (size _ <? 2)%Z eqn:Erows; [discriminate|].
  exists f, y, sr, y_voiced. injection H as <-.
  split; [reflexivity|]. split; [assumption|].
  split; [now apply size_nonzero_iff|]. split; [assumption|].
  split; [now apply half_second_floor_not|].
  split; [now apply Z.ltb_ge|reflexivity].
Qed.

(** C4. [extract_features] raises the error for too little audio exactly
    when the file exists and decodes to a non-empty waveform of which fewer
    than 8000 samples (half a second at the configured rate) remain after
    voice activity detection; it raises an input error when the file is
    missing and when the decoded waveform is empty.  The errors are the
    function's outcome: nothing replaces them by a feature vector. *)
Theorem extract_features_errors {L : Librosa} (fs : filesystem) (filepath : string) :
  (extract_features fs filepath =
     Raise (ValueError "Less than 0.5s of voiced speech.") <->
   exists f y sr y_voiced,
     fs filepath = Some f /\
     librosa_load f config.SAMPLE_RATE = Some (y, sr) /\
     y <> [] /\
     _apply_vad y 25 30 = Ok y_voiced /\
     IZR (size y_voiced) < 0.5 * IZR config.SAMPLE_RATE /\
     (size y_voiced < 8000)%Z) /\
  (fs filepath = None ->
   extract_features fs filepath =
     Raise (FileNotFoundError ("Audio file not found: " ++ filepath))) /\
  (forall f sr,
      fs filepath = Some f ->
      librosa_load f config.SAMPLE_RATE = Some ([], sr) ->
      extract_features fs filepath = Raise (ValueError "Empty audio signal.")).
Proof.
  split; [split|split].
  - unfold extract_features. intros H.
    destruct (fs filepath) as [f|] eqn:Hfs; [|discriminate].
    destruct (librosa_load f config.SAMPLE_RATE) as [[y sr]|] eqn:Hload;
      [|discriminate].
    destruct (size y =? 0)%Z eqn:Ey; [discriminate|].
    apply size_nonzero_iff in Ey.
    destruct (apply_vad_returns y 25 30) as (y_voiced & Hv).
    rewrite Hv in H. simpl in H.
    destruct (Rltb _ _) eqn:Efloor.
    + exists f, y, sr, y_voiced.
      split; [reflexivity|]. split; [assumption|].
      split; [assumption|]. split; [assumption|].
      split; [now apply Rltb_true|now apply half_second_floor].
    + destruct (size _ <? 2)%Z; discriminate.
  - intros (f & y & sr & y_voiced & Hfs & Hload & Hy & Hv & _ & Hlen).
    unfold extract_features. rewrite Hfs, Hload.
    apply size_nonzero_iff in Hy. rewrite Hy, Hv. simpl.
    apply half_second_floor in Hlen. now rewrite Hlen.
  - intros Hfs. unfold extract_features. now rewrite Hfs.
  - intros f sr Hfs Hload. unfold extract_features. now rewrite Hfs, Hload.
Qed.

Lemma extract_features_errors_witness :
  one_file "nothing.wav"%string = None /\
  @extract_features clip_librosa one_file "nothing.wav"%string =
    Raise (FileNotFoundError "Audio file not found: nothing.wav"%string) /\
  @extract_features clip_librosa one_file "auth.wav"%string =
    Raise (ValueError "Less than 0.5s of voiced speech."%string).
Proof.
  split; [reflexivity|]. split.
  - apply (proj1 (proj2 (@extract_features_errors clip_librosa one_file
                           "nothing.wav"%string))).
    reflexivity.
  - apply (proj1 (@extract_features_errors clip_librosa one_file "auth.wav"%string)).
    exists [], [0; 3; 0; 4; 0], config.SAMPLE_RATE, [3; 4].
    split; [reflexivity|]. split; [reflexivity|]. split; [discriminate|].
    split; [reflexivity|].
    split; [apply Rltb_true, half_second_floor|]; reflexivity.
Defined.

Lemma size_l2_normalize (v : ndarray) : size (l2_normalize v) = size v.
Proof.
  unfold l2_normalize, size. destruct (Rgtb _ _); [|reflexivity].
  unfold np_div. now rewrite length_map.
Qed.

Lemma size_raw_feature_vector (mfcc : list ndarray) :
  (1 <= size mfcc)%Z -> size (raw_feature_vector mfcc) = (2 * (size mfcc - 1))%Z.
Proof.
  unfold raw_feature_vector, size. intros H.
  rewrite length_app, !length_map, length_skipn. lia.
Qed.

(** C8. Granted that the audio library returns as many rows of coefficients
    as it is asked for, every feature vector [extract_features] returns has
    [2 * (N_MFCC - 1)] components: the means of the rows after the first,
    then their standard deviations. *)
Theorem extract_features_dimension {L : Librosa} (fs : filesystem)
    (filepath : string) (v : ndarray) :
  (forall y sr,
      size (librosa_feature_mfcc y sr config.N_MFCC config.N_FFT
              config.HOP_LENGTH config.N_MELS) = config.N_MFCC) ->
  extract_features fs filepath = Ok v ->
  size v = (2 * (config.N_MFCC - 1))%Z /\
  exists y_voiced sr,
    let mfcc :=
      librosa_feature_mfcc y_voiced sr config.N_MFCC config.N_FFT
        config.HOP_LENGTH config.N_MELS in
    let mfcc_mean := map np_mean (skipn 1 mfcc) in
    let mfcc_std := map np_std (skipn 1 mfcc) in
    size mfcc_mean = (config.N_MFCC - 1)%Z /\
    size mfcc_std = (config.N_MFCC - 1)%Z /\
    v = l2_normalize (mfcc_mean ++ mfcc_std).
Proof.
  intros Hrows Hok.
  destruct (extract_features_ok_inv fs filepath v Hok)
    as (f & y & sr & y_voiced & _ & _ & _ & _ & _ & Hm & ->).
  pose proof (Hrows y_voiced sr) as Hr.
  split.
  - rewrite size_l2_normalize, size_raw_feature_vector by lia.
    now rewrite Hr.
  - exists y_voiced, sr. cbv zeta. unfold size in *.
    rewrite !length_map, length_skipn.
    repeat split; lia.
Qed.

(** ** Statistics of a single frame *)

Lemma np_mean_singleton (x : R) : np_mean [x] = x.
Proof. unfold np_mean, np_sum. simpl. field. Qed.

Lemma np_std_singleton (x : R) : np_std [x] = 0.
Proof.
  unfold np_std. rewrite np_mean_singleton. simpl.
  rewrite np_mean_singleton. replace ((x - x) * (x - x)) with 0 by ring.
  apply sqrt_0.
Qed.

Lemma silent_raw_eq : raw_feature_vector silent_mfcc = silent_raw.
Proof.
  unfold raw_feature_vector, silent_mfcc, silent_raw. simpl.
  now rewrite !np_mean_singleton, !np_std_singleton.
Qed.

Lemma loud_raw_eq : raw_feature_vector loud_mfcc = loud_raw.
Proof.
  unfold raw_feature_vector, loud_mfcc, loud_raw. simpl.
  now rewrite !np_mean_singleton, !np_std_singleton.
Qed.

Lemma silent_raw_norm : np_linalg_norm silent_raw = 1e-11.
Proof.
  apply np_linalg_norm_eq; [lra|]. unfold silent_raw, np_dot. simpl. lra.
Qed.

Lemma loud_raw_norm : np_linalg_norm loud_raw = 5.
Proof.
  apply np_linalg_norm_eq; [lra|]. unfold loud_raw, np_dot. simpl. lra.
Qed.

Lemma size_silence : size silence = 8000%Z.
Proof. unfold size, silence. rewrite repeat_length. lia. Qed.

Lemma silence_nonempty : silence <> [].
Proof.
  intros H. pose proof size_silence as Hs. rewrite H in Hs. discriminate.
Qed.

(** What [extract_features] returns for a half-second recording, given the
    coefficient matrix of the recording. *)
Lemma extract_features_recording (mfcc : list ndarray) :
  (2 <= size mfcc)%Z ->
  @extract_features (recording_librosa mfcc) one_file "auth.wav"%string =
  Ok (l2_normalize (raw_feature_vector mfcc)).
Proof.
  intros Hm.
  apply (@extract_features_ok (recording_librosa mfcc) one_file "auth.wav"%string
           [] silence silence config.SAMPLE_RATE).
  - reflexivity.
  - reflexivity.
  - exact silence_nonempty.
  - reflexivity.
  - rewrite size_silence. lia.
  - exact Hm.
Qed.

Lemma extract_features_loud :
  @extract_features loud_librosa one_file "auth.wav"%string = Ok (np_div loud_raw 5).
Proof.
  unfold loud_librosa. rewrite extract_features_recording by (vm_compute; discriminate).
  rewrite loud_raw_eq, l2_normalize_above; rewrite loud_raw_norm.
  - reflexivity.
  - unfold epsilon. lra.
Qed.

Lemma extract_features_silent :
  @extract_features silent_librosa one_file "auth.wav"%string = Ok silent_raw.
Proof.
  unfold silent_librosa. rewrite extract_features_recording by (vm_compute; discriminate).
  rewrite silent_raw_eq, l2_normalize_below; [reflexivity|].
  rewrite silent_raw_norm. unfold epsilon. lra.
Qed.

Lemma extract_features_dimension_witness :
  (forall y sr,
      size (@librosa_feature_mfcc loud_librosa y sr config.N_MFCC config.N_FFT
              config.HOP_LENGTH config.N_MELS) = config.N_MFCC) /\
  @extract_features loud_librosa one_file "auth.wav"%string = Ok (np_div loud_raw 5) /\
  size (np_div loud_raw 5) = (2 * (config.N_MFCC - 1))%Z.
Proof.
  split; [reflexivity|]. split; [exact extract_features_loud|].
  apply (@extract_features_dimension loud_librosa one_file "auth.wav"%string
           (np_div loud_raw 5)).
  - reflexivity.
  - exact extract_features_loud.
Defined.

(** ** Normalisation of the feature vector *)

(** C3, as the code has it. A feature vector whose statistics vector has a
    norm above [epsilon] is that vector divided by its norm and has norm 1,
    so within 1e-6 of 1; one whose statistics vector has a norm of at most
    [epsilon] is the statistics vector itself. *)
Theorem extract_features_normalized {L : Librosa} (fs : filesystem)
    (filepath : string) (v : ndarray) :
  extract_features fs filepath = Ok v ->
  exists y_voiced sr,
    let raw :=
      raw_feature_vector
        (librosa_feature_mfcc y_voiced sr config.N_MFCC config.N_FFT
           config.HOP_LENGTH config.N_MELS) in
    (np_linalg_norm raw > epsilon ->
     v = np_div raw (np_linalg_norm raw) /\
     np_linalg_norm v = 1 /\
     Rabs (np_linalg_norm v - 1) <= 1e-6) /\
    (np_linalg_norm raw <= epsilon -> v = raw).
Proof.
  intros Hok.
  destruct (extract_features_ok_inv fs filepath v Hok)
    as (f & y & sr & y_voiced & _ & _ & _ & _ & _ & _ & ->).
  exists y_voiced, sr. cbv zeta.
  set (raw := raw_feature_vector _).
  split.
  - intros Hn. rewrite l2_normalize_above by assumption.
    assert (H1 : np_linalg_norm (np_div raw (np_linalg_norm raw)) = 1).
    { apply np_linalg_norm_np_div. pose proof epsilon_pos. lra. }
    repeat split; auto.
    rewrite H1. replace (1 - 1) with 0 by ring. rewrite Rabs_R0. lra.
  - intros Hn. now apply l2_normalize_below.
Qed.

Lemma extract_features_normalized_witness :
  @extract_features loud_librosa one_file "auth.wav"%string =
    Ok (np_div loud_raw 5) /\
  np_linalg_norm (np_div loud_raw 5) = 1.
Proof.
  split; [exact extract_features_loud|].
  destruct (@extract_features_normalized loud_librosa one_file "auth.wav"%string
              (np_div loud_raw 5) extract_features_loud)
    as (y_voiced & sr & Habove & _).
  simpl in Habove. apply Habove. rewrite loud_raw_eq, loud_raw_norm. unfold epsilon. lra.
Defined.

(** C3 as the design states it does not hold: the statistics vector of a silent
    recording has a norm that is not zero and not above [epsilon]; it is
    returned unscaled, and its norm is far from 1. *)
Lemma extract_features_small_norm_unscaled :
  @extract_features silent_librosa one_file "auth.wav"%string = Ok silent_raw /\
  raw_feature_vector silent_mfcc = silent_raw /\
  np_linalg_norm (raw_feature_vector silent_mfcc) <> 0 /\
  ~ Rabs (np_linalg_norm silent_raw - 1) <= 1e-6.
Proof.
  split; [exact extract_features_silent|].
  split; [exact silent_raw_eq|].
  rewrite silent_raw_eq, silent_raw_norm. split; [lra|].
  rewrite Rabs_left by lra. lra.
Qed.

(** ** Dictionaries *)

Section Dict.
Context {V : Type}.
Implicit Types (d : dict V) (k : string) (v : V).

Lemma dict_get_set_same d k v : dict_get (dict_set d k v) k = Some v.
Proof.
  induction d as [|[k' v'] d IH]; simpl.
  - now rewrite String.eqb_refl.
  - destruct (String.eqb k' k) eqn:E; simpl; rewrite E; auto.
Qed.

Lemma dict_get_set_other d k k' v :
  k <> k' -> dict_get (dict_set d k v) k' = dict_get d k'.
Proof.
  intros Hne. induction d as [|[k0 v0] d IH]; simpl.
  - apply String.eqb_neq in Hne. now rewrite Hne.
  - destruct (String.eqb k0 k) eqn:E; simpl.
    + apply String.eqb_eq in E. subst k0.
      apply String.eqb_neq in Hne. now rewrite Hne.
    + now rewrite IH.
Qed.

Lemma dict_get_none d k : ~ In k (keys d) -> dict_get d k = None.
Proof.
  induction d as [|[k' v'] d IH]; simpl; intros H; [reflexivity|].
  destruct (String.eqb k' k) eqn:E.
  - apply String.eqb_eq in E. tauto.
  - apply IH. tauto.
Qed.

Lemma dict_set_fresh d k v : ~ In k (keys d) -> dict_set d k v = d ++ [(k, v)].
Proof.
  induction d as [|[k' v'] d IH]; simpl; intros H; [reflexivity|].
  destruct (String.eqb k' k) eqn:E.
  - apply String.eqb_eq in E. tauto.
  - rewrite IH; tauto.
Qed.

Lemma keys_dict_set_in d k v : In k (keys d) -> keys (dict_set d k v) = keys d.
Proof.
  induction d as [|[k' v'] d IH]; simpl; intros H; [contradiction|].
  destruct (String.eqb k' k) eqn:E; simpl; [reflexivity|].
  f_equal. apply IH. destruct H as [H|H]; [|assumption].
  apply String.eqb_neq in E. contradiction.
Qed.

Lemma keys_dict_set_NoDup d k v : NoDup (keys d) -> NoDup (keys (dict_set d k v)).
Proof.
  intros Hnd. destruct (in_dec string_dec k (keys d)) as [Hin|Hin].
  - now rewrite keys_dict_set_in.
  - rewrite dict_set_fresh by assumption. unfold keys in *.
    rewrite map_app. simpl. apply NoDup_app; [assumption|repeat constructor; auto|].
    intros x Hx [<-|[]]. contradiction.
Qed.

(** Writing the entries of a dictionary one by one rebuilds it. *)
Lemma fold_dict_set (d acc : dict V) :
  NoDup (keys (acc ++ d)) ->
  fold_left (fun a it => dict_set a (fst it) (snd it)) d acc = acc ++ d.
Proof.
  revert acc. induction d as [|[k v] d IH]; intros acc Hnd; simpl.
  - now rewrite app_nil_r.
  - assert (Hk : ~ In k (keys acc)).
    { unfold keys in *. rewrite map_app in Hnd. simpl in Hnd.
      apply NoDup_remove_2 in Hnd. intros Hin. apply Hnd.
      apply in_or_app. now left. }
    rewrite dict_set_fresh by assumption.
    rewrite IH; rewrite <- app_assoc; [reflexivity|exact Hnd].
Qed.
End Dict.

(** ** The voiceprints file *)

Lemma load_voiceprints_fold (st : store) :
  load_voiceprints st =
  fold_left load_step (_read_json (voiceprints_json st) []) [].
Proof. reflexivity. Qed.

Lemma load_step_NoDup (raw : dict json_value) (acc : dict ndarray) :
  NoDup (keys acc) -> NoDup (keys (fold_left load_step raw acc)).
Proof.
  revert acc. induction raw as [|[u vec] raw IH]; intros acc Hnd; simpl; auto.
  apply IH. destruct vec; simpl; auto using keys_dict_set_NoDup.
Qed.

Lemma load_voiceprints_NoDup (st : store) : NoDup (keys (load_voiceprints st)).
Proof. rewrite load_voiceprints_fold. apply load_step_NoDup. constructor. Qed.

(** Reading back what [save_voiceprints] wrote. *)
Lemma load_save_voiceprints (voiceprints : dict ndarray) (st : store) :
  NoDup (keys voiceprints) ->
  load_voiceprints (save_voiceprints voiceprints st) = voiceprints.
Proof.
  intros Hnd. rewrite load_voiceprints_fold. simpl.
  rewrite <- (fold_dict_set voiceprints []) at 2 by exact Hnd.
  generalize (@nil (string * ndarray)).
  induction voiceprints as [|[u v] d IH]; intros acc; simpl; [reflexivity|].
  apply IH. now inversion Hnd.
Qed.

Lemma dict_get_app {V : Type} (d1 d2 : dict V) (k : string) :
  dict_get (d1 ++ d2) k =
  match dict_get d1 k with
  | Some v => Some v
  | None => dict_get d2 k
  end.
Proof.
  induction d1 as [|[k' v'] d1 IH]; simpl; [reflexivity|].
  destruct (String.eqb k' k); auto.
Qed.

Lemma dict_get_saved (d : dict ndarray) (k : string) :
  dict_get (map (fun '(u, v) => (u, tolist v)) d) k =
  option_map tolist (dict_get d k).
Proof.
  induction d as [|[k' v'] d IH]; simpl; [reflexivity|].
  destruct (String.eqb k' k); auto.
Qed.

(** With distinct keys, [load_voiceprints] keeps the entries that convert. *)
Lemma load_step_get (raw : dict json_value) :
  forall (acc : dict ndarray) (k : string),
    NoDup (keys acc ++ keys raw) ->
    dict_get (fold_left load_step raw acc) k =
    match dict_get acc k with
    | Some v => Some v
    | None =>
        match dict_get raw k with
        | Some (JArray l) => Some l
        | _ => None
        end
    end.
Proof.
  induction raw as [|[u vec] raw IH]; intros acc k Hnd; simpl.
  { destruct (dict_get acc k); reflexivity. }
  simpl in Hnd.
  assert (Hu : ~ In u (keys acc) /\ ~ In u (keys raw)).
  { apply NoDup_remove_2 in Hnd. split; intros Hin; apply Hnd;
      apply in_or_app; auto. }
  destruct Hu as [Hacc Hraw].
  destruct vec as [l|]; simpl.
  - rewrite dict_set_fresh by assumption.
    rewrite IH.
    2:{ unfold keys in *. rewrite map_app, <- app_assoc. exact Hnd. }
    rewrite dict_get_app. simpl.
    destruct (dict_get acc k); [reflexivity|].
    destruct (String.eqb u k); reflexivity.
  - rewrite IH by (eapply NoDup_remove_1; exact Hnd).
    destruct (dict_get acc k); [reflexivity|].
    destruct (String.eqb u k) eqn:E; [|reflexivity].
    apply String.eqb_eq in E. subst k.
    now rewrite (dict_get_none raw u Hraw).
Qed.

(** ** The aggregator *)

(** The three outcomes of [recompute_voiceprint]: nothing to do, a failed
    stacking, or one voiceprint written. *)
Lemma recompute_voiceprint_cases (username : string) (st : store) :
  recompute_voiceprint username st = Ok st \/
  (exists e, recompute_voiceprint username st = Raise e) \/
  exists entry feature_list,
    dict_get (load_users st) username = Some entry /\
    feature_list = collect_features (get_audio_samples entry) /\
    feature_list <> [] /\
    np_stack feature_list = Ok feature_list /\
    recompute_voiceprint username st =
    Ok (save_voiceprints
          (dict_set (load_voiceprints st) username (np_mean_axis0 feature_list))
          st).
Proof.
  unfold recompute_voiceprint.
  destruct (dict_get (load_users st) username) as [entry|]; [|now left].
  destruct (get_audio_samples entry) as [|s samples] eqn:Es; [now left|].
  destruct (collect_features (s :: samples)) as [|a rest] eqn:Ef; [now left|].
  destruct (np_stack (a :: rest)) as [stacked|e] eqn:Est.
  - right. right. exists entry, (a :: rest).
    assert (stacked = a :: rest) as ->.
    { unfold np_stack in Est. destruct (forallb _ rest); now inversion Est. }
    split; [reflexivity|]. split; [now rewrite Es, Ef|].
    split; [discriminate|]. split; [assumption|reflexivity].
  - right. left. exists e. reflexivity.
Qed.

(** C10, as the code has it. A run of [recompute_voiceprint] for a user
    that returns leaves the users file as it was and changes no other
    user's voiceprint: what [load_voiceprints] gives for another user is
    the same before and after.  In the file, for distinct users, another
    user's entry that is a list of numbers is kept; unless the run wrote
    nothing, another user's entry that does not convert is gone. *)
Theorem recompute_voiceprint_frame (username : string) (st st' : store) :
  recompute_voiceprint username st = Ok st' ->
  users_json st' = users_json st /\
  load_users st' = load_users st /\
  (forall other, other <> username ->
     dict_get (load_voiceprints st') other = dict_get (load_voiceprints st) other) /\
  (forall other l, other <> username ->
     NoDup (keys (_read_json (voiceprints_json st) [])) ->
     dict_get (_read_json (voiceprints_json st) []) other = Some (JArray l) ->
     dict_get (_read_json (voiceprints_json st') []) other = Some (JArray l)) /\
  (st' = st \/
   forall other, other <> username ->
     NoDup (keys (_read_json (voiceprints_json st) [])) ->
     dict_get (_read_json (voiceprints_json st) []) other = Some JOther ->
     dict_get (_read_json (voiceprints_json st') []) other = None).
Proof.
  intros Hrun.
  destruct (recompute_voiceprint_cases username st)
    as [H|[[e H]|(entry & fl & _ & _ & _ & _ & H)]];
    rewrite H in Hrun; try discriminate; injection Hrun as <-.
  { repeat split; auto. }
  split; [reflexivity|]. split; [reflexivity|]. split; [|split].
  - intros other Hne.
    rewrite load_save_voiceprints
      by apply keys_dict_set_NoDup, load_voiceprints_NoDup.
    apply dict_get_set_other. congruence.
  - intros other l Hne Hnd Hget. simpl.
    rewrite dict_get_saved, dict_get_set_other by congruence.
    rewrite load_voiceprints_fold, load_step_get by exact Hnd.
    simpl. now rewrite Hget.
  - right. intros other Hne Hnd Hget. simpl.
    rewrite dict_get_saved, dict_get_set_other by congruence.
    rewrite load_voiceprints_fold, load_step_get by exact Hnd.
    simpl. now rewrite Hget.
Qed.

Lemma recompute_voiceprint_frame_witness :
  exists st',
    recompute_voiceprint "alice"
      (enrolled_store "alice" toy_samples (Some [("bob"%string, JArray [0; 1])]))
    = Ok st' /\
    dict_get (load_voiceprints st') "bob" = Some [0; 1].
Proof.
  eexists. split; [reflexivity|].
  rewrite (proj1 (proj2 (proj2
    (recompute_voiceprint_frame "alice"
       (enrolled_store "alice" toy_samples (Some [("bob"%string, JArray [0; 1])]))
       _ eq_refl))) "bob"%string) by discriminate.
  reflexivity.
Defined.

(** C10 as the design states it does not hold: the entry of another user
    that is not a list of numbers is in the voiceprints file before the
    run for alice and not after it. *)
Lemma recompute_voiceprint_drops_entry :
  dict_get (_read_json (voiceprints_json drifted_enrolled_store) []) "old" =
    Some JOther /\
  exists st',
    recompute_voiceprint "alice" drifted_enrolled_store = Ok st' /\
    dict_get (_read_json (voiceprints_json st') []) "old" = None /\
    dict_get (_read_json (voiceprints_json st') []) "bob" = Some (JArray [0; 1]).
Proof.
  split; [reflexivity|].
  eexists. split; [reflexivity|]. split; reflexivity.
Qed.

(** ** The centroid *)

Lemma nth_map_default {A : Type} (f : A -> R) (l : list A) (a : A) (n : nat) :
  (n < length l)%nat -> nth n (map f l) 0 = f (nth n l a).
Proof.
  intros H. rewrite (nth_indep _ 0 (f a)) by now rewrite length_map.
  apply map_nth.
Qed.

Lemma nth_map_seq (g : nat -> R) (d n : nat) :
  (n < d)%nat -> nth n (map g (seq 0 d)) 0 = g n.
Proof.
  intros H. rewrite (nth_map_default g _ 0%nat) by now rewrite length_seq.
  now rewrite seq_nth.
Qed.

Lemma length_np_add (a b : ndarray) :
  length a = length b -> length (np_add a b) = length a.
Proof.
  intros H. unfold np_add. rewrite length_map, length_combine. lia.
Qed.

Lemma nth_np_add (a b : ndarray) (n : nat) :
  length a = length b -> (n < length a)%nat ->
  nth n (np_add a b) 0 = nth n a 0 + nth n b 0.
Proof.
  intros Hlen Hn. unfold np_add.
  rewrite (nth_map_default _ _ (0, 0)) by (rewrite length_combine; lia).
  rewrite combine_nth by assumption. reflexivity.
Qed.

Lemma array_as_map_seq (r : ndarray) :
  r = map (fun j => nth j r 0) (seq 0 (length r)).
Proof.
  apply (nth_ext _ _ 0 0).
  - now rewrite length_map, length_seq.
  - intros n Hn. now rewrite nth_map_seq.
Qed.

(** The running sum of [np.mean(stacked, axis=0)], component by component. *)
Lemma fold_left_np_add (d : nat) (rest : list ndarray) :
  forall r : ndarray,
    length r = d -> Forall (fun v => shape v = d) rest ->
    fold_left np_add rest r =
    map (fun j => nth j r 0 + np_sum (map (fun v => nth j v 0) rest)) (seq 0 d).
Proof.
  induction rest as [|x rest IH]; intros r Hr Hall; simpl.
  - rewrite (array_as_map_seq r) at 1. rewrite Hr.
    apply map_ext. intros j. lra.
  - inversion Hall as [|? ? Hx Hrest]; subst. unfold shape in Hx.
    rewrite IH; auto.
    + apply map_ext_in. intros j Hj. apply in_seq in Hj.
      rewrite nth_np_add by lia. lra.
    + rewrite length_np_add; lia.
Qed.

Lemma np_mean_axis0_arithmetic_mean (d : nat) (vs : list ndarray) :
  vs <> [] ->
  Forall (fun v => shape v = d) vs ->
  np_mean_axis0 vs = arithmetic_mean vs d.
Proof.
  intros Hne Hall. destruct vs as [|r rest]; [contradiction|].
  inversion Hall as [|? ? Hr Hrest]; subst.
  unfold np_mean_axis0, arithmetic_mean.
  rewrite (fold_left_np_add (shape r)) by auto.
  unfold np_div. rewrite map_map. reflexivity.
Qed.

Lemma np_sum_perm (l l' : ndarray) : Permutation l l' -> np_sum l = np_sum l'.
Proof.
  induction 1; unfold np_sum in *; simpl; lra.
Qed.

Lemma arithmetic_mean_perm (d : nat) (vs vs' : list ndarray) :
  Permutation vs vs' -> arithmetic_mean vs d = arithmetic_mean vs' d.
Proof.
  intros Hp. unfold arithmetic_mean, size.
  rewrite (Permutation_length Hp).
  apply map_ext. intros j. f_equal.
  apply np_sum_perm, Permutation_map, Hp.
Qed.

Lemma np_stack_uniform (d : nat) (vs : list ndarray) :
  vs <> [] -> Forall (fun v => shape v = d) vs -> np_stack vs = Ok vs.
Proof.
  intros Hne Hall. destruct vs as [|a rest]; [contradiction|].
  inversion Hall as [|? ? Ha Hrest]; subst. unfold np_stack.
  replace (forallb _ rest) with true; [reflexivity|].
  symmetry. apply forallb_forall. intros b Hb.
  rewrite Forall_forall in Hrest. apply Nat.eqb_eq. now apply Hrest.
Qed.

Lemma collect_features_samples (samples : list sample) (vs : list ndarray) :
  map features samples = map (fun v => Some (tolist v)) vs ->
  collect_features samples = vs.
Proof.
  revert vs. induction samples as [|s samples IH]; intros [|v vs] H;
    try discriminate; [reflexivity|].
  simpl in *. injection H as Hs Hrest. rewrite Hs. simpl.
  f_equal. now apply IH.
Qed.

(** The run of [recompute_voiceprint] on well-formed samples. *)
Lemma recompute_voiceprint_run (username : string) (st : store)
    (entry : user_entry) (vs : list ndarray) (d : nat) :
  dict_get (load_users st) username = Some entry ->
  map features (get_audio_samples entry) = map (fun v => Some (tolist v)) vs ->
  vs <> [] ->
  Forall (fun v => shape v = d) vs ->
  recompute_voiceprint username st =
  Ok (save_voiceprints
        (dict_set (load_voiceprints st) username (arithmetic_mean vs d)) st).
Proof.
  intros Hu Hs Hne Hall. unfold recompute_voiceprint. rewrite Hu.
  pose proof (collect_features_samples _ _ Hs) as Hc.
  destruct (get_audio_samples entry) as [|s samples] eqn:Es.
  { destruct vs; [contradiction|discriminate]. }
  rewrite Hc. destruct vs as [|v vs']; [contradiction|].
  rewrite (np_stack_uniform d) by assumption. simpl bind.
  change (np_div (fold_left np_add vs' v) (IZR (size (v :: vs'))))
    with (np_mean_axis0 (v :: vs')).
  now rewrite (np_mean_axis0_arithmetic_mean d) by (discriminate || assumption).
Qed.

Lemma arithmetic_mean_toy : arithmetic_mean toy_samples 2 = [2 / 3; 2 / 3].
Proof.
  unfold arithmetic_mean, toy_samples, np_sum, size. simpl.
  f_equal; [|f_equal]; lra.
Qed.

Lemma load_voiceprints_same_file (st1 st2 : store) :
  voiceprints_json st1 = voiceprints_json st2 ->
  load_voiceprints st1 = load_voiceprints st2.
Proof. unfold load_voiceprints. now intros ->. Qed.

(** C6. For a user whose samples hold feature vectors of one dimension,
    [recompute_voiceprint] stores the unweighted arithmetic mean of the
    vectors, component by component; stores that differ in the order of the
    user's samples get the same voiceprints; the samples [1,0], [0,1], [1,1]
    give [2/3, 2/3]; and for a user without samples the call returns the
    store it was given. *)
Theorem recompute_voiceprint_centroid :
  (forall username st entry vs d,
      dict_get (load_users st) username = Some entry ->
      map features (get_audio_samples entry) =
        map (fun v => Some (tolist v)) vs ->
      vs <> [] ->
      Forall (fun v => shape v = d) vs ->
      exists st',
        recompute_voiceprint username st = Ok st' /\
        dict_get (load_voiceprints st') username = Some (arithmetic_mean vs d)) /\
  (forall username st1 st2 entry1 entry2 vs1 vs2 d,
      voiceprints_json st1 = voiceprints_json st2 ->
      dict_get (load_users st1) username = Some entry1 ->
      map features (get_audio_samples entry1) =
        map (fun v => Some (tolist v)) vs1 ->
      dict_get (load_users st2) username = Some entry2 ->
      map features (get_audio_samples entry2) =
        map (fun v => Some (tolist v)) vs2 ->
      vs1 <> [] ->
      Forall (fun v => shape v = d) vs1 ->
      Permutation vs1 vs2 ->
      exists st1' st2',
        recompute_voiceprint username st1 = Ok st1' /\
        recompute_voiceprint username st2 = Ok st2' /\
        load_voiceprints st1' = load_voiceprints st2') /\
  (exists st',
      recompute_voiceprint "alice" (enrolled_store "alice" toy_samples None)
      = Ok st' /\
      load_voiceprints st' = [("alice"%string, [2 / 3; 2 / 3])]) /\
  (forall username st,
      (forall entry,
          dict_get (load_users st) username = Some entry ->
          get_audio_samples entry = []) ->
      recompute_voiceprint username st = Ok st).
Proof.
  split; [|split; [|split]].
  - intros username st entry vs d Hu Hs Hne Hall.
    eexists. split; [now apply (recompute_voiceprint_run username st entry vs d)|].
    rewrite load_save_voiceprints
      by apply keys_dict_set_NoDup, load_voiceprints_NoDup.
    apply dict_get_set_same.
  - intros username st1 st2 entry1 entry2 vs1 vs2 d Hfile Hu1 Hs1 Hu2 Hs2 Hne Hall Hp.
    assert (Hne2 : vs2 <> []).
    { intros ->. apply Permutation_sym, Permutation_nil in Hp. contradiction. }
    assert (Hall2 : Forall (fun v => shape v = d) vs2).
    { eapply Permutation_Forall; eassumption. }
    do 2 eexists. split; [|split].
    + now apply (recompute_voiceprint_run username st1 entry1 vs1 d).
    + now apply (recompute_voiceprint_run username st2 entry2 vs2 d).
    + rewrite !load_save_voiceprints
        by apply keys_dict_set_NoDup, load_voiceprints_NoDup.
      now rewrite (arithmetic_mean_perm d vs1 vs2 Hp),
        (load_voiceprints_same_file st1 st2 Hfile).
  - eexists. split.
    + apply (recompute_voiceprint_run "alice" _
               {| audio_samples := Some (samples_of toy_samples) |}
               toy_samples 2).
      * reflexivity.
      * reflexivity.
      * discriminate.
      * repeat constructor.
    + rewrite load_save_voiceprints
        by apply keys_dict_set_NoDup, load_voiceprints_NoDup.
      now rewrite arithmetic_mean_toy.
  - intros username st Hnone. unfold recompute_voiceprint.
    destruct (dict_get (load_users st) username) as [entry|] eqn:Hu;
      [|reflexivity].
    now rewrite (Hnone entry eq_refl).
Qed.

Lemma recompute_voiceprint_centroid_witness :
  dict_get (load_users (enrolled_store "bob" toy_samples None)) "bob" =
    Some {| audio_samples := Some (samples_of toy_samples) |} /\
  toy_samples <> [] /\
  Forall (fun v => shape v = 2%nat) toy_samples /\
  exists st',
    recompute_voiceprint "bob" (enrolled_store "bob" toy_samples None) = Ok st' /\
    dict_get (load_voiceprints st') "bob" = Some (arithmetic_mean toy_samples 2).
Proof.
  split; [reflexivity|]. split; [discriminate|]. split; [repeat constructor|].
  apply (proj1 recompute_voiceprint_centroid "bob"%string
           (enrolled_store "bob" toy_samples None)
           {| audio_samples := Some (samples_of toy_samples) |} toy_samples 2%nat).
  - reflexivity.
  - reflexivity.
  - discriminate.
  - repeat constructor.
Defined.

(** * Further properties of the matcher *)

Lemma np_dot_comm (a : ndarray) : forall b, np_dot a b = np_dot b a.
Proof.
  induction a as [|x a IH]; intros [|y b]; try reflexivity.
  rewrite !np_dot_cons, IH. ring.
Qed.

Lemma np_dot_np_scale (s t : R) (a : ndarray) :
  forall b, np_dot (np_scale s a) (np_scale t b) = s * t * np_dot a b.
Proof.
  induction a as [|x a IH]; intros [|y b];
    try (unfold np_dot; simpl; ring).
  unfold np_scale in *. simpl. rewrite !np_dot_cons, IH. ring.
Qed.

Lemma np_linalg_norm_np_scale (c : R) (v : ndarray) :
  0 <= c -> np_linalg_norm (np_scale c v) = c * np_linalg_norm v.
Proof.
  intros Hc. apply np_linalg_norm_eq.
  - pose proof (np_linalg_norm_nonneg v). nra.
  - rewrite np_dot_np_scale, <- (np_linalg_norm_sqr v). ring.
Qed.

Lemma np_scale_one (v : ndarray) : np_scale 1 v = v.
Proof.
  unfold np_scale. rewrite <- (map_id v) at 2. apply map_ext. intros x. lra.
Qed.

Lemma np_div_as_scale (v : ndarray) (n : R) : np_div v n = np_scale (/ n) v.
Proof. unfold np_div, np_scale. apply map_ext. intros x. unfold Rdiv. ring. Qed.

(** The re-normalisation multiplies the array by a positive number. *)
Lemma l2_normalize_as_scale (v : ndarray) :
  exists k, 0 < k /\ l2_normalize v = np_scale k v.
Proof.
  unfold l2_normalize. destruct (Rgtb _ _) eqn:E.
  - apply Rgtb_true in E. exists (/ np_linalg_norm v). split.
    + apply Rinv_0_lt_compat. pose proof epsilon_pos. lra.
    + apply np_div_as_scale.
  - exists 1. split; [lra|]. now rewrite np_scale_one.
Qed.

Lemma cosine_distance_np_scale (s t : R) (a b : ndarray) :
  0 < s -> 0 < t ->
  _cosine_distance (np_scale s a) (np_scale t b) = _cosine_distance a b.
Proof.
  intros Hs Ht. unfold _cosine_distance.
  rewrite np_dot_np_scale, !np_linalg_norm_np_scale by lra.
  pose proof (np_linalg_norm_nonneg a) as Ha.
  pose proof (np_linalg_norm_nonneg b) as Hb.
  set (A := np_linalg_norm a) in *. set (B := np_linalg_norm b) in *.
  destruct (Req_dec_T A 0) as [HA|HA].
  { rewrite HA, Rmult_0_r.
    replace (Reqb 0 0) with true by (symmetry; now apply Reqb_true).
    reflexivity. }
  destruct (Req_dec_T B 0) as [HB|HB].
  { rewrite HB, Rmult_0_r.
    replace (Reqb 0 0) with true by (symmetry; now apply Reqb_true).
    now rewrite !orb_true_r. }
  assert (HsA : s * A <> 0) by nra.
  assert (HtB : t * B <> 0) by nra.
  apply Reqb_false in HsA, HtB. rewrite HsA, HtB.
  pose proof HA as HA'. pose proof HB as HB'.
  apply Reqb_false in HA', HB'. rewrite HA', HB'. simpl.
  field. repeat split; lra.
Qed.

(** X1. The cosine distance does not depend on the order of its
    arguments. *)
Theorem cosine_distance_symmetric (a b : ndarray) :
  _cosine_distance a b = _cosine_distance b a.
Proof.
  unfold _cosine_distance. rewrite (np_dot_comm a b).
  rewrite (orb_comm (Reqb (np_linalg_norm a) 0)).
  destruct (Reqb (np_linalg_norm b) 0 || Reqb (np_linalg_norm a) 0);
    [reflexivity|].
  now rewrite (Rmult_comm (np_linalg_norm a)).
Qed.

(** X2. An array whose norm is not zero is at distance 0 from itself. *)
Theorem cosine_distance_self (v : ndarray) :
  np_linalg_norm v <> 0 -> _cosine_distance v v = 0.
Proof.
  intros Hn. rewrite cosine_distance_nonzero_norm by assumption.
  rewrite <- (np_linalg_norm_sqr v). field. exact Hn.
Qed.

Lemma cosine_distance_self_witness :
  np_linalg_norm tiny <> 0 /\ _cosine_distance tiny tiny = 0.
Proof.
  assert (H : np_linalg_norm tiny <> 0) by (rewrite tiny_norm; lra).
  split; [exact H|]. exact (cosine_distance_self tiny H).
Defined.

(** X3. The two re-normalisations of [predict_speaker] do not change the
    distance: the matcher's distance between a query and a stored
    voiceprint is the cosine distance of the two arrays as given. *)
Theorem matcher_distance_is_cosine_distance (q vp : ndarray) :
  matcher_distance q vp = _cosine_distance q vp.
Proof.
  unfold matcher_distance.
  change (sample_normed q) with (l2_normalize q).
  change (vp_normed vp) with (l2_normalize vp).
  destruct (l2_normalize_as_scale q) as (s & Hs & ->).
  destruct (l2_normalize_as_scale vp) as (t & Ht & ->).
  now apply cosine_distance_np_scale.
Qed.

(** [predict_speaker] as its loop, the empty mapping included. *)
Lemma predict_speaker_as_loop (voiceprints : dict ndarray) (q : ndarray) :
  predict_speaker voiceprints q =
  match fold_left (predict_step (sample_normed q)) voiceprints (None, None) with
  | (Some u, d) => (Some u, d)
  | (None, _) => (None, None)
  end.
Proof.
  unfold predict_speaker. destruct voiceprints as [|it l]; [reflexivity|].
  destruct (fold_left _ _ _) as [[u|] d]; reflexivity.
Qed.

Lemma shape_np_scale (c : R) (v : ndarray) : shape (np_scale c v) = shape v.
Proof. unfold shape, np_scale. apply length_map. Qed.

(** The loop step depends on the query through its shape and its
    distances only. *)
Lemma predict_step_ext (s1 s2 : ndarray) :
  shape s1 = shape s2 ->
  (forall b, _cosine_distance s1 b = _cosine_distance s2 b) ->
  forall st it, predict_step s1 st it = predict_step s2 st it.
Proof.
  intros Hs Hd st [u vp]. unfold predict_step. now rewrite Hs, Hd.
Qed.

Lemma fold_left_ext_all {A B : Type} (f g : A -> B -> A) (l : list B) :
  (forall a b, f a b = g a b) -> forall a, fold_left f l a = fold_left g l a.
Proof.
  intros H. induction l as [|b l IH]; intros a; simpl; [reflexivity|].
  now rewrite H, IH.
Qed.

(** X4. The answer of [predict_speaker] does not depend on the length of
    the query: a query multiplied by a positive number gets the same user
    and the same distance. *)
Theorem predict_speaker_query_scale (voiceprints : dict ndarray) (q : ndarray)
    (c : R) :
  0 < c ->
  predict_speaker voiceprints (np_scale c q) = predict_speaker voiceprints q.
Proof.
  intros Hc. rewrite !predict_speaker_as_loop.
  rewrite (fold_left_ext_all (predict_step (sample_normed (np_scale c q)))
             (predict_step (sample_normed q))); [reflexivity|].
  apply predict_step_ext.
  - now rewrite !shape_sample_normed, shape_np_scale.
  - intros b.
    change (sample_normed (np_scale c q)) with (l2_normalize (np_scale c q)).
    change (sample_normed q) with (l2_normalize q).
    destruct (l2_normalize_as_scale (np_scale c q)) as (s & Hs & ->).
    destruct (l2_normalize_as_scale q) as (t & Ht & ->).
    rewrite <- (np_scale_one b).
    rewrite !cosine_distance_np_scale by lra.
    rewrite <- (np_scale_one b) at 1.
    now rewrite cosine_distance_np_scale by lra.
Qed.

Lemma predict_speaker_query_scale_witness :
  0 < 3 /\
  predict_speaker example_voiceprints (np_scale 3 example_query) =
  predict_speaker example_voiceprints example_query.
Proof.
  assert (H : 0 < 3) by lra.
  split; [exact H|].
  exact (predict_speaker_query_scale example_voiceprints example_query 3 H).
Defined.

(** X5. A voiceprint whose shape differs from the query's has no effect:
    the answer is the same with the entry taken out of the mapping. *)
Theorem predict_speaker_ignores_mismatch (pre post : dict ndarray)
    (u : string) (vp q : ndarray) :
  shape vp <> shape q ->
  predict_speaker (pre ++ (u, vp) :: post) q = predict_speaker (pre ++ post) q.
Proof.
  intros Hs. rewrite !predict_speaker_as_loop, !fold_left_app.
  cbn [fold_left]. rewrite predict_step_skip; [reflexivity|].
  simpl. now rewrite shape_sample_normed.
Qed.

Lemma predict_speaker_ignores_mismatch_witness :
  shape [1; 0; 0] <> shape example_query /\
  predict_speaker example_voiceprints example_query =
  predict_speaker [("alice", [1; 0]); ("bob", [0; 1])]%string example_query.
Proof.
  assert (H : shape [1; 0; 0] <> shape example_query) by discriminate.
  split; [exact H|].
  exact (predict_speaker_ignores_mismatch [("alice"%string, [1; 0])]
           [("bob"%string, [0; 1])] "old"%string [1; 0; 0] example_query H).
Defined.

(** X6. What [predict_speaker] returns is either nothing at all or an
    enrolled user whose voiceprint has the query's shape, together with the
    cosine distance between the query and that voiceprint; a user without a
    distance or a distance without a user is never returned. *)
Theorem predict_speaker_result (voiceprints : dict ndarray) (q : ndarray) :
  predict_speaker voiceprints q = (None, None) \/
  exists u vp,
    In (u, vp) voiceprints /\ shape vp = shape q /\
    predict_speaker voiceprints q = (Some u, Some (_cosine_distance q vp)).
Proof.
  destruct (fits_all_or_some (sample_normed q) voiceprints) as [Hall|Hsome].
  - left. rewrite predict_speaker_as_loop.
    now rewrite (loop_all_skipped _ _ Hall).
  - right.
    destruct (loop_best _ _ Hsome) as (pre & u & vp & post & Hl & Hf & Hr & _).
    exists u, vp. simpl in Hf. rewrite shape_sample_normed in Hf.
    split; [subst; apply in_or_app; right; now left|].
    split; [assumption|].
    rewrite predict_speaker_as_loop, Hr. do 2 f_equal.
    change (sample_normed q) with (l2_normalize q).
    change (vp_normed vp) with (l2_normalize vp).
    destruct (l2_normalize_as_scale q) as (s & Hs & ->).
    destruct (l2_normalize_as_scale vp) as (t & Ht & ->).
    now apply cosine_distance_np_scale.
Qed.

(** X7. A query that points the way of an enrolled voiceprint is matched at
    distance 0: when the mapping holds a positive multiple of the query,
    and the query is not the zero array, [predict_speaker] returns a user
    at distance 0. *)
Theorem predict_speaker_same_direction (voiceprints : dict ndarray)
    (q : ndarray) (u : string) (c : R) :
  In (u, np_scale c q) voiceprints ->
  0 < c ->
  np_linalg_norm q <> 0 ->
  exists best_user, predict_speaker voiceprints q = (Some best_user, Some 0).
Proof.
  intros Hin Hc Hq.
  set (s := sample_normed q).
  assert (Hzero : _cosine_distance s (vp_normed (np_scale c q)) = 0).
  { subst s. change (sample_normed q) with (l2_normalize q).
    change (vp_normed (np_scale c q)) with (l2_normalize (np_scale c q)).
    destruct (l2_normalize_as_scale q) as (k1 & Hk1 & ->).
    destruct (l2_normalize_as_scale (np_scale c q)) as (k2 & Hk2 & ->).
    rewrite cosine_distance_np_scale by assumption.
    rewrite <- (np_scale_one q) at 1.
    rewrite cosine_distance_np_scale by lra.
    rewrite cosine_distance_nonzero_norm by assumption.
    rewrite <- (np_linalg_norm_sqr q). field. exact Hq. }
  assert (Hfit : shape (np_scale c q) = shape s).
  { subst s. now rewrite shape_sample_normed, shape_np_scale. }
  assert (Hex : Exists (fun it => shape (snd it) = shape s) voiceprints).
  { apply Exists_exists. exists (u, np_scale c q). split; assumption. }
  destruct (loop_best _ _ Hex) as (pre & w & vp & post & Hl & Hf & Hr & Hpre & Hpost).
  exists w. rewrite predict_speaker_as_loop. fold s. rewrite Hr. do 2 f_equal.
  simpl in Hf.
  assert (Hlo : 0 <= _cosine_distance s (vp_normed vp)).
  { apply cosine_distance_bounds. rewrite (shape_vp_normed vp). now symmetry. }
  assert (Hhi : _cosine_distance s (vp_normed vp) <= 0).
  { rewrite <- Hzero. subst voiceprints.
    apply in_app_or in Hin. destruct Hin as [Hin|[Hin|Hin]].
    - rewrite Forall_forall in Hpre. specialize (Hpre _ Hin Hfit).
      simpl in Hpre. lra.
    - injection Hin as _ <-. lra.
    - rewrite Forall_forall in Hpost. now apply (Hpost _ Hin Hfit). }
  lra.
Qed.

Lemma predict_speaker_same_direction_witness :
  In ("bob"%string, np_scale (/ 2) example_query)
     [("alice"%string, [1; 0]); ("bob"%string, np_scale (/ 2) example_query)] /\
  np_linalg_norm example_query <> 0 /\
  exists best_user,
    predict_speaker
      [("alice"%string, [1; 0]); ("bob"%string, np_scale (/ 2) example_query)]
      example_query = (Some best_user, Some 0).
Proof.
  assert (Hn : np_linalg_norm example_query <> 0).
  { replace (np_linalg_norm example_query) with 2; [lra|].
    symmetry. apply np_linalg_norm_eq; [lra|].
    unfold example_query, np_dot. simpl. lra. }
  assert (Hin : In ("bob"%string, np_scale (/ 2) example_query)
                  [("alice"%string, [1; 0]);
                   ("bob"%string, np_scale (/ 2) example_query)])
    by (right; left; reflexivity).
  split; [exact Hin|]. split; [exact Hn|].
  apply (predict_speaker_same_direction _ example_query "bob"%string (/ 2) Hin);
    [lra|exact Hn].
Defined.

Lemma np_div_one (v : ndarray) : np_div v 1 = v.
Proof.
  unfold np_div. rewrite <- (map_id v) at 2. apply map_ext. intros x. field.
Qed.

Lemma l2_normalize_idempotent (v : ndarray) :
  l2_normalize (l2_normalize v) = l2_normalize v.
Proof.
  destruct (Rgt_dec (np_linalg_norm v) epsilon) as [H|H].
  - rewrite (l2_normalize_above v H).
    assert (H1 : np_linalg_norm (np_div v (np_linalg_norm v)) = 1).
    { apply np_linalg_norm_np_div. pose proof epsilon_pos. lra. }
    rewrite l2_normalize_above; rewrite H1; [apply np_div_one|].
    unfold epsilon. lra.
  - assert (H' : np_linalg_norm v <= epsilon) by lra.
    now rewrite !(l2_normalize_below v H').
Qed.

(** X8. A feature vector that [extract_features] returned passes through
    the re-normalisations of [predict_speaker] unchanged, as a query and as
    a stored voiceprint. *)
Theorem extract_features_already_normalized {L : Librosa} (fs : filesystem)
    (filepath : string) (v : ndarray) :
  extract_features fs filepath = Ok v ->
  sample_normed v = v /\ vp_normed v = v.
Proof.
  intros Hok.
  destruct (extract_features_ok_inv fs filepath v Hok)
    as (f & y & sr & y_voiced & _ & _ & _ & _ & _ & _ & ->).
  change (sample_normed ?x) with (l2_normalize x).
  change (vp_normed ?x) with (l2_normalize x).
  split; apply l2_normalize_idempotent.
Qed.

Lemma extract_features_already_normalized_witness :
  @extract_features loud_librosa one_file "auth.wav"%string =
    Ok (np_div loud_raw 5) /\
  sample_normed (np_div loud_raw 5) = np_div loud_raw 5.
Proof.
  split; [exact extract_features_loud|].
  exact (proj1 (@extract_features_already_normalized loud_librosa one_file
                  "auth.wav"%string _ extract_features_loud)).
Defined.

(** X9. [extract_features] has five errors and no other: besides the three
    of a missing file, an empty waveform and too little voiced audio, it
    raises the decoder's error exactly when the file exists and cannot be
    decoded, and the error for too few coefficients exactly when enough
    voiced audio is left and the coefficient matrix has fewer than two
    rows. *)
Theorem extract_features_outcomes {L : Librosa} (fs : filesystem) (filepath : string) :
  (extract_features fs filepath = Raise LoadError <->
   exists f, fs filepath = Some f /\ librosa_load f config.SAMPLE_RATE = None) /\
  (extract_features fs filepath =
     Raise (ValueError "Not enough MFCC coefficients computed.") <->
   exists f y sr y_voiced,
     fs filepath = Some f /\
     librosa_load f config.SAMPLE_RATE = Some (y, sr) /\
     y <> [] /\
     _apply_vad y 25 30 = Ok y_voiced /\
     (8000 <= size y_voiced)%Z /\
     (size (librosa_feature_mfcc y_voiced sr config.N_MFCC config.N_FFT
              config.HOP_LENGTH config.N_MELS) < 2)%Z) /\
  ((exists v, extract_features fs filepath = Ok v) \/
   extract_features fs filepath =
     Raise (FileNotFoundError ("Audio file not found: " ++ filepath)) \/
   extract_features fs filepath = Raise LoadError \/
   extract_features fs filepath = Raise (ValueError "Empty audio signal.") \/
   extract_features fs filepath =
     Raise (ValueError "Less than 0.5s of voiced speech.") \/
   extract_features fs filepath =
     Raise (ValueError "Not enough MFCC coefficients computed.")).
Proof.
  unfold extract_features.
  destruct (fs filepath) as [f|] eqn:Hfs.
  2:{ split; [|split].
      - split; [discriminate|]. intros (f & Hf & _). discriminate.
      - split; [discriminate|]. intros (f & y & sr & yv & Hf & _). discriminate.
      - right. left. reflexivity. }
  destruct (librosa_load f config.SAMPLE_RATE) as [[y sr]|] eqn:Hload.
  2:{ split; [|split].
      - split; [|reflexivity]. intros _. exists f. split; [reflexivity|assumption].
      - split; [discriminate|].
        intros (f' & y & sr & yv & Hf & Hl & _).
        injection Hf as <-. rewrite Hload in Hl. discriminate.
      - right. right. left. reflexivity. }
  destruct (size y =? 0)%Z eqn:Ey.
  { split; [|split].
    - split; [discriminate|].
      intros (f' & Hf & Hl). injection Hf as <-. rewrite Hload in Hl. discriminate.
    - split; [discriminate|].
      intros (f' & y' & sr' & yv & Hf & Hl & Hy & _).
      injection Hf as <-. rewrite Hload in Hl. injection Hl as <- <-.
      apply size_nonzero_iff in Hy. congruence.
    - right. right. right. left. reflexivity. }
  destruct (apply_vad_returns y 25 30) as (y_voiced & Hv). rewrite Hv. simpl.
  destruct (Rltb _ _) eqn:Efloor.
  { split; [|split].
    - split; [discriminate|].
      intros (f' & Hf & Hl). injection Hf as <-. rewrite Hload in Hl. discriminate.
    - split; [discriminate|].
      intros (f' & y' & sr' & yv & Hf & Hl & Hy & Hv' & Hlen & _).
      injection Hf as <-. rewrite Hload in Hl. injection Hl as <- <-.
      rewrite Hv in Hv'. injection Hv' as <-.
      apply half_second_floor_not in Hlen. congruence.
    - right. right. right. right. left. reflexivity. }
  destruct (size _ <? 2)%Z eqn:Erows.
  - split; [|split].
    + split; [discriminate|].
      intros (f' & Hf & Hl). injection Hf as <-. rewrite Hload in Hl. discriminate.
    + split; [|reflexivity]. intros _.
      exists f, y, sr, y_voiced.
      split; [reflexivity|]. split; [assumption|].
      split; [now apply size_nonzero_iff|]. split; [assumption|].
      split; [now apply half_second_floor_not|now apply Z.ltb_lt].
    + right. right. right. right. right. reflexivity.
  - split; [|split].
    + split; [discriminate|].
      intros (f' & Hf & Hl). injection Hf as <-. rewrite Hload in Hl. discriminate.
    + split; [discriminate|].
      intros (f' & y' & sr' & yv & Hf & Hl & Hy & Hv' & Hlen & Hrows).
      injection Hf as <-. rewrite Hload in Hl. injection Hl as <- <-.
      rewrite Hv in Hv'. injection Hv' as <-.
      apply Z.ltb_lt in Hrows. congruence.
    + left. eexists. reflexivity.
Qed.

(** * Further properties of the storage *)

Lemma dict_get_some_in {V : Type} (d : dict V) (k : string) (v : V) :
  dict_get d k = Some v -> In k (keys d).
Proof.
  induction d as [|[k' v'] d IH]; simpl; [discriminate|].
  destruct (String.eqb k' k) eqn:E.
  - apply String.eqb_eq in E. auto.
  - auto.
Qed.

Lemma dict_get_none_not_in {V : Type} (d : dict V) (k : string) :
  dict_get d k = None -> ~ In k (keys d).
Proof.
  induction d as [|[k' v'] d IH]; simpl; [tauto|].
  destruct (String.eqb k' k) eqn:E; [discriminate|].
  apply String.eqb_neq in E. intros H [H1|H1]; [contradiction|].
  now apply IH.
Qed.

Lemma load_save_users (users : dict user_entry) (st : store) :
  load_users (save_users users st) = users.
Proof. reflexivity. Qed.

(** X10. [create_user] never touches an existing user: for a name that is
    present the store is returned as it is; for a new name an entry without
    samples is added after the others.  Other users, and the voiceprints,
    are as before, and creating the user a second time changes nothing. *)
Theorem create_user_effect (username : string) (st : store) :
  (forall entry,
      dict_get (load_users st) username = Some entry ->
      create_user username st = st) /\
  (dict_get (load_users st) username = None ->
   load_users (create_user username st) =
   load_users st ++ [(username, {| audio_samples := Some [] |})]) /\
  (forall other,
      other <> username ->
      dict_get (load_users (create_user username st)) other =
      dict_get (load_users st) other) /\
  voiceprints_json (create_user username st) = voiceprints_json st /\
  create_user username (create_user username st) = create_user username st.
Proof.
  unfold create_user.
  destruct (dict_get (load_users st) username) as [e|] eqn:Hu.
  - split; [reflexivity|]. split; [discriminate|].
    split; [reflexivity|]. split; [reflexivity|]. now rewrite Hu.
  - split; [discriminate|]. split; [|split; [|split]].
    + intros _. rewrite load_save_users.
      apply dict_set_fresh. now apply dict_get_none_not_in.
    + intros other Hne. rewrite load_save_users.
      apply dict_get_set_other. congruence.
    + reflexivity.
    + now rewrite load_save_users, dict_get_set_same.
Qed.

Lemma create_user_effect_witness :
  dict_get (load_users (enrolled_store "alice" toy_samples None)) "alice" =
    Some {| audio_samples := Some (samples_of toy_samples) |} /\
  create_user "alice" (enrolled_store "alice" toy_samples None) =
    enrolled_store "alice" toy_samples None.
Proof.
  split; [reflexivity|].
  apply (proj1 (create_user_effect "alice"
                  (enrolled_store "alice" toy_samples None))
           {| audio_samples := Some (samples_of toy_samples) |}).
  reflexivity.
Defined.

(** X11. [register_sample] appends: a user with a list of samples gets the
    new sample, with its path and its features, after the ones already
    there; a user that is not in the file is created with the new sample as
    the only one; an entry without a list of samples makes the call fail
    with nothing written.  In each case that succeeds the other users and
    the voiceprints are as before. *)
Theorem register_sample_effect (username audio_path : string) (feats : ndarray)
    (st : store) :
  let sample_entry := {| path := audio_path; features := Some (JArray feats) |} in
  (forall entry l,
      dict_get (load_users st) username = Some entry ->
      audio_samples entry = Some l ->
      exists st',
        register_sample username audio_path feats st = Some st' /\
        dict_get (load_users st') username =
          Some {| audio_samples := Some (l ++ [sample_entry]) |} /\
        keys (load_users st') = keys (load_users st)) /\
  (dict_get (load_users st) username = None ->
   exists st',
     register_sample username audio_path feats st = Some st' /\
     load_users st' =
       load_users st ++ [(username, {| audio_samples := Some [sample_entry] |})]) /\
  (forall entry,
      dict_get (load_users st) username = Some entry ->
      audio_samples entry = None ->
      register_sample username audio_path feats st = None) /\
  (forall st',
      register_sample username audio_path feats st = Some st' ->
      voiceprints_json st' = voiceprints_json st /\
      forall other,
        other <> username ->
        dict_get (load_users st') other = dict_get (load_users st) other).
Proof.
  cbv zeta. unfold register_sample.
  destruct (dict_get (load_users st) username) as [e|] eqn:Hu.
  - rewrite Hu. split; [|split; [|split]].
    + intros entry l Hentry Hl. injection Hentry as <-. rewrite Hl.
      eexists. split; [reflexivity|]. rewrite load_save_users. split.
      * apply dict_get_set_same.
      * apply keys_dict_set_in. eapply dict_get_some_in; eassumption.
    + discriminate.
    + intros entry Hentry Hl. injection Hentry as <-. now rewrite Hl.
    + intros st' H. destruct (audio_samples e) as [l|]; [|discriminate].
      injection H as <-. split; [reflexivity|].
      intros other Hne. rewrite load_save_users.
      apply dict_get_set_other. congruence.
  - rewrite dict_get_set_same. cbn [audio_samples app].
    pose proof (dict_get_none_not_in _ _ Hu) as Hfresh.
    assert (Hset :
      dict_set
        (dict_set (load_users st) username {| audio_samples := Some [] |})
        username
        {| audio_samples :=
             Some [{| path := audio_path; features := Some (tolist feats) |}] |}
      = load_users st ++
        [(username,
          {| audio_samples :=
               Some [{| path := audio_path;
                        features := Some (tolist feats) |}] |})]).
    { rewrite (dict_set_fresh (load_users st)) by assumption.
      clear Hu. induction (load_users st) as [|[k v] d IH]; simpl.
      - now rewrite String.eqb_refl.
      - simpl in Hfresh. destruct (String.eqb k username) eqn:E.
        + apply String.eqb_eq in E. tauto.
        + f_equal. apply IH. tauto. }
    split; [discriminate|]. split; [|split].
    + intros _. eexists. split; [reflexivity|].
      rewrite load_save_users. exact Hset.
    + discriminate.
    + intros st' H. injection H as <-. split; [reflexivity|].
      intros other Hne. rewrite load_save_users.
      rewrite !dict_get_set_other by congruence. reflexivity.
Qed.

Lemma register_sample_effect_witness :
  exists st',
    register_sample "alice" "a.wav" [0; 1]
      (enrolled_store "alice" toy_samples None) = Some st' /\
    dict_get (load_users st') "alice" =
      Some {| audio_samples :=
                Some (samples_of toy_samples ++
                      [{| path := "a.wav"; features := Some (JArray [0; 1]) |}]) |}.
Proof.
  destruct (proj1 (register_sample_effect "alice" "a.wav" [0; 1]
                     (enrolled_store "alice" toy_samples None))
              {| audio_samples := Some (samples_of toy_samples) |}
              (samples_of toy_samples) eq_refl eq_refl)
    as (st' & Hreg & Hget & _).
  exists st'. split; assumption.
Defined.

Lemma register_sample_known (username audio_path : string) (feats : ndarray)
    (st : store) (entry : user_entry) (l : list sample) :
  dict_get (load_users st) username = Some entry ->
  audio_samples entry = Some l ->
  register_sample username audio_path feats st =
  Some (save_users
          (dict_set (load_users st) username
             {| audio_samples :=
                  Some (l ++ [{| path := audio_path;
                                 features := Some (tolist feats) |}]) |})
          st).
Proof.
  intros Hu Hl. unfold register_sample. now rewrite Hu, Hu, Hl.
Qed.

Lemma np_stack_mismatch (d : nat) (vs : list ndarray) (v : ndarray) :
  vs <> [] -> Forall (fun a => shape a = d) vs -> shape v <> d ->
  np_stack (vs ++ [v]) =
  Raise (ValueError "all input arrays must have the same shape").
Proof.
  intros Hne Hall Hv. destruct vs as [|a rest]; [contradiction|].
  inversion Hall as [|? ? Ha Hrest]; subst. simpl.
  replace (forallb _ (rest ++ [v])) with false; [reflexivity|].
  symmetry. rewrite forallb_app. simpl.
  apply Nat.eqb_neq in Hv. rewrite Hv. now rewrite andb_false_r.
Qed.

(** X12. Enrolment composes: after [register_sample] has added a feature
    vector to a user whose samples hold vectors of the same dimension,
    [recompute_voiceprint] stores the arithmetic mean of the old vectors
    and the new one, and leaves the users file as [register_sample] wrote
    it. *)
Theorem register_then_recompute (username audio_path : string) (feats : ndarray)
    (st : store) (entry : user_entry) (samples : list sample)
    (vs : list ndarray) (d : nat) :
  dict_get (load_users st) username = Some entry ->
  audio_samples entry = Some samples ->
  map features samples = map (fun v => Some (tolist v)) vs ->
  Forall (fun v => shape v = d) vs ->
  shape feats = d ->
  exists st1 st2,
    register_sample username audio_path feats st = Some st1 /\
    recompute_voiceprint username st1 = Ok st2 /\
    dict_get (load_voiceprints st2) username =
      Some (arithmetic_mean (vs ++ [feats]) d) /\
    users_json st2 = users_json st1.
Proof.
  intros Hu Hl Hs Hall Hf.
  eexists. eexists. split; [now apply (register_sample_known _ _ _ _ entry samples)|].
  set (entry' := {| audio_samples := Some (samples ++ _) |}).
  set (st1 := save_users _ st).
  assert (Hrun : recompute_voiceprint username st1 =
    Ok (save_voiceprints
          (dict_set (load_voiceprints st1) username
             (arithmetic_mean (vs ++ [feats]) d)) st1)).
  { apply (recompute_voiceprint_run username st1 entry' (vs ++ [feats]) d).
    - subst st1. rewrite load_save_users. apply dict_get_set_same.
    - subst entry'. unfold get_audio_samples. simpl.
      rewrite !map_app, Hs. reflexivity.
    - destruct vs; discriminate.
    - apply Forall_app. split; [assumption|]. now constructor. }
  split; [exact Hrun|]. split; [|reflexivity].
  rewrite load_save_voiceprints
    by apply keys_dict_set_NoDup, load_voiceprints_NoDup.
  apply dict_get_set_same.
Qed.

Lemma register_then_recompute_witness :
  exists st1 st2,
    register_sample "alice" "a.wav" [0; 1]
      (enrolled_store "alice" toy_samples None) = Some st1 /\
    recompute_voiceprint "alice" st1 = Ok st2 /\
    dict_get (load_voiceprints st2) "alice" =
      Some (arithmetic_mean (toy_samples ++ [[0; 1]]) 2).
Proof.
  destruct (register_then_recompute "alice" "a.wav" [0; 1]
              (enrolled_store "alice" toy_samples None)
              {| audio_samples := Some (samples_of toy_samples) |}
              (samples_of toy_samples) toy_samples 2)
    as (st1 & st2 & H1 & H2 & H3 & _).
  - reflexivity.
  - reflexivity.
  - reflexivity.
  - repeat constructor.
  - reflexivity.
  - exists st1, st2. repeat split; assumption.
Defined.

(** X14. The voiceprints file round-trips: what [save_voiceprints] writes
    for a mapping with distinct users is what [load_voiceprints] reads
    back, in the same order; [load_voiceprints] never returns a user twice;
    so saving what was loaded and loading again gives the same mapping. *)
Theorem voiceprints_round_trip (st : store) :
  (forall voiceprints : dict ndarray,
      NoDup (keys voiceprints) ->
      load_voiceprints (save_voiceprints voiceprints st) = voiceprints) /\
  NoDup (keys (load_voiceprints st)) /\
  load_voiceprints (save_voiceprints (load_voiceprints st) st) =
  load_voiceprints st /\
  users_json (save_voiceprints (load_voiceprints st) st) = users_json st.
Proof.
  split; [|split; [|split]].
  - intros voiceprints Hnd. now apply load_save_voiceprints.
  - apply load_voiceprints_NoDup.
  - apply load_save_voiceprints, load_voiceprints_NoDup.
  - reflexivity.
Qed.

Lemma voiceprints_round_trip_witness :
  NoDup (keys example_voiceprints) /\
  load_voiceprints
    (save_voiceprints example_voiceprints
       (enrolled_store "alice" toy_samples None)) = example_voiceprints.
Proof.
  assert (H : NoDup (keys example_voiceprints)).
  { unfold example_voiceprints. simpl.
    repeat constructor; simpl; intuition discriminate. }
  split; [exact H|].
  exact (proj1 (voiceprints_round_trip (enrolled_store "alice" toy_samples None))
           example_voiceprints H).
Defined.

(** X15. [load_voiceprints] passes over what it cannot convert and keeps the
    rest: for a file with distinct users, a user whose entry is a list of
    numbers is loaded with that array, and a user whose entry makes the
    conversion raise, or who is not in the file, is absent from the
    result. *)
Theorem load_voiceprints_keeps_convertible (st : store) (username : string) :
  NoDup (keys (_read_json (voiceprints_json st) [])) ->
  (forall l,
      dict_get (_read_json (voiceprints_json st) []) username = Some (JArray l) ->
      dict_get (load_voiceprints st) username = Some l) /\
  (dict_get (_read_json (voiceprints_json st) []) username = Some JOther ->
   dict_get (load_voiceprints st) username = None) /\
  (dict_get (_read_json (voiceprints_json st) []) username = None ->
   dict_get (load_voiceprints st) username = None).
Proof.
  intros Hnd.
  pose proof (load_step_get (_read_json (voiceprints_json st) []) [] username)
    as Hget.
  simpl in Hget. specialize (Hget Hnd).
  rewrite load_voiceprints_fold, Hget.
  destruct (dict_get (_read_json (voiceprints_json st) []) username)
    as [[l'|]|]; repeat split; intros; try discriminate; try reflexivity;
    match goal with H : Some _ = Some _ |- _ => now inversion H end.
Qed.

Lemma load_voiceprints_keeps_convertible_witness :
  NoDup (keys (_read_json (voiceprints_json drifted_store) [])) /\
  dict_get (load_voiceprints drifted_store) "old" = None /\
  dict_get (load_voiceprints drifted_store) "bob" = Some [0; 1].
Proof.
  assert (H : NoDup (keys (_read_json (voiceprints_json drifted_store) []))).
  { simpl. repeat constructor; simpl; intuition discriminate. }
  split; [exact H|]. split.
  - apply (proj1 (proj2 (load_voiceprints_keeps_convertible drifted_store
                           "old"%string H))).
    reflexivity.
  - apply (proj1 (load_voiceprints_keeps_convertible drifted_store
                    "bob"%string H)).
    reflexivity.
Defined.

(** * Further properties of the request handlers *)

Lemma normalised_distance (q vp : ndarray) :
  _cosine_distance (sample_normed q) (vp_normed vp) = _cosine_distance q vp.
Proof.
  change (sample_normed q) with (l2_normalize q).
  change (vp_normed vp) with (l2_normalize vp).
  destruct (l2_normalize_as_scale q) as (s & Hs & ->).
  destruct (l2_normalize_as_scale vp) as (t & Ht & ->).
  now apply cosine_distance_np_scale.
Qed.

(** The answer of [predict_speaker] when some voiceprint has the query's
    shape, in terms of the cosine distance of the arrays as given. *)
Lemma predict_speaker_min (voiceprints : dict ndarray) (q : ndarray) :
  Exists (same_shape q) voiceprints ->
  exists u vp,
    In (u, vp) voiceprints /\ shape vp = shape q /\
    predict_speaker voiceprints q = (Some u, Some (_cosine_distance q vp)) /\
    forall u' vp',
      In (u', vp') voiceprints -> shape vp' = shape q ->
      _cosine_distance q vp <= _cosine_distance q vp'.
Proof.
  intros Hex. unfold same_shape in Hex.
  assert (Hex' : Exists (fun it => shape (snd it) = shape (sample_normed q))
                   voiceprints).
  { eapply Exists_impl; [|exact Hex]. simpl. intros it Hs.
    now rewrite shape_sample_normed. }
  destruct (loop_best _ _ Hex') as (pre & u & vp & post & Hl & Hf & Hr & Hpre & Hpost).
  simpl in Hf. rewrite shape_sample_normed in Hf.
  exists u, vp. split; [subst; apply in_or_app; right; now left|].
  split; [assumption|]. split.
  - rewrite predict_speaker_as_loop, Hr. now rewrite normalised_distance.
  - intros u' vp' Hin Hs.
    rewrite <- (normalised_distance q vp), <- (normalised_distance q vp').
    subst voiceprints.
    apply in_app_or in Hin. destruct Hin as [Hin|[Hin|Hin]].
    + rewrite Forall_forall in Hpre. specialize (Hpre _ Hin). simpl in Hpre.
      rewrite shape_sample_normed in Hpre. specialize (Hpre Hs). lra.
    + injection Hin as <- <-. lra.
    + rewrite Forall_forall in Hpost. specialize (Hpost _ Hin). simpl in Hpost.
      rewrite shape_sample_normed in Hpost. now apply Hpost.
Qed.

(** The same in terms of the distance the matcher computes. *)
Lemma predict_speaker_min_matcher (voiceprints : dict ndarray) (q : ndarray) :
  Exists (same_shape q) voiceprints ->
  exists u vp,
    In (u, vp) voiceprints /\ shape vp = shape q /\
    predict_speaker voiceprints q = (Some u, Some (matcher_distance q vp)) /\
    forall u' vp',
      In (u', vp') voiceprints -> shape vp' = shape q ->
      matcher_distance q vp <= matcher_distance q vp'.
Proof.
  intros Hex. unfold same_shape in Hex. unfold matcher_distance.
  assert (Hex' : Exists (fun it => shape (snd it) = shape (sample_normed q))
                   voiceprints).
  { eapply Exists_impl; [|exact Hex]. simpl. intros it Hs.
    now rewrite shape_sample_normed. }
  destruct (loop_best _ _ Hex') as (pre & u & vp & post & Hl & Hf & Hr & Hpre & Hpost).
  simpl in Hf. rewrite shape_sample_normed in Hf.
  exists u, vp. split; [subst; apply in_or_app; right; now left|].
  split; [assumption|]. split.
  - now rewrite predict_speaker_as_loop, Hr.
  - intros u' vp' Hin Hs. subst voiceprints.
    apply in_app_or in Hin. destruct Hin as [Hin|[Hin|Hin]].
    + rewrite Forall_forall in Hpre. specialize (Hpre _ Hin). simpl in Hpre.
      rewrite shape_sample_normed in Hpre. specialize (Hpre Hs). lra.
    + injection Hin as <- <-. lra.
    + rewrite Forall_forall in Hpost. specialize (Hpost _ Hin). simpl in Hpost.
      rewrite shape_sample_normed in Hpost. now apply Hpost.
Qed.

Lemma predict_speaker_none (voiceprints : dict ndarray) (q : ndarray) :
  Forall (fun it => ~ same_shape q it) voiceprints ->
  predict_speaker voiceprints q = (None, None).
Proof.
  intros H. rewrite predict_speaker_as_loop, loop_all_skipped; [reflexivity|].
  eapply Forall_impl; [|exact H]. unfold same_shape. simpl. intros it Hn.
  now rewrite shape_sample_normed.
Qed.

Lemma same_shape_all_or_some (voiceprints : dict ndarray) (q : ndarray) :
  Forall (fun it => ~ same_shape q it) voiceprints \/
  Exists (same_shape q) voiceprints.
Proof. apply fits_all_or_some. Qed.

Section Handlers.
Context {L : Librosa} {D : Deployment}.

(** The paths through [api_audio_authenticate]. *)
Lemma api_audio_authenticate_cases (audio_file : option upload)
    (stamp timestamp_str : string) (fs : filesystem) (sv : server) :
  api_audio_authenticate audio_file stamp timestamp_str fs sv =
    (AuthMissingAudio, fs, sv) \/
  api_audio_authenticate audio_file stamp timestamp_str fs sv =
    (AuthUnhandled, fs, sv) \/
  (exists u fs1 e,
      audio_file = Some u /\
      file_save fs (auth_filepath stamp) (stream u) = Some fs1 /\
      extract_features fs1 (auth_filepath stamp) = Raise e /\
      api_audio_authenticate audio_file stamp timestamp_str fs sv =
        (AuthExtractionFailed e, fs1, sv)) \/
  (exists u fs1 feats,
      audio_file = Some u /\
      file_save fs (auth_filepath stamp) (stream u) = Some fs1 /\
      extract_features fs1 (auth_filepath stamp) = Ok feats /\
      load_voiceprints (files sv) = [] /\
      api_audio_authenticate audio_file stamp timestamp_str fs sv =
        (AuthNoEnrolledUsers, fs1, sv)) \/
  (exists u fs1 feats best_user distance,
      audio_file = Some u /\
      file_save fs (auth_filepath stamp) (stream u) = Some fs1 /\
      extract_features fs1 (auth_filepath stamp) = Ok feats /\
      load_voiceprints (files sv) <> [] /\
      predict_speaker (load_voiceprints (files sv)) feats =
        (best_user, distance) /\
      let success :=
        match distance with
        | Some d => Rltb d config.DISTANCE_THRESHOLD
        | None => false
        end in
      api_audio_authenticate audio_file stamp timestamp_str fs sv =
        (AuthDone success best_user distance, fs1,
         auth_recorded stamp timestamp_str success best_user distance sv)).
Proof.
  unfold api_audio_authenticate. fold (auth_filepath stamp).
  destruct audio_file as [u|]; [|now left].
  destruct (no_upload (Some u)); [now left|].
  destruct (file_save fs (auth_filepath stamp) (stream u)) as [fs1|] eqn:Hsave;
    [|right; now left].
  destruct (extract_features fs1 (auth_filepath stamp)) as [feats|e] eqn:Hex.
  2:{ right. right. left. exists u, fs1, e.
      split; [reflexivity|]. split; [assumption|]. split; [assumption|].
      reflexivity. }
  destruct (load_voiceprints (files sv)) as [|it l] eqn:Hvp.
  { right. right. right. left. exists u, fs1, feats.
    split; [reflexivity|]. split; [assumption|]. split; [assumption|].
    split; reflexivity. }
  right. right. right. right.
  destruct (predict_speaker (it :: l) feats) as [best_user distance] eqn:Hp.
  exists u, fs1, feats, best_user, distance.
  split; [reflexivity|]. split; [assumption|]. split; [assumption|].
  split; [discriminate|]. split; [exact Hp|]. reflexivity.
Qed.

(** X16. [api_audio_authenticate] never writes the users, the voiceprints
    or the secrets.  A response other than 200 leaves every JSON file as it
    was: a request without audio, a recording that cannot be stored or
    analysed, and a server without voiceprints are not logged.  A response
    of 200 adds one entry at the end of the log, with the path of the
    recording and the fields of the response, and replaces the last result
    by one with the same fields, whose user is filled in only on
    success. *)
Theorem api_audio_authenticate_effect (audio_file : option upload)
    (stamp timestamp_str : string) (fs : filesystem) (sv : server)
    (r : auth_response) (fs' : filesystem) (sv' : server) :
  api_audio_authenticate audio_file stamp timestamp_str fs sv = (r, fs', sv') ->
  files sv' = files sv /\
  secrets_json sv' = secrets_json sv /\
  (auth_status r <> 200%Z -> sv' = sv) /\
  (auth_status r = 200%Z ->
   exists success best_user distance,
     r = AuthDone success best_user distance /\
     load_attempts sv' =
       load_attempts sv ++
       [{| attempt_timestamp := timestamp_str;
           attempt_recognized_user := best_user;
           attempt_distance := distance;
           attempt_success := success;
           attempt_audio_path := auth_filepath stamp |}] /\
     load_last_auth_result sv' =
       Some {| result_timestamp := timestamp_str;
               result_success := success;
               result_user := if success then best_user else None;
               result_distance := distance;
               result_raw_best_user := best_user |}).
Proof.
  intros Hrun.
  destruct (api_audio_authenticate_cases audio_file stamp timestamp_str fs sv)
    as [H|[H|[(u & fs1 & e & _ & _ & _ & H)|[(u & fs1 & feats & _ & _ & _ & _ & H)
       |(u & fs1 & feats & bu & d & _ & _ & _ & _ & _ & H)]]]];
    cbv zeta in H; rewrite H in Hrun; injection Hrun as <- <- <-;
    try (split; [reflexivity|]; split; [reflexivity|]; split;
         [reflexivity|simpl; discriminate]).
  split; [reflexivity|]. split; [reflexivity|]. split.
  - simpl. intros Hne. now contradiction Hne.
  - intros _. do 3 eexists. split; [reflexivity|]. split; reflexivity.
Qed.

(** X17. The decision of [api_audio_authenticate].  A response of 200
    carries the answer of [predict_speaker] for the features of the stored
    recording, and it reports success exactly when the distance is under
    [DISTANCE_THRESHOLD], that is, exactly when the distance the matcher
    computes between the features and some enrolled voiceprint of their
    dimension is under the threshold; a success names an enrolled user. *)
Theorem api_audio_authenticate_decision (audio_file : option upload)
    (stamp timestamp_str : string) (fs : filesystem) (sv : server)
    (success : bool) (best_user : option string) (distance : option R)
    (fs' : filesystem) (sv' : server) :
  api_audio_authenticate audio_file stamp timestamp_str fs sv =
    (AuthDone success best_user distance, fs', sv') ->
  exists feats,
    extract_features fs' (auth_filepath stamp) = Ok feats /\
    predict_speaker (load_voiceprints (files sv)) feats = (best_user, distance) /\
    (success = true <->
     exists d, distance = Some d /\ d < config.DISTANCE_THRESHOLD) /\
    (success = true <->
     exists u vp,
       In (u, vp) (load_voiceprints (files sv)) /\
       shape vp = shape feats /\
       matcher_distance feats vp < config.DISTANCE_THRESHOLD) /\
    (success = true ->
     exists u, best_user = Some u /\ In u (keys (load_voiceprints (files sv)))).
Proof.
  intros Hrun.
  destruct (api_audio_authenticate_cases audio_file stamp timestamp_str fs sv)
    as [H|[H|[(u & fs1 & e & _ & _ & _ & H)|[(u & fs1 & feats & _ & _ & _ & _ & H)
       |(u & fs1 & feats & bu & d & _ & _ & Hex & _ & Hp & H)]]]];
    cbv zeta in H; rewrite H in Hrun; try discriminate.
  injection Hrun as <- <- <- <- <-.
  exists feats. split; [assumption|]. split; [assumption|].
  set (vps := load_voiceprints (files sv)) in *.
  destruct (same_shape_all_or_some vps feats) as [Hall|Hsome].
  - rewrite (predict_speaker_none _ _ Hall) in Hp. injection Hp as <- <-.
    split; [|split].
    + split; [discriminate|]. intros (d & Hd & _). discriminate.
    + split; [discriminate|]. intros (u' & vp & Hin & Hs & _).
      rewrite Forall_forall in Hall. exfalso. now apply (Hall _ Hin).
    + discriminate.
  - destruct (predict_speaker_min_matcher _ _ Hsome)
      as (w & vp & Hin & Hs & Hr & Hmin).
    rewrite Hr in Hp. injection Hp as <- <-.
    split; [|split].
    + rewrite Rltb_true. split.
      * intros Hlt. eexists. split; [reflexivity|assumption].
      * intros (d & Hd & Hlt). now injection Hd as <-.
    + rewrite Rltb_true. split.
      * intros Hlt. exists w, vp. repeat split; assumption.
      * intros (u' & vp' & Hin' & Hs' & Hlt).
        specialize (Hmin u' vp' Hin' Hs'). lra.
    + intros _. exists w. split; [reflexivity|].
      unfold keys. apply in_map_iff. exists (w, vp). split; [reflexivity|assumption].
Qed.

Lemma collect_features_app (l1 l2 : list sample) :
  collect_features (l1 ++ l2) = collect_features l1 ++ collect_features l2.
Proof.
  induction l1 as [|s l1 IH]; simpl; [reflexivity|].
  destruct (features s) as [[a|]|]; simpl; now rewrite ?IH.
Qed.

Lemma np_stack_ok (arrays stacked : list ndarray) :
  np_stack arrays = Ok stacked -> stacked = arrays.
Proof.
  unfold np_stack. destruct arrays as [|a rest]; [discriminate|].
  destruct (forallb _ rest); [|discriminate]. now intros [= <-].
Qed.

Lemma np_stack_raises (arrays : list ndarray) (e : exn) :
  arrays <> [] -> np_stack arrays = Raise e ->
  e = ValueError "all input arrays must have the same shape".
Proof.
  unfold np_stack. destruct arrays as [|a rest]; [contradiction|].
  destruct (forallb _ rest); [discriminate|]. now intros _ [= <-].
Qed.

(** [recompute_voiceprint] for a user with usable features. *)
Lemma recompute_voiceprint_stack (username : string) (st : store)
    (entry : user_entry) :
  dict_get (load_users st) username = Some entry ->
  collect_features (get_audio_samples entry) <> [] ->
  recompute_voiceprint username st =
  match np_stack (collect_features (get_audio_samples entry)) with
  | Ok stacked =>
      Ok (save_voiceprints
            (dict_set (load_voiceprints st) username (np_mean_axis0 stacked)) st)
  | Raise e => Raise e
  end.
Proof.
  intros Hu Hne. unfold recompute_voiceprint. rewrite Hu.
  destruct (get_audio_samples entry) as [|s l] eqn:Es; [contradiction|].
  destruct (collect_features (s :: l)) as [|a rest] eqn:Ec; [contradiction|].
  reflexivity.
Qed.

(** What [recompute_voiceprint] leaves alone, whatever it does. *)
Lemma recompute_voiceprint_others (username : string) (st st' : store) :
  recompute_voiceprint username st = Ok st' ->
  users_json st' = users_json st /\
  forall other,
    other <> username ->
    dict_get (load_voiceprints st') other = dict_get (load_voiceprints st) other.
Proof.
  intros Hrun.
  destruct (recompute_voiceprint_cases username st)
    as [H|[[e H]|(entry & fl & _ & _ & _ & _ & H)]];
    rewrite H in Hrun; try discriminate; injection Hrun as <-.
  { split; auto. }
  split; [reflexivity|]. intros other Hne.
  rewrite load_save_voiceprints
    by apply keys_dict_set_NoDup, load_voiceprints_NoDup.
  apply dict_get_set_other. congruence.
Qed.

(** The paths through [api_audio_enroll]. *)
Lemma api_audio_enroll_cases (audio_file : option upload)
    (form_username form_sample_idx : option string) (stamp : string)
    (fs : filesystem) (st : store) :
  let username := strip (get_or form_username "") in
  let filepath := enroll_filepath username form_sample_idx stamp in
  api_audio_enroll audio_file form_username form_sample_idx stamp fs st =
    (EnrollMissing, fs, st) \/
  api_audio_enroll audio_file form_username form_sample_idx stamp fs st =
    (EnrollUnknownUser username, fs, st) \/
  api_audio_enroll audio_file form_username form_sample_idx stamp fs st =
    (EnrollSaveFailed, fs, st) \/
  (exists fs1 e,
      extract_features fs1 filepath = Raise e /\
      api_audio_enroll audio_file form_username form_sample_idx stamp fs st =
        (EnrollExtractionFailed e, fs1, st)) \/
  (exists fs1,
      api_audio_enroll audio_file form_username form_sample_idx stamp fs st =
        (EnrollRegisterFailed, fs1, st)) \/
  (exists u entry fs1 feats st1,
      audio_file = Some u /\
      dict_get (load_users st) username = Some entry /\
      file_save fs filepath (stream u) = Some fs1 /\
      extract_features fs1 filepath = Ok feats /\
      register_sample username filepath feats st = Some st1 /\
      ((exists e,
          recompute_voiceprint username st1 = Raise e /\
          api_audio_enroll audio_file form_username form_sample_idx stamp fs st =
            (EnrollRecomputeFailed e, fs1, st1)) \/
       (exists st2,
          recompute_voiceprint username st1 = Ok st2 /\
          api_audio_enroll audio_file form_username form_sample_idx stamp fs st =
            (EnrollOk, fs1, st2)))).
Proof.
  cbv zeta. unfold api_audio_enroll.
  set (username := strip (get_or form_username "")).
  fold (enroll_filepath username form_sample_idx stamp).
  set (filepath := enroll_filepath username form_sample_idx stamp).
  destruct audio_file as [u|]; [|now left].
  destruct (no_upload (Some u) || String.eqb username "")%bool; [now left|].
  destruct (dict_get (load_users st) username) as [entry|] eqn:Hu;
    [|right; now left].
  destruct (file_save fs filepath (stream u)) as [fs1|] eqn:Hsave;
    [|right; right; now left].
  destruct (extract_features fs1 filepath) as [feats|e] eqn:Hex.
  2:{ right. right. right. left. exists fs1, e. split; [assumption|reflexivity]. }
  destruct (register_sample username filepath feats st) as [st1|] eqn:Hreg.
  2:{ right. right. right. right. left. exists fs1. reflexivity. }
  right. right. right. right. right.
  exists u, entry, fs1, feats, st1.
  split; [reflexivity|]. split; [reflexivity|]. split; [assumption|].
  split; [assumption|]. split; [assumption|].
  destruct (recompute_voiceprint username st1) as [st2|e] eqn:Hrec.
  - right. exists st2. split; reflexivity.
  - left. exists e. split; reflexivity.
Qed.

Lemma register_sample_inv (username audio_path : string) (feats : ndarray)
    (st st1 : store) (entry : user_entry) :
  dict_get (load_users st) username = Some entry ->
  register_sample username audio_path feats st = Some st1 ->
  exists l,
    audio_samples entry = Some l /\
    st1 = save_users
            (dict_set (load_users st) username
               {| audio_samples :=
                    Some (l ++ [enrolled_sample audio_path feats]) |})
            st.
Proof.
  intros Hu Hreg. destruct (audio_samples entry) as [l|] eqn:Hl.
  - exists l. split; [reflexivity|].
    rewrite (register_sample_known _ _ _ _ entry l Hu Hl) in Hreg.
    now injection Hreg as <-.
  - unfold register_sample in Hreg. rewrite Hu, Hu, Hl in Hreg. discriminate.
Qed.

(** X18. What [api_audio_enroll] leaves behind.  Unless the response is 200
    or the failure is that of recomputing the voiceprint, the users and the
    voiceprints are as before: a request without audio or name, an unknown
    user, and a recording that cannot be stored or analysed register
    nothing.  No response but 200 changes the voiceprints file.  Whatever
    the response, no user is added or removed, and the samples and the
    voiceprint of every other user are as before. *)
Theorem api_audio_enroll_effect (audio_file : option upload)
    (form_username form_sample_idx : option string) (stamp : string)
    (fs : filesystem) (st : store)
    (r : enroll_response) (fs' : filesystem) (st' : store) :
  api_audio_enroll audio_file form_username form_sample_idx stamp fs st =
    (r, fs', st') ->
  match r with
  | EnrollOk | EnrollRecomputeFailed _ => True
  | _ => st' = st
  end /\
  (r <> EnrollOk -> voiceprints_json st' = voiceprints_json st) /\
  keys (load_users st') = keys (load_users st) /\
  forall other,
    other <> strip (get_or form_username "") ->
    dict_get (load_users st') other = dict_get (load_users st) other /\
    dict_get (load_voiceprints st') other = dict_get (load_voiceprints st) other.
Proof.
  intros Hrun.
  destruct (api_audio_enroll_cases audio_file form_username form_sample_idx
              stamp fs st)
    as [H|[H|[H|[(fs1 & e & _ & H)|[(fs1 & H)
       |(u & entry & fs1 & feats & st1 & _ & Hu & _ & _ & Hreg & Hrec)]]]]];
    cbv zeta in *;
    try (rewrite H in Hrun; injection Hrun as <- <- <-;
         repeat split; reflexivity).
  destruct (register_sample_inv _ _ _ _ _ _ Hu Hreg) as (l & Hl & Hst1).
  assert (Hkeys : keys (load_users st1) = keys (load_users st)).
  { subst st1. rewrite load_save_users. apply keys_dict_set_in.
    eapply dict_get_some_in; eassumption. }
  assert (Hothers : forall other,
             other <> strip (get_or form_username "") ->
             dict_get (load_users st1) other = dict_get (load_users st) other).
  { intros other Hne. subst st1. rewrite load_save_users.
    apply dict_get_set_other. congruence. }
  assert (Hvp : voiceprints_json st1 = voiceprints_json st) by now subst st1.
  destruct Hrec as [(e & Hrec & H)|(st2 & Hrec & H)];
    rewrite H in Hrun; injection Hrun as <- <- <-.
  - split; [exact I|]. split; [intros _; assumption|]. split; [assumption|].
    intros other Hne. split; [now apply Hothers|].
    now rewrite (load_voiceprints_same_file st1 st Hvp).
  - destruct (recompute_voiceprint_others _ _ _ Hrec) as [Husers Hframe].
    assert (Hload : load_users st2 = load_users st1)
      by (unfold load_users; now rewrite Husers).
    split; [exact I|]. split; [intros Hne; now contradiction Hne|].
    split; [now rewrite Hload|].
    intros other Hne. split.
    + rewrite Hload. now apply Hothers.
    + rewrite (Hframe other Hne).
      now rewrite (load_voiceprints_same_file st1 st Hvp).
Qed.

(** X19. A response of 200 from [api_audio_enroll] means the recording was
    analysed and registered: the user's samples are the ones from before
    followed by one with the path of the recording and its features, and the
    user's voiceprint is the mean, along the samples, of the usable features
    including the new ones. *)
Theorem api_audio_enroll_success (audio_file : option upload)
    (form_username form_sample_idx : option string) (stamp : string)
    (fs fs' : filesystem) (st st' : store) :
  let username := strip (get_or form_username "") in
  let filepath := enroll_filepath username form_sample_idx stamp in
  api_audio_enroll audio_file form_username form_sample_idx stamp fs st =
    (EnrollOk, fs', st') ->
  exists entry l feats,
    dict_get (load_users st) username = Some entry /\
    audio_samples entry = Some l /\
    extract_features fs' filepath = Ok feats /\
    dict_get (load_users st') username =
      Some {| audio_samples := Some (l ++ [enrolled_sample filepath feats]) |} /\
    dict_get (load_voiceprints st') username =
      Some (np_mean_axis0 (collect_features l ++ [feats])).
Proof.
  cbv zeta. intros Hrun.
  destruct (api_audio_enroll_cases audio_file form_username form_sample_idx
              stamp fs st)
    as [H|[H|[H|[(fs1 & e & _ & H)|[(fs1 & H)
       |(u & entry & fs1 & feats & st1 & _ & Hu & _ & Hex & Hreg & Hrec)]]]]];
    cbv zeta in *; try (rewrite H in Hrun; discriminate).
  destruct Hrec as [(e & Hrec & H)|(st2 & Hrec & H)];
    rewrite H in Hrun; [discriminate|]. injection Hrun as <- <-.
  destruct (register_sample_inv _ _ _ _ _ _ Hu Hreg) as (l & Hl & Hst1).
  set (username := strip (get_or form_username "")) in *.
  set (filepath := enroll_filepath username form_sample_idx stamp) in *.
  set (entry1 := {| audio_samples :=
                      Some (l ++ [enrolled_sample filepath feats]) |}) in *.
  assert (Hu1 : dict_get (load_users st1) username = Some entry1).
  { subst st1. rewrite load_save_users. apply dict_get_set_same. }
  assert (Hc : collect_features (get_audio_samples entry1) =
               collect_features l ++ [feats]).
  { subst entry1. unfold get_audio_samples. simpl.
    now rewrite collect_features_app. }
  assert (Hne : collect_features (get_audio_samples entry1) <> []).
  { rewrite Hc. destruct (collect_features l); discriminate. }
  rewrite (recompute_voiceprint_stack username st1 entry1 Hu1 Hne) in Hrec.
  destruct (np_stack _) as [stacked|e] eqn:Hst; [|discriminate].
  apply np_stack_ok in Hst. subst stacked. injection Hrec as <-.
  exists entry, l, feats.
  split; [assumption|]. split; [assumption|]. split; [assumption|]. split.
  - exact Hu1.
  - rewrite load_save_voiceprints
      by apply keys_dict_set_NoDup, load_voiceprints_NoDup.
    rewrite dict_get_set_same. now rewrite Hc.
Qed.

(** X20. Enrolment is not undone when the voiceprint cannot be recomputed:
    with that failure the response is 500, yet the new sample is in the
    users file, after the ones from before; the voiceprints file is as it
    was, and the error is that of stacking arrays of different shapes. *)
Theorem api_audio_enroll_recompute_failure (audio_file : option upload)
    (form_username form_sample_idx : option string) (stamp : string)
    (fs fs' : filesystem) (st st' : store) (e : exn) :
  let username := strip (get_or form_username "") in
  let filepath := enroll_filepath username form_sample_idx stamp in
  api_audio_enroll audio_file form_username form_sample_idx stamp fs st =
    (EnrollRecomputeFailed e, fs', st') ->
  e = ValueError "all input arrays must have the same shape" /\
  voiceprints_json st' = voiceprints_json st /\
  exists entry l feats,
    dict_get (load_users st) username = Some entry /\
    audio_samples entry = Some l /\
    extract_features fs' filepath = Ok feats /\
    dict_get (load_users st') username =
      Some {| audio_samples := Some (l ++ [enrolled_sample filepath feats]) |} /\
    exists a, In a (collect_features l) /\ shape a <> shape feats.
Proof.
  cbv zeta. intros Hrun.
  destruct (api_audio_enroll_cases audio_file form_username form_sample_idx
              stamp fs st)
    as [H|[H|[H|[(fs1 & e' & _ & H)|[(fs1 & H)
       |(u & entry & fs1 & feats & st1 & _ & Hu & _ & Hex & Hreg & Hrec)]]]]];
    cbv zeta in *; try (rewrite H in Hrun; discriminate).
  destruct Hrec as [(e' & Hrec & H)|(st2 & Hrec & H)];
    rewrite H in Hrun; [|discriminate]. injection Hrun as <- <- <-.
  destruct (register_sample_inv _ _ _ _ _ _ Hu Hreg) as (l & Hl & Hst1).
  set (username := strip (get_or form_username "")) in *.
  set (filepath := enroll_filepath username form_sample_idx stamp) in *.
  set (entry1 := {| audio_samples :=
                      Some (l ++ [enrolled_sample filepath feats]) |}) in *.
  assert (Hu1 : dict_get (load_users st1) username = Some entry1).
  { subst st1. rewrite load_save_users. apply dict_get_set_same. }
  assert (Hc : collect_features (get_audio_samples entry1) =
               collect_features l ++ [feats]).
  { subst entry1. unfold get_audio_samples. simpl.
    now rewrite collect_features_app. }
  assert (Hne : collect_features (get_audio_samples entry1) <> []).
  { rewrite Hc. destruct (collect_features l); discriminate. }
  rewrite (recompute_voiceprint_stack username st1 entry1 Hu1 Hne) in Hrec.
  destruct (np_stack _) as [stacked|e0] eqn:Hst; [discriminate|].
  injection Hrec as <-.
  split; [now apply (np_stack_raises _ _ Hne Hst)|].
  split; [now subst st1|].
  exists entry, l, feats.
  split; [assumption|]. split; [assumption|]. split; [assumption|].
  split; [exact Hu1|].
  rewrite Hc in Hst. unfold np_stack in Hst.
  destruct (collect_features l) as [|a rest] eqn:El.
  { simpl in Hst. discriminate. }
  simpl in Hst.
  destruct (forallb _ (rest ++ [feats])) eqn:Hall; [discriminate|].
  rewrite forallb_app in Hall. simpl in Hall. rewrite andb_true_r in Hall.
  apply andb_false_iff in Hall. destruct Hall as [Hall|Hall].
  - assert (Hex' : exists b, In b rest /\ shape b <> shape a).
    { clear -Hall. induction rest as [|b rest IH]; [discriminate|].
      simpl in Hall. apply andb_false_iff in Hall. destruct Hall as [Hb|Hr].
      - exists b. split; [now left|]. now apply Nat.eqb_neq.
      - destruct (IH Hr) as (c & Hc & Hs). exists c. split; [now right|assumption]. }
    destruct Hex' as (b & Hb & Hs).
    destruct (Nat.eq_dec (shape a) (shape feats)) as [Heq|Hneq].
    + exists b. split; [now right|]. congruence.
    + exists a. split; [now left|assumption].
  - apply Nat.eqb_neq in Hall. exists a. split; [now left|]. congruence.
Qed.
End Handlers.

(** ** The dashboard *)

(** The action of a POST to the dashboard, path by path. *)
Lemma dashboard_action_cases (session_is_admin : bool) (req : dashboard_request)
    (sv : server) (session' is_admin : bool) (enroll_username : option string)
    (flashes : list (string * string)) (sv' : server) :
  dashboard_action session_is_admin req sv =
    (session', is_admin, enroll_username, flashes, sv') ->
  is_admin = session' /\
  (session' = true <->
   (post req = true /\ form_action req = Some "admin_login"%string /\
    get_or (form_password req) "" = ADMIN_PASSWORD) \/
   (session_is_admin = true /\
    ~ (post req = true /\ form_action req = Some "admin_logout"%string))) /\
  (sv' = sv /\ enroll_username = None \/
   session_is_admin = true /\ post req = true /\
   form_action req = Some "enroll_user"%string /\
   strip (get_or (form_user req) "") <> ""%string /\
   enroll_username = Some (strip (get_or (form_user req) "")) /\
   sv' = with_files
           (create_user (strip (get_or (form_user req) "")) (files sv)) sv).
Proof.
  unfold dashboard_action.
  destruct (post req) eqn:Hpost.
  2:{ intros [= <- <- <- <- <-]. split; [reflexivity|]. split.
      - split; [intros ->; right; split; [reflexivity|]; intros [H _]; discriminate|].
        intros [[H _]|[H _]]; [discriminate|assumption].
      - left. split; reflexivity. }
  destruct (form_action req) as [action|] eqn:Hact.
  2:{ intros [= <- <- <- <- <-]. split; [reflexivity|]. split.
      - split; [intros ->; right; split; [reflexivity|]; intros [_ H]; discriminate|].
        intros [[_ [H _]]|[H _]]; [discriminate|assumption].
      - left. split; reflexivity. }
  destruct (String.eqb action "admin_login") eqn:Elogin.
  { apply String.eqb_eq in Elogin. subst action.
    destruct (String.eqb (get_or (form_password req) "") ADMIN_PASSWORD) eqn:Epw.
    - apply String.eqb_eq in Epw.
      intros [= <- <- <- <- <-]. split; [reflexivity|]. split.
      + split; [intros _; left; repeat split; assumption|reflexivity].
      + left. split; reflexivity.
    - apply String.eqb_neq in Epw.
      intros [= <- <- <- <- <-]. split; [reflexivity|]. split.
      + split.
        * intros ->. right. split; [reflexivity|]. intros [_ H]. discriminate.
        * intros [[_ [_ H]]|[H _]]; [contradiction|assumption].
      + left. split; reflexivity. }
  apply String.eqb_neq in Elogin.
  destruct (String.eqb action "admin_logout") eqn:Elogout.
  { apply String.eqb_eq in Elogout. subst action.
    intros [= <- <- <- <- <-]. split; [reflexivity|]. split.
    - split; [discriminate|].
      intros [[_ [H _]]|[_ H]]; [discriminate|].
      exfalso. apply H. split; reflexivity.
    - left. split; reflexivity. }
  apply String.eqb_neq in Elogout.
  assert (Hsession :
    session_is_admin = true <->
    (true = true /\ Some action = Some "admin_login"%string /\
     get_or (form_password req) "" = ADMIN_PASSWORD) \/
    (session_is_admin = true /\
     ~ (true = true /\ Some action = Some "admin_logout"%string))).
  { split.
    - intros ->. right. split; [reflexivity|]. intros [_ H]. congruence.
    - intros [[_ [H _]]|[H _]]; [congruence|assumption]. }
  destruct (String.eqb action "enroll_user") eqn:Eenroll.
  2:{ intros [= <- <- <- <- <-]. split; [reflexivity|]. split; [exact Hsession|].
      left. split; reflexivity. }
  apply String.eqb_eq in Eenroll. subst action.
  destruct session_is_admin; simpl.
  2:{ intros [= <- <- <- <- <-]. split; [reflexivity|]. split; [exact Hsession|].
      left. split; reflexivity. }
  destruct (String.eqb (strip (get_or (form_user req) "")) "") eqn:Ename.
  { intros [= <- <- <- <- <-]. split; [reflexivity|]. split; [exact Hsession|].
    left. split; reflexivity. }
  apply String.eqb_neq in Ename.
  intros [= <- <- <- <- <-]. split; [reflexivity|]. split; [exact Hsession|].
  right. repeat split; auto.
Qed.

(** X21. The dashboard creates users for the administrator only.  A request
    changes the JSON files only when the session is that of the
    administrator and the form asks to enrol a name that is not blank, and
    then by [create_user] alone: the voiceprints, the last result, the log
    and the secrets are never written, and no existing user loses
    samples. *)
Theorem dashboard_writes_as_admin (session_is_admin : bool)
    (req : dashboard_request) (sv : server) (session' : bool)
    (flashes : list (string * string)) (sv' : server) (page : dashboard_page) :
  dashboard session_is_admin req sv = (session', flashes, sv', page) ->
  (sv' <> sv ->
   session_is_admin = true /\ post req = true /\
   form_action req = Some "enroll_user"%string /\
   strip (get_or (form_user req) "") <> ""%string) /\
  voiceprints_json (files sv') = voiceprints_json (files sv) /\
  last_auth_json sv' = last_auth_json sv /\
  attempts_json sv' = attempts_json sv /\
  secrets_json sv' = secrets_json sv /\
  forall u entry,
    dict_get (load_users (files sv)) u = Some entry ->
    dict_get (load_users (files sv')) u = Some entry.
Proof.
  unfold dashboard.
  destruct (dashboard_action session_is_admin req sv)
    as [[[[s1 a1] en1] fl1] sv1] eqn:Hact.
  intros [= <- <- <- <-].
  destruct (dashboard_action_cases _ _ _ _ _ _ _ _ Hact)
    as (_ & _ & [[-> _]|(Hs & Hp & Ha & Hn & _ & ->)]).
  - split; [intros H; now contradiction H|]. repeat split; auto.
  - split; [intros _; repeat split; assumption|].
    split; [|split; [|split; [|split]]]; try reflexivity.
    + simpl. unfold create_user.
      destruct (dict_get _ _); reflexivity.
    + intros u entry Hu. simpl. unfold create_user.
      destruct (dict_get (load_users (files sv))
                  (strip (get_or (form_user req) ""))) eqn:Hnew;
        [assumption|].
      rewrite load_save_users, dict_get_set_other; [assumption|].
      intros Heq. subst u. congruence.
Qed.

(** X22. Administrator rights come from the password and go with a logout:
    after a request the session is that of the administrator exactly when
    the request was a login with the configured password, or the session
    already was the administrator's and the request was not a logout.  The
    page is rendered for the administrator exactly in that case. *)
Theorem dashboard_session (session_is_admin : bool) (req : dashboard_request)
    (sv : server) (session' : bool) (flashes : list (string * string))
    (sv' : server) (page : dashboard_page) :
  dashboard session_is_admin req sv = (session', flashes, sv', page) ->
  page_is_admin page = session' /\
  (session' = true <->
   (post req = true /\ form_action req = Some "admin_login"%string /\
    get_or (form_password req) "" = "admin123"%string) \/
   (session_is_admin = true /\
    ~ (post req = true /\ form_action req = Some "admin_logout"%string))).
Proof.
  unfold dashboard.
  destruct (dashboard_action session_is_admin req sv)
    as [[[[s1 a1] en1] fl1] sv1] eqn:Hact.
  intros [= <- <- <- <-]. simpl.
  destruct (dashboard_action_cases _ _ _ _ _ _ _ _ Hact) as (Ha & Hs & _).
  split; assumption.
Qed.

(** ** From enrolment to authentication *)

Section Journey.
Context {L : Librosa} {D : Deployment}.

(** [extract_features] reads the content of the file and nothing else. *)
Lemma extract_features_same_content (fs fs' : filesystem) (p p' : string)
    (f : file) :
  fs p = Some f -> fs' p' = Some f ->
  extract_features fs' p' = extract_features fs p.
Proof. intros H H'. unfold extract_features. now rewrite H, H'. Qed.

(** The run of [api_audio_enroll] once the recording is analysed and
    registered. *)
Lemma api_audio_enroll_run (u : upload)
    (form_username form_sample_idx : option string) (stamp : string)
    (fs fs1 : filesystem) (st st1 : store) (entry : user_entry)
    (feats : ndarray) :
  let username := strip (get_or form_username "") in
  let filepath := enroll_filepath username form_sample_idx stamp in
  filename u <> ""%string ->
  username <> ""%string ->
  dict_get (load_users st) username = Some entry ->
  file_save fs filepath (stream u) = Some fs1 ->
  extract_features fs1 filepath = Ok feats ->
  register_sample username filepath feats st = Some st1 ->
  api_audio_enroll (Some u) form_username form_sample_idx stamp fs st =
  match recompute_voiceprint username st1 with
  | Raise e => (EnrollRecomputeFailed e, fs1, st1)
  | Ok st2 => (EnrollOk, fs1, st2)
  end.
Proof.
  cbv zeta. intros Hf Hn Hu Hsave Hex Hreg. unfold api_audio_enroll.
  fold (enroll_filepath (strip (get_or form_username "")) form_sample_idx stamp).
  apply String.eqb_neq in Hf, Hn. simpl no_upload. rewrite Hf, Hn. simpl orb.
  now rewrite Hu, Hsave, Hex, Hreg.
Qed.

(** The run of [api_audio_authenticate] once the recording is analysed. *)
Lemma api_audio_authenticate_run (u : upload) (stamp timestamp_str : string)
    (fs fs1 : filesystem) (sv : server) (feats : ndarray)
    (best_user : option string) (distance : option R) :
  filename u <> ""%string ->
  file_save fs (auth_filepath stamp) (stream u) = Some fs1 ->
  extract_features fs1 (auth_filepath stamp) = Ok feats ->
  load_voiceprints (files sv) <> [] ->
  predict_speaker (load_voiceprints (files sv)) feats = (best_user, distance) ->
  api_audio_authenticate (Some u) stamp timestamp_str fs sv =
  (AuthDone
     match distance with
     | Some d => Rltb d config.DISTANCE_THRESHOLD
     | None => false
     end best_user distance,
   fs1,
   auth_recorded stamp timestamp_str
     match distance with
     | Some d => Rltb d config.DISTANCE_THRESHOLD
     | None => false
     end best_user distance sv).
Proof.
  intros Hf Hsave Hex Hne Hp. unfold api_audio_authenticate.
  fold (auth_filepath stamp).
  apply String.eqb_neq in Hf. simpl no_upload. rewrite Hf, Hsave, Hex.
  destruct (load_voiceprints (files sv)) as [|it l] eqn:Hvp; [contradiction|].
  now rewrite Hp.
Qed.

Lemma np_mean_axis0_single (v : ndarray) : np_mean_axis0 [v] = v.
Proof. unfold np_mean_axis0. simpl. apply np_div_one. Qed.

(** The first sample of a user, when nobody is enrolled, becomes the only
    voiceprint. *)
Lemma first_sample_enrolled (username filepath : string) (feats : ndarray)
    (st : store) (entry : user_entry) :
  dict_get (load_users st) username = Some entry ->
  audio_samples entry = Some [] ->
  load_voiceprints st = [] ->
  exists st1 st2,
    register_sample username filepath feats st = Some st1 /\
    recompute_voiceprint username st1 = Ok st2 /\
    load_voiceprints st2 = [(username, feats)].
Proof.
  intros Hu Hl Hvp.
  pose proof (register_sample_known username filepath feats st entry [] Hu Hl)
    as Hreg.
  simpl app in Hreg.
  set (entry1 := {| audio_samples :=
                      Some [{| path := filepath;
                               features := Some (tolist feats) |}] |}) in *.
  set (st1 := save_users (dict_set (load_users st) username entry1) st) in *.
  assert (Hu1 : dict_get (load_users st1) username = Some entry1).
  { subst st1. rewrite load_save_users. apply dict_get_set_same. }
  assert (Hvp1 : load_voiceprints st1 = []).
  { rewrite <- Hvp. now apply load_voiceprints_same_file. }
  exists st1, (save_voiceprints [(username, feats)] st1).
  split; [exact Hreg|]. split.
  - rewrite (recompute_voiceprint_stack username st1 entry1 Hu1);
      [|discriminate].
    subst entry1. unfold get_audio_samples.
    cbn [audio_samples collect_features features tolist np_array np_stack forallb].
    now rewrite np_mean_axis0_single, Hvp1.
  - apply load_save_voiceprints. simpl. repeat constructor. intros [].
Qed.

(** A query that is the only voiceprint is matched at distance 0. *)
Lemma predict_speaker_single (username : string) (v : ndarray) :
  np_linalg_norm v <> 0 ->
  predict_speaker [(username, v)] v = (Some username, Some 0).
Proof.
  intros Hnorm.
  destruct (predict_speaker_min [(username, v)] v)
    as (w & vp & Hin & _ & Hr & _).
  { apply Exists_cons_hd. reflexivity. }
  destruct Hin as [Hin|[]]. injection Hin as <- <-.
  rewrite Hr. do 2 f_equal.
  rewrite cosine_distance_nonzero_norm by assumption.
  rewrite <- (np_linalg_norm_sqr v). field. exact Hnorm.
Qed.

Lemma threshold_above_zero : Rltb 0 config.DISTANCE_THRESHOLD = true.
Proof. apply Rltb_true. unfold config.DISTANCE_THRESHOLD. lra. Qed.

(** X23. The first recording of a user opens the vault for that user.
    When nobody is enrolled yet and a user without samples sends a
    recording whose feature vector is not zero, [api_audio_enroll] answers
    200, and an [api_audio_authenticate] with the same audio afterwards
    answers 200 with success, that user, and distance 0; all this for a
    disk that stores the two recordings and gives them back. *)
Theorem enroll_then_authenticate (u u' : upload)
    (form_username form_sample_idx : option string)
    (stamp stamp' timestamp_str : string)
    (fs fs1 fs1' fs2 : filesystem) (st : store) (entry : user_entry)
    (feats : ndarray) :
  let username := strip (get_or form_username "") in
  let filepath := enroll_filepath username form_sample_idx stamp in
  filename u <> ""%string ->
  filename u' <> ""%string ->
  stream u' = stream u ->
  username <> ""%string ->
  dict_get (load_users st) username = Some entry ->
  audio_samples entry = Some [] ->
  load_voiceprints st = [] ->
  file_save fs filepath (stream u) = Some fs1 ->
  fs1 filepath = Some (stream u) ->
  extract_features fs1 filepath = Ok feats ->
  np_linalg_norm feats <> 0 ->
  file_save fs1' (auth_filepath stamp') (stream u') = Some fs2 ->
  fs2 (auth_filepath stamp') = Some (stream u') ->
  exists st1,
    api_audio_enroll (Some u) form_username form_sample_idx stamp fs st =
      (EnrollOk, fs1, st1) /\
    load_voiceprints st1 = [(username, feats)] /\
    forall sv,
      files sv = st1 ->
      api_audio_authenticate (Some u') stamp' timestamp_str fs1' sv =
      (AuthDone true (Some username) (Some 0), fs2,
       auth_recorded stamp' timestamp_str true (Some username) (Some 0) sv).
Proof.
  cbv zeta.
  set (username := strip (get_or form_username "")).
  set (filepath := enroll_filepath username form_sample_idx stamp).
  intros Hf Hf' Hstream Hn Hu Hl Hvp Hsave Hread Hex Hnorm Hsave' Hread'.
  destruct (first_sample_enrolled username filepath feats st entry Hu Hl Hvp)
    as (st1 & st2 & Hreg & Hrec & Hload).
  exists st2. split; [|split].
  - rewrite (api_audio_enroll_run u form_username form_sample_idx stamp fs fs1
               st st1 entry feats Hf Hn Hu Hsave Hex Hreg).
    fold username. now rewrite Hrec.
  - exact Hload.
  - intros sv Hfiles.
    assert (Hex' : extract_features fs2 (auth_filepath stamp') = Ok feats).
    { rewrite <- Hex. apply (extract_features_same_content _ _ _ _ (stream u)).
      - assumption.
      - now rewrite <- Hstream. }
    assert (Hp : predict_speaker (load_voiceprints (files sv)) feats =
                 (Some username, Some 0)).
    { rewrite Hfiles, Hload. now apply predict_speaker_single. }
    rewrite (api_audio_authenticate_run u' stamp' timestamp_str fs1' fs2 sv feats
               (Some username) (Some 0) Hf' Hsave' Hex').
    + now rewrite threshold_above_zero.
    + rewrite Hfiles, Hload. discriminate.
    + exact Hp.
Qed.

(** X24. The dashboard shows what the last authentication decided: after a
    response of 200 from [api_audio_authenticate], whatever the request to
    the dashboard, the vault is shown unlocked exactly when the response
    reported success; the user shown is the one of the response on success
    and nobody otherwise, and an unlocked vault always names a user, whose
    distance was under the threshold. *)
Theorem dashboard_after_authenticate (audio_file : option upload)
    (stamp timestamp_str : string) (fs fs' : filesystem) (sv sv' : server)
    (success : bool) (best_user : option string) (distance : option R)
    (session_is_admin session' : bool) (req : dashboard_request)
    (flashes : list (string * string)) (sv'' : server) (page : dashboard_page) :
  api_audio_authenticate audio_file stamp timestamp_str fs sv =
    (AuthDone success best_user distance, fs', sv') ->
  dashboard session_is_admin req sv' = (session', flashes, sv'', page) ->
  page_is_unlocked page = success /\
  page_recognized_user page = (if success then best_user else None) /\
  page_distance page = distance /\
  (page_is_unlocked page = true ->
   exists u d,
     page_recognized_user page = Some u /\ distance = Some d /\
     d < config.DISTANCE_THRESHOLD).
Proof.
  intros Hauth Hdash.
  destruct (api_audio_authenticate_cases audio_file stamp timestamp_str fs sv)
    as [H|[H|[(u & fs1 & e & _ & _ & _ & H)|[(u & fs1 & feats & _ & _ & _ & _ & H)
       |(u & fs1 & feats & bu & d & _ & _ & Hex & _ & Hp & H)]]]];
    cbv zeta in H; rewrite H in Hauth; try discriminate.
  injection Hauth as <- <- <- <- <-.
  unfold dashboard in Hdash.
  destruct (dashboard_action session_is_admin req _)
    as [[[[s1 a1] en1] fl1] sv1] eqn:Hact.
  injection Hdash as <- <- <- <-.
  assert (Hlast : load_last_auth_result sv1 =
    Some {| result_timestamp := timestamp_str;
            result_success :=
              match d with
              | Some d0 => Rltb d0 config.DISTANCE_THRESHOLD
              | None => false
              end;
            result_user :=
              if match d with
                 | Some d0 => Rltb d0 config.DISTANCE_THRESHOLD
                 | None => false
                 end then bu else None;
            result_distance := d;
            result_raw_best_user := bu |}).
  { destruct (dashboard_action_cases _ _ _ _ _ _ _ _ Hact)
      as (_ & _ & [[-> _]|(_ & _ & _ & _ & _ & ->)]); reflexivity. }
  simpl. rewrite Hlast. simpl.
  split; [reflexivity|]. split; [reflexivity|]. split; [reflexivity|].
  intros Hs. destruct d as [d0|]; [|discriminate].
  rewrite Hs. apply Rltb_true in Hs.
  destruct (same_shape_all_or_some (load_voiceprints (files sv)) feats)
    as [Hall|Hsome].
  - rewrite (predict_speaker_none _ _ Hall) in Hp. discriminate.
  - destruct (predict_speaker_min _ _ Hsome) as (w & vp & _ & _ & Hr & _).
    rewrite Hr in Hp. injection Hp as <- _.
    exists w, d0. repeat split; auto.
Qed.
End Journey.

(** ** A first enrolment, step by step *)

Lemma loud_features_extracted (fs : filesystem) (p : string) (f : file) :
  fs p = Some f ->
  @extract_features loud_librosa fs p = Ok loud_features.
Proof.
  intros Hf.
  rewrite (@extract_features_ok loud_librosa fs p f silence silence
             config.SAMPLE_RATE Hf eq_refl silence_nonempty eq_refl).
  - unfold loud_librosa, recording_librosa, librosa_feature_mfcc.
    rewrite loud_raw_eq, l2_normalize_above; rewrite loud_raw_norm.
    + reflexivity.
    + unfold epsilon. lra.
  - rewrite size_silence. lia.
  - vm_compute. discriminate.
Qed.

Lemma loud_features_norm : np_linalg_norm loud_features <> 0.
Proof.
  unfold loud_features. rewrite <- loud_raw_norm.
  rewrite np_linalg_norm_np_div; [lra|rewrite loud_raw_norm; lra].
Qed.

Lemma first_enrolment_example :
  exists st1,
    @api_audio_enroll loud_librosa plain_deployment (Some recording)
      (Some " alice "%string) (Some "1"%string) "20250101_120000"
      no_files fresh_store =
    (EnrollOk, disk_with enroll_path no_files, st1) /\
    load_voiceprints st1 = [("alice"%string, loud_features)].
Proof.
  destruct (first_sample_enrolled "alice" enroll_path loud_features fresh_store
              {| audio_samples := Some [] |} eq_refl eq_refl eq_refl)
    as (st1 & st2 & Hreg & Hrec & Hload).
  exists st2. split; [|exact Hload].
  rewrite (@api_audio_enroll_run loud_librosa plain_deployment recording
             (Some " alice "%string) (Some "1"%string) "20250101_120000"
             no_files (disk_with enroll_path no_files) fresh_store st1
             {| audio_samples := Some [] |} loud_features).
  - change (strip (get_or (Some " alice "%string) "")) with "alice"%string.
    now rewrite Hrec.
  - discriminate.
  - vm_compute. discriminate.
  - reflexivity.
  - reflexivity.
  - apply (loud_features_extracted _ _ []). reflexivity.
  - exact Hreg.
Qed.

Lemma first_authentication_example (fs : filesystem) (sv : server) :
  load_voiceprints (files sv) = [("alice"%string, loud_features)] ->
  @api_audio_authenticate loud_librosa plain_deployment (Some recording)
    "20250101_120500" "2025-01-01 12:05:00" fs sv =
  (AuthDone true (Some "alice"%string) (Some 0), disk_with auth_path fs,
   @auth_recorded plain_deployment "20250101_120500" "2025-01-01 12:05:00"
     true (Some "alice"%string) (Some 0) sv).
Proof.
  intros Hload.
  rewrite (@api_audio_authenticate_run loud_librosa plain_deployment recording
             "20250101_120500" "2025-01-01 12:05:00" fs
             (disk_with auth_path fs) sv loud_features
             (Some "alice"%string) (Some 0)).
  - now rewrite threshold_above_zero.
  - discriminate.
  - reflexivity.
  - apply (loud_features_extracted _ _ []). reflexivity.
  - rewrite Hload. discriminate.
  - rewrite Hload. apply predict_speaker_single, loud_features_norm.
Qed.

Lemma mismatch_enrolment_example :
  exists st1,
    @api_audio_enroll loud_librosa plain_deployment (Some recording)
      (Some " alice "%string) (Some "1"%string) "20250101_120000"
      no_files short_sample_store =
    (EnrollRecomputeFailed
       (ValueError "all input arrays must have the same shape"),
     disk_with enroll_path no_files, st1).
Proof.
  pose (st1 :=
    save_users
      (dict_set (load_users short_sample_store) "alice"
         {| audio_samples :=
              Some (samples_of [[1; 0]] ++
                    [enrolled_sample enroll_path loud_features]) |})
      short_sample_store).
  exists st1.
  rewrite (@api_audio_enroll_run loud_librosa plain_deployment recording
             (Some " alice "%string) (Some "1"%string) "20250101_120000"
             no_files (disk_with enroll_path no_files) short_sample_store st1
             {| audio_samples := Some (samples_of [[1; 0]]) |} loud_features).
  - change (strip (get_or (Some " alice "%string) "")) with "alice"%string.
    rewrite (recompute_voiceprint_stack "alice" st1
               {| audio_samples :=
                    Some (samples_of [[1; 0]] ++
                          [enrolled_sample enroll_path loud_features]) |});
      [|reflexivity|discriminate].
    reflexivity.
  - discriminate.
  - vm_compute. discriminate.
  - reflexivity.
  - reflexivity.
  - apply (loud_features_extracted _ _ []). reflexivity.
  - reflexivity.
Qed.

(** ** The handlers on the first enrolment *)

Lemma api_audio_authenticate_effect_witness :
  exists fs' sv',
    @api_audio_authenticate loud_librosa plain_deployment (Some recording)
      "20250101_120500" "2025-01-01 12:05:00" no_files enrolled_server =
    (AuthDone true (Some "alice"%string) (Some 0), fs', sv') /\
    files sv' = files enrolled_server /\
    secrets_json sv' = secrets_json enrolled_server.
Proof.
  pose proof (first_authentication_example no_files enrolled_server eq_refl) as H.
  do 2 eexists. split; [exact H|].
  destruct (api_audio_authenticate_effect _ _ _ _ _ _ _ _ H) as (H1 & H2 & _).
  split; assumption.
Defined.

Lemma api_audio_authenticate_decision_witness :
  exists fs' sv',
    @api_audio_authenticate loud_librosa plain_deployment (Some recording)
      "20250101_120500" "2025-01-01 12:05:00" no_files enrolled_server =
    (AuthDone true (Some "alice"%string) (Some 0), fs', sv') /\
    exists u vp,
      In (u, vp) (load_voiceprints (files enrolled_server)) /\
      matcher_distance loud_features vp < config.DISTANCE_THRESHOLD.
Proof.
  pose proof (first_authentication_example no_files enrolled_server eq_refl) as H.
  do 2 eexists. split; [exact H|].
  destruct (api_audio_authenticate_decision _ _ _ _ _ _ _ _ _ _ H)
    as (feats & Hex & _ & _ & Hiff & _).
  assert (Hf : feats = loud_features).
  { rewrite (loud_features_extracted _ _ []) in Hex by reflexivity.
    now injection Hex as <-. }
  subst feats.
  destruct (proj1 Hiff eq_refl) as (u & vp & Hin & _ & Hlt).
  exists u, vp. split; assumption.
Defined.

Lemma api_audio_enroll_effect_witness :
  exists st1,
    @api_audio_enroll loud_librosa plain_deployment (Some recording)
      (Some " alice "%string) (Some "1"%string) "20250101_120000"
      no_files fresh_store =
    (EnrollOk, disk_with enroll_path no_files, st1) /\
    keys (load_users st1) = keys (load_users fresh_store).
Proof.
  destruct first_enrolment_example as (st1 & H & _).
  exists st1. split; [exact H|].
  exact (proj1 (proj2 (proj2 (api_audio_enroll_effect _ _ _ _ _ _ _ _ _ H)))).
Defined.

Lemma api_audio_enroll_success_witness :
  exists st1,
    @api_audio_enroll loud_librosa plain_deployment (Some recording)
      (Some " alice "%string) (Some "1"%string) "20250101_120000"
      no_files fresh_store =
    (EnrollOk, disk_with enroll_path no_files, st1) /\
    exists entry l feats,
      dict_get (load_users fresh_store) "alice" = Some entry /\
      audio_samples entry = Some l /\
      dict_get (load_users st1) "alice" =
        Some {| audio_samples :=
                  Some (l ++ [enrolled_sample enroll_path feats]) |}.
Proof.
  destruct first_enrolment_example as (st1 & H & _).
  exists st1. split; [exact H|].
  destruct (api_audio_enroll_success _ _ _ _ _ _ _ _ H)
    as (entry & l & feats & Hu & Hl & _ & Hu1 & _).
  exists entry, l, feats. repeat split; assumption.
Defined.

Lemma api_audio_enroll_recompute_failure_witness :
  exists st1,
    @api_audio_enroll loud_librosa plain_deployment (Some recording)
      (Some " alice "%string) (Some "1"%string) "20250101_120000"
      no_files short_sample_store =
    (EnrollRecomputeFailed
       (ValueError "all input arrays must have the same shape"),
     disk_with enroll_path no_files, st1) /\
    voiceprints_json st1 = voiceprints_json short_sample_store.
Proof.
  destruct mismatch_enrolment_example as (st1 & H).
  exists st1. split; [exact H|].
  exact (proj1 (proj2 (api_audio_enroll_recompute_failure _ _ _ _ _ _ _ _ _ H))).
Defined.

Lemma dashboard_writes_as_admin_witness :
  exists session' flashes sv' page,
    dashboard true (enroll_user_request " bob ") (empty_server fresh_store) =
      (session', flashes, sv', page) /\
    dict_get (load_users (files sv')) "alice" =
      Some {| audio_samples := Some [] |}.
Proof.
  destruct (dashboard true (enroll_user_request " bob ")
              (empty_server fresh_store)) as [[[s' fl] sv'] page] eqn:H.
  exists s', fl, sv', page. split; [reflexivity|].
  apply (proj2 (proj2 (proj2 (proj2 (proj2
           (dashboard_writes_as_admin _ _ _ _ _ _ _ H)))))).
  reflexivity.
Defined.

Lemma dashboard_session_witness :
  exists session' flashes sv' page,
    dashboard false (login_request "admin123") (empty_server fresh_store) =
      (session', flashes, sv', page) /\
    session' = true.
Proof.
  destruct (dashboard false (login_request "admin123")
              (empty_server fresh_store)) as [[[s' fl] sv'] page] eqn:H.
  exists s', fl, sv', page. split; [reflexivity|].
  apply (proj2 (dashboard_session _ _ _ _ _ _ _ H)).
  left. repeat split; reflexivity.
Defined.

Lemma enroll_then_authenticate_witness :
  exists st1,
    @api_audio_enroll loud_librosa plain_deployment (Some recording)
      (Some " alice "%string) (Some "1"%string) "20250101_120000"
      no_files fresh_store =
    (EnrollOk, disk_with enroll_path no_files, st1) /\
    @api_audio_authenticate loud_librosa plain_deployment (Some recording)
      "20250101_120500" "2025-01-01 12:05:00"
      (disk_with enroll_path no_files) (empty_server st1) =
    (AuthDone true (Some "alice"%string) (Some 0),
     disk_with auth_path (disk_with enroll_path no_files),
     @auth_recorded plain_deployment "20250101_120500" "2025-01-01 12:05:00"
       true (Some "alice"%string) (Some 0) (empty_server st1)).
Proof.
  destruct (@enroll_then_authenticate loud_librosa plain_deployment
              recording recording (Some " alice "%string) (Some "1"%string)
              "20250101_120000" "20250101_120500" "2025-01-01 12:05:00"
              no_files (disk_with enroll_path no_files)
              (disk_with enroll_path no_files)
              (disk_with auth_path (disk_with enroll_path no_files))
              fresh_store {| audio_samples := Some [] |} loud_features)
    as (st1 & Henroll & _ & Hauth).
  - discriminate.
  - discriminate.
  - reflexivity.
  - vm_compute. discriminate.
  - reflexivity.
  - reflexivity.
  - reflexivity.
  - reflexivity.
  - reflexivity.
  - apply (loud_features_extracted _ _ []). reflexivity.
  - exact loud_features_norm.
  - reflexivity.
  - reflexivity.
  - exists st1. split; [exact Henroll|]. now apply Hauth.
Defined.

Lemma dashboard_after_authenticate_witness :
  exists fs' sv' session' flashes sv'' page,
    @api_audio_authenticate loud_librosa plain_deployment (Some recording)
      "20250101_120500" "2025-01-01 12:05:00" no_files enrolled_server =
    (AuthDone true (Some "alice"%string) (Some 0), fs', sv') /\
    dashboard false (login_request "guess") sv' =
      (session', flashes, sv'', page) /\
    page_is_unlocked page = true /\
    page_recognized_user page = Some "alice"%string.
Proof.
  pose proof (first_authentication_example no_files enrolled_server eq_refl) as H.
  destruct (dashboard false (login_request "guess")
              (@auth_recorded plain_deployment "20250101_120500"
                 "2025-01-01 12:05:00" true (Some "alice"%string) (Some 0)
                 enrolled_server)) as [[[s' fl] sv''] page] eqn:Hd.
  do 6 eexists. split; [exact H|]. split; [exact Hd|].
  destruct (dashboard_after_authenticate _ _ _ _ _ _ _ _ _ _ _ _ _ _ _ _ H Hd)
    as (H1 & H2 & _).
  split; assumption.
Defined.

(** * Further properties of the client *)

Lemma rstrip_with_dropped (drop : ascii -> bool) (s : string) (c : ascii) :
  drop c = true ->
  rstrip_with drop (s ++ String c EmptyString) = rstrip_with drop s.
Proof.
  intros Hc. induction s as [|a s IH]; simpl.
  - now rewrite Hc.
  - now rewrite IH.
Qed.

Lemma rstrip_slash_no_slash (s : string) :
  endswith_slash (rstrip_slash s) = false.
Proof.
  unfold rstrip_slash. induction s as [|c s IH]; [reflexivity|].
  cbn [rstrip_with].
  destruct (rstrip_with (Ascii.eqb "/") s) as [|a r] eqn:E.
  - destruct (Ascii.eqb "/" c) eqn:Ec; [reflexivity|].
    cbn [endswith_slash]. rewrite Ascii.eqb_sym. exact Ec.
  - cbn [endswith_slash]. exact IH.
Qed.

Lemma rstrip_slash_fixed (s : string) :
  endswith_slash s = false -> rstrip_slash s = s.
Proof.
  unfold rstrip_slash. induction s as [|c s IH]; [reflexivity|].
  intros H. cbn [rstrip_with]. destruct s as [|a s'].
  - cbn [endswith_slash] in H. cbn [rstrip_with].
    rewrite Ascii.eqb_sym, H. reflexivity.
  - cbn [endswith_slash] in H. rewrite (IH H). reflexivity.
Qed.

(** X25. [build_url] does not care how many slashes end the address of the
    server: an address with one more slash at the end gives the same URL,
    the address is cut so that no slash is left before the endpoint, and an
    address that ends without a slash is used as it is. *)
Theorem build_url_slashes (server_url endpoint : string) :
  build_url (server_url ++ "/") endpoint = build_url server_url endpoint /\
  (exists base,
      build_url server_url endpoint = (base ++ endpoint)%string /\
      endswith_slash base = false /\
      build_url base endpoint = (base ++ endpoint)%string) /\
  (endswith_slash server_url = false ->
   build_url server_url endpoint = (server_url ++ endpoint)%string).
Proof.
  unfold build_url. split; [|split].
  - unfold rstrip_slash. now rewrite rstrip_with_dropped.
  - exists (rstrip_slash server_url). split; [reflexivity|].
    split; [apply rstrip_slash_no_slash|].
    now rewrite (rstrip_slash_fixed _ (rstrip_slash_no_slash server_url)).
  - intros H. now rewrite rstrip_slash_fixed.
Qed.

Lemma build_url_slashes_witness :
  endswith_slash "http://172.20.10.6:5001" = false /\
  build_url ("http://172.20.10.6:5001" ++ "/") "/api/audio/enroll" =
    "http://172.20.10.6:5001/api/audio/enroll"%string.
Proof.
  split; [reflexivity|].
  rewrite (proj1 (build_url_slashes "http://172.20.10.6:5001"
                    "/api/audio/enroll")).
  apply (proj2 (proj2 (build_url_slashes "http://172.20.10.6:5001"
                          "/api/audio/enroll"))).
  reflexivity.
Defined.

(** * A user blocked by a sample of another dimension *)

Lemma np_stack_blocked (d : nat) (vs rest : list ndarray) (v : ndarray) :
  vs <> [] -> Forall (fun a => shape a = d) vs -> shape v <> d ->
  np_stack (vs ++ v :: rest) =
  Raise (ValueError "all input arrays must have the same shape").
Proof.
  intros Hne Hall Hv. destruct vs as [|a vs']; [contradiction|].
  inversion Hall as [|? ? Ha Hrest]; subst. simpl.
  replace (forallb _ (vs' ++ v :: rest)) with false; [reflexivity|].
  symmetry. rewrite forallb_app. simpl.
  apply Nat.eqb_neq in Hv. rewrite Hv. simpl. now rewrite andb_false_r.
Qed.

(** Once the samples of a user hold arrays of two dimensions, every
    sequence of registrations ends in a store on which
    [recompute_voiceprint] raises. *)
Lemma blocked_stays_blocked (username : string) (d : nat) (vs : list ndarray)
    (feats : ndarray) :
  vs <> [] -> Forall (fun a => shape a = d) vs -> shape feats <> d ->
  forall (recordings : list (string * ndarray)) (st : store)
         (entry : user_entry) (l : list sample) (rest : list ndarray),
    dict_get (load_users st) username = Some entry ->
    audio_samples entry = Some l ->
    map features l = map (fun v => Some (tolist v)) (vs ++ feats :: rest) ->
    exists st',
      register_samples username recordings st = Some st' /\
      recompute_voiceprint username st' =
        Raise (ValueError "all input arrays must have the same shape").
Proof.
  intros Hne Hall Hf.
  induction recordings as [|[audio_path v] recordings IH];
    intros st entry l rest Hu Hl Hs.
  - exists st. split; [reflexivity|].
    assert (Hc : collect_features (get_audio_samples entry) =
                 vs ++ feats :: rest).
    { unfold get_audio_samples. rewrite Hl.
      now apply collect_features_samples. }
    rewrite (recompute_voiceprint_stack username st entry Hu).
    + now rewrite Hc, (np_stack_blocked d).
    + rewrite Hc. destruct vs; discriminate.
  - cbn [register_samples].
    rewrite (register_sample_known username audio_path v st entry l Hu Hl).
    apply (IH _ {| audio_samples :=
                     Some (l ++ [{| path := audio_path;
                                    features := Some (tolist v) |}]) |}
              (l ++ [{| path := audio_path; features := Some (tolist v) |}])
              (rest ++ [v])).
    + rewrite load_save_users. apply dict_get_set_same.
    + reflexivity.
    + rewrite map_app, Hs, !map_app. simpl.
      rewrite map_app, <- app_assoc. reflexivity.
Qed.

(** X13. A feature vector of another dimension blocks the user: once
    [register_sample] has added it to samples of dimension [d],
    [recompute_voiceprint] raises the error of [np.stack], and it raises it
    again after any number of further calls of [register_sample] for that
    user, whatever they add. *)
Theorem register_then_recompute_mismatch (username audio_path : string)
    (feats : ndarray) (st : store) (entry : user_entry) (samples : list sample)
    (vs : list ndarray) (d : nat) :
  dict_get (load_users st) username = Some entry ->
  audio_samples entry = Some samples ->
  map features samples = map (fun v => Some (tolist v)) vs ->
  vs <> [] ->
  Forall (fun v => shape v = d) vs ->
  shape feats <> d ->
  exists st1,
    register_sample username audio_path feats st = Some st1 /\
    recompute_voiceprint username st1 =
      Raise (ValueError "all input arrays must have the same shape") /\
    forall recordings : list (string * ndarray),
      exists st2,
        register_samples username recordings st1 = Some st2 /\
        recompute_voiceprint username st2 =
          Raise (ValueError "all input arrays must have the same shape").
Proof.
  intros Hu Hl Hs Hne Hall Hf.
  eexists. split; [now apply (register_sample_known _ _ _ _ entry samples)|].
  set (s1 := {| path := audio_path; features := Some (tolist feats) |}).
  set (st1 := save_users _ st).
  assert (Hu1 : dict_get (load_users st1) username =
                Some {| audio_samples := Some (samples ++ [s1]) |}).
  { subst st1. rewrite load_save_users. apply dict_get_set_same. }
  assert (Hs1 : map features (samples ++ [s1]) =
                map (fun v => Some (tolist v)) (vs ++ feats :: [])).
  { rewrite !map_app, Hs. reflexivity. }
  assert (Hall_after : forall recordings : list (string * ndarray),
             exists st2,
               register_samples username recordings st1 = Some st2 /\
               recompute_voiceprint username st2 =
                 Raise (ValueError "all input arrays must have the same shape")).
  { intros recordings.
    now apply (blocked_stays_blocked username d vs feats Hne Hall Hf recordings
                 st1 {| audio_samples := Some (samples ++ [s1]) |}
                 (samples ++ [s1]) []). }
  split; [|exact Hall_after].
  destruct (Hall_after []) as (st2 & Hreg & Hrec).
  cbn [register_samples] in Hreg. injection Hreg as <-. exact Hrec.
Qed.

Lemma register_then_recompute_mismatch_witness :
  exists st1,
    register_sample "alice" "a.wav" [0; 1; 0]
      (enrolled_store "alice" toy_samples None) = Some st1 /\
    exists st2,
      register_samples "alice"
        [("b.wav"%string, [1; 0]); ("c.wav"%string, [0; 1])] st1 = Some st2 /\
      recompute_voiceprint "alice" st2 =
        Raise (ValueError "all input arrays must have the same shape").
Proof.
  destruct (register_then_recompute_mismatch "alice" "a.wav" [0; 1; 0]
              (enrolled_store "alice" toy_samples None)
              {| audio_samples := Some (samples_of toy_samples) |}
              (samples_of toy_samples) toy_samples 2)
    as (st1 & H1 & _ & H3).
  - reflexivity.
  - reflexivity.
  - reflexivity.
  - discriminate.
  - repeat constructor.
  - discriminate.
  - exists st1. split; [assumption|]. apply H3.
Defined.

(** [strip] removes white space of one, two and three bytes at both ends
    and keeps what is inside. *)
Example strip_unicode :
  strip (String (ascii_of_nat 194) (String (ascii_of_nat 160)
           (" alice b" ++
            String (ascii_of_nat 226) (String (ascii_of_nat 128)
              (String (ascii_of_nat 131) (String (ascii_of_nat 10)
                 EmptyString)))))) = "alice b"%string /\
  strip (String (ascii_of_nat 194) (String (ascii_of_nat 160) EmptyString)) =
    EmptyString.
Proof. split; reflexivity. Qed.
